(** * IA-alerter: the workload runner and the alerter, embedded and verified

    The development follows the two source files:
    - [workload_runner.py]: [get_baseline_cost], [get_optimized_cost], the
      per-query body of [run_phase] and [save_stats];
    - [alerter.py]: [get_existing_indexes], [get_real_index_size],
      [estimate_create_index_cost], [estimate_drop_index_cost],
      [extract_hot_columns_from_measurements] and [analyze_workload].

    Conventions of the embedding.
    - Python floats (planner costs, percentages) are exact rationals [Q];
      equalities between them are stated with [==].  Integers (index sizes,
      byte budgets) are [Z]; counters are [nat].
    - A Python [dict] is an association list kept in insertion order, which
      is the order Python iterates it in.
    - The database is an [oracle]: a record of the answers the server gives.
      Every statement the code wraps in [try] has an answer that stands for
      the exception.

    The main theorems are numbered C1 to C10 after the properties of the
    specification they settle. *)

From Stdlib Require Import List String Ascii Bool Arith ZArith QArith Qminmax
  Qround Lia Lqa Permutation Sorting.Sorted.
Import ListNotations.

Local Open Scope string_scope.
Local Open Scope Z_scope.
Local Open Scope Q_scope.

(** ** Python built-ins used by the source *)

Module Py.

(** [min(a, b)]: the first argument unless the second is strictly smaller. *)
Definition min (a b : Q) : Q := if Qle_bool a b then a else b.

(** [max(a, b)]: the first argument unless the second is strictly larger. *)
Definition max (a b : Q) : Q := if Qle_bool b a then a else b.

(** [sum(l)] over floats. *)
Definition sum (l : list Q) : Q := fold_left Qplus l 0.

(** [sum(l)] over integers. *)
Definition sumZ (l : list Z) : Z := fold_left Z.add l 0%Z.

(** [x in l] for a list (or set) of strings. *)
Definition mem (x : string) (l : list string) : bool :=
  existsb (String.eqb x) l.

(** [sep.join(l)]. *)
Definition join (sep : string) (l : list string) : string :=
  String.concat sep l.

(** [s[:n]]. *)
Definition take (n : nat) (s : string) : string := substring 0 n s.

(** [needle in hay] for strings. *)
Fixpoint contains (needle hay : string) : bool :=
  if prefix needle hay then true
  else match hay with
       | EmptyString => false
       | String _ rest => contains needle rest
       end.

(** [s.replace(old, new)] for a non-empty [old]: occurrences are replaced
    left to right without overlap.  [skip] counts the characters of a match
    that are still to be dropped. *)
Fixpoint replace_from (old new : string) (skip : nat) (s : string) : string :=
  match s with
  | EmptyString => EmptyString
  | String c rest =>
      match skip with
      | S k => replace_from old new k rest
      | O =>
          if prefix old s
          then new ++ replace_from old new (String.length old - 1) rest
          else String c (replace_from old new 0 rest)
      end
  end.

Definition replace (old new s : string) : string := replace_from old new 0 s.

(** [round(x, 2)]: to the nearest hundredth, ties to the even one. *)
Definition round2 (x : Q) : Q :=
  let y := x * 100 in
  let f := Qfloor y in
  let r := y - inject_Z f in
  let n := if Qle_bool r (1 # 2)
           then (if Qle_bool (1 # 2) r
                 then (if Z.even f then f else (f + 1)%Z)
                 else f)
           else (f + 1)%Z in
  inject_Z n / 100.

(** [sorted(l)] for strings, by code point. *)
Fixpoint insert_str (x : string) (l : list string) : list string :=
  match l with
  | [] => [x]
  | y :: rest => if String.leb x y then x :: y :: rest
                 else y :: insert_str x rest
  end.

Definition sorted (l : list string) : list string :=
  fold_right insert_str [] l.

End Py.

(** ** Dictionaries in insertion order *)

Section Dict.
Context {V : Type}.

Definition dict := list (string * V).

Fixpoint dict_get (k : string) (d : dict) : option V :=
  match d with
  | [] => None
  | (k', v) :: rest => if String.eqb k k' then Some v else dict_get k rest
  end.

(** [d[k] = v]: in place when the key exists, appended otherwise. *)
Fixpoint dict_set (k : string) (v : V) (d : dict) : dict :=
  match d with
  | [] => [(k, v)]
  | (k', v') :: rest =>
      if String.eqb k k' then (k', v) :: rest
      else (k', v') :: dict_set k v rest
  end.

Definition dict_values (d : dict) : list V := map snd d.
Definition dict_keys (d : dict) : list string := map fst d.
End Dict.

Arguments dict V : clear implicits.

(** ** The database session and its oracle

    The cost oracle is PostgreSQL with the HypoPG extension, reached through
    one connection.  [session] is the part of the server state the code
    relies on: the hypothetical indexes that are active, the next object
    identifier HypoPG will hand out, and the number of interactions made so
    far on the connection.  The [oracle] gives the server's answer to each
    interaction; it is indexed by that number, so that two interactions of
    the same kind may be answered differently. *)

Inductive result (A : Type) : Type :=
| Ok (a : A)
| Raised.
Arguments Ok {A} a.
Arguments Raised {A}.

Record session : Type := {
  active : list Z;
  next_oid : Z;
  step : nat
}.

Inductive create_answer : Type :=
| CreateError
| CreateNoRow
| Created (index_name : string).

Inductive size_answer : Type :=
| SizeError
| SizeNoRow
| SizeRow (bytes : Z).

Record oracle : Type := {
  (** [self.conn.cursor()] succeeds *)
  cursor_opens : nat -> bool;
  (** [CREATE EXTENSION IF NOT EXISTS hypopg] succeeds *)
  create_extension : nat -> bool;
  (** [EXPLAIN (FORMAT JSON[, VERBOSE]) query] under the active hypothetical
      indexes: total cost and the plan as JSON text, or [None] when the
      statement raises or yields no plan *)
  explain : nat -> bool -> string -> list Z -> option (Q * string);
  (** [SELECT * FROM hypopg_create_index(stmt)] *)
  hypopg_create_index : nat -> string -> create_answer;
  (** [SELECT hypopg_relation_size(oid)] *)
  hypopg_relation_size : nat -> Z -> size_answer;
  (** [SELECT * FROM hypopg_drop_index(oid)] succeeds *)
  hypopg_drop_index : nat -> Z -> bool;
  (** [self.conn.commit()] succeeds *)
  commit : nat -> bool
}.

Definition tick (s : session) : session :=
  {| active := active s; next_oid := next_oid s; step := S (step s) |}.

Definition db_cursor (O : oracle) (s : session) : bool * session :=
  (cursor_opens O (step s), tick s).

Definition db_commit (O : oracle) (s : session) : bool * session :=
  (commit O (step s), tick s).

Definition db_create_extension (O : oracle) (s : session) : session :=
  if create_extension O (step s) then snd (db_commit O (tick s)) else tick s.

Definition db_explain (O : oracle) (verbose : bool) (query : string)
    (s : session) : option (Q * string) * session :=
  (explain O (step s) verbose query (active s), tick s).

Definition db_create_index (O : oracle) (stmt : string) (s : session)
  : result (option (Z * string)) * session :=
  match hypopg_create_index O (step s) stmt with
  | CreateError => (Raised, tick s)
  | CreateNoRow => (Ok None, tick s)
  | Created name =>
      (Ok (Some (next_oid s, name)),
       {| active := next_oid s :: active s;
          next_oid := (next_oid s + 1)%Z;
          step := S (step s) |})
  end.

Definition db_relation_size (O : oracle) (oid : Z) (s : session)
  : result (option Z) * session :=
  (match hypopg_relation_size O (step s) oid with
   | SizeError => Raised
   | SizeNoRow => Ok None
   | SizeRow b => Ok (Some b)
   end, tick s).

Definition db_drop_index (O : oracle) (oid : Z) (s : session)
  : result unit * session :=
  if hypopg_drop_index O (step s) oid
  then (Ok tt, {| active := remove Z.eq_dec oid (active s);
                  next_oid := next_oid s;
                  step := S (step s) |})
  else (Raised, tick s).

(** A session is well formed when HypoPG has never handed out an identifier
    at or above [next_oid]. *)
Definition session_wf (s : session) : Prop :=
  Forall (fun o => (o < next_oid s)%Z) (active s).

(** Strict comparison of floats, as a boolean. *)
Definition Qltb (a b : Q) : bool := negb (Qle_bool b a).

Definition timestamp := string.

(** ** workload_runner.py *)

Module Runner.

(** One element of [index_info['all_created']] or of
    [index_info['used_by_query']]. *)
Record index_desc : Type := {
  index_name : string;
  columns : list string;
  table : string;
  size_bytes : Z
}.

(** [self.index_info]; the attribute is absent ([None]) until the first call
    of [get_optimized_cost] that reaches the creation of indexes. *)
Record index_info_t : Type := {
  all_created : list index_desc;
  used_by_query : list index_desc
}.

(** One value of [stats['queries']]. *)
Record query_stats : Type := {
  full_query : string;
  tables : list string;
  hot_columns : list string;
  executions : nat;
  total_baseline_cost : Q;
  total_optimized_cost : Q;
  avg_improvement_pct : Q;
  min_improvement_pct : Q;
  max_improvement_pct : Q;
  total_index_size_bytes : Z;
  used_indexes : list index_desc
}.

(** [self.stats]. *)
Record stats_t : Type := {
  workload_id : Z;
  run_time : timestamp;
  queries : dict query_stats;
  phases_completed : nat;
  stats_hot_columns : list string;
  last_save : timestamp
}.

(** The attributes of a [WorkloadRunner] besides its connection. *)
Record runner : Type := {
  stats : stats_t;
  existing_indexes : list string;
  index_info : option index_info_t
}.

(** [_get_existing_indexes]: the catalog rows, or nothing when the catalog
    query raises. *)
Definition _get_existing_indexes (catalog : option (list string))
  : list string :=
  match catalog with
  | Some rows => rows
  | None => []
  end.

(** [__init__]; the clock is read twice. *)
Definition init (wid : Z) (now1 now2 : timestamp)
    (catalog : option (list string)) : runner :=
  {| stats := {| workload_id := wid;
                 run_time := now1;
                 queries := [];
                 phases_completed := 0;
                 stats_hot_columns := [];
                 last_save := now2 |};
     existing_indexes := _get_existing_indexes catalog;
     index_info := None |}.

(** [get_baseline_cost]. *)
Definition get_baseline_cost (O : oracle) (query : string) (s : session)
  : option Q * session :=
  let (opened, s1) := db_cursor O s in
  if opened then
    let (plan, s2) := db_explain O false query s1 in
    (option_map fst plan, s2)
  else (None, s1).

(** [itertools.combinations(l, r)], in the order Python yields them. *)
Fixpoint combinations {A : Type} (l : list A) (r : nat) : list (list A) :=
  match r, l with
  | O, _ => [[]]
  | S _, [] => []
  | S r', x :: l' => map (cons x) (combinations l' r') ++ combinations l' r
  end.

(** Lines 129-143: singles, then pairs, then triplets. *)
Definition all_combinations (new_columns : list string)
  : list (list string) :=
  map (fun col => [col]) new_columns
  ++ (if (2 <=? List.length new_columns)%nat
      then combinations new_columns 2 else [])
  ++ (if (3 <=? List.length new_columns)%nat
      then combinations new_columns 3 else []).

Definition max_indexes : nat := 50.

(** One element of [hyp_index_info]. *)
Record hyp_index : Type := {
  hyp_oid : Z;
  hyp_name : string;
  hyp_size : Z;
  hyp_combo : list string;
  hyp_table : string
}.

(** The state of the two creation loops. *)
Record creation : Type := {
  hyp_index_info : list hyp_index;
  index_count : nat;
  sess : session
}.

Definition create_stmt (table : string) (combo : list string) : string :=
  "CREATE INDEX ON " ++ table ++ " (" ++ Py.join ", " combo ++ ")".

(** Lines 157-177: one attempt.  A failed creation is swallowed; a failed
    size request counts as size 0. *)
Definition try_create (O : oracle) (table : string) (combo : list string)
    (c : creation) : creation :=
  match db_create_index O (create_stmt table combo) (sess c) with
  | (Ok (Some (oid, name)), s1) =>
      let (size_result, s2) := db_relation_size O oid s1 in
      let index_size := match size_result with
                        | Ok (Some b) => b
                        | Ok None => 0%Z
                        | Raised => 0%Z
                        end in
      {| hyp_index_info :=
           hyp_index_info c
           ++ [{| hyp_oid := oid; hyp_name := name; hyp_size := index_size;
                  hyp_combo := combo; hyp_table := table |}];
         index_count := S (index_count c);
         sess := s2 |}
  | (_, s1) =>
      {| hyp_index_info := hyp_index_info c;
         index_count := index_count c;
         sess := s1 |}
  end.

(** Lines 154-177: the inner loop, with its [break]. *)
Fixpoint create_combos (O : oracle) (table : string)
    (combos : list (list string)) (c : creation) : creation :=
  match combos with
  | [] => c
  | combo :: rest =>
      if (max_indexes <=? index_count c)%nat then c
      else create_combos O table rest (try_create O table combo c)
  end.

(** Lines 151-177: the outer loop, with its [break]. *)
Fixpoint create_tables (O : oracle) (tables : list string)
    (combos : list (list string)) (c : creation) : creation :=
  match tables with
  | [] => c
  | table :: rest =>
      if (max_indexes <=? index_count c)%nat then c
      else create_tables O rest combos (create_combos O table combos c)
  end.

Definition describe (h : hyp_index) : index_desc :=
  {| index_name := hyp_name h; columns := hyp_combo h;
     table := hyp_table h; size_bytes := hyp_size h |}.

(** Lines 180-203: the estimate with every hypothetical index visible, and
    the indexes whose name occurs in the plan. *)
Definition explain_with_hypotheticals (O : oracle) (query : string)
    (hyps : list hyp_index) (s : session)
  : option Q * list index_desc * session :=
  match hyps with
  | [] => (None, [], s)
  | _ :: _ =>
      match db_explain O true query s with
      | (Some (cost, plan_str), s1) =>
          (Some cost,
           map describe
             (filter (fun h => Py.contains (hyp_name h) plan_str) hyps),
           s1)
      | (None, s1) => (None, [], s1)
      end
  end.

(** Lines 224-228: one drop per recorded index; a failed drop is swallowed. *)
Fixpoint drop_all (O : oracle) (hyps : list hyp_index) (s : session)
  : session :=
  match hyps with
  | [] => s
  | h :: rest => drop_all O rest (snd (db_drop_index O (hyp_oid h) s))
  end.

Definition set_index_info (self : runner) (i : index_info_t) : runner :=
  {| stats := stats self;
     existing_indexes := existing_indexes self;
     index_info := Some i |}.

(** Lines 124-203: the baseline, the creation of the hypothetical indexes
    and the estimate made while they are visible. *)
Record probe : Type := {
  p_baseline : option Q;
  p_hyps : list hyp_index;
  p_cost : option Q;
  p_used : list index_desc;
  p_sess : session
}.

Definition probe_costs (O : oracle) (query : string) (tables : list string)
    (new_columns : list string) (s : session) : probe :=
  let (baseline_cost, s2) := get_baseline_cost O query s in
  let c := create_tables O tables (all_combinations new_columns)
             {| hyp_index_info := []; index_count := 0; sess := s2 |} in
  let '(cost, used, s3) :=
    explain_with_hypotheticals O query (hyp_index_info c) (sess c) in
  {| p_baseline := baseline_cost;
     p_hyps := hyp_index_info c;
     p_cost := cost;
     p_used := used;
     p_sess := s3 |}.

(** Line 118. *)
Definition new_columns_of (self : runner) (columns : list string)
  : list string :=
  filter (fun col => negb (Py.mem col (existing_indexes self))) columns.

(** [get_optimized_cost]: the returned cost, the runner (whose
    [index_info] may have been overwritten) and the session.  An exception
    that reaches the outer handler (the cursor does not open, the closing
    commit raises) makes the call return [None]. *)
Definition get_optimized_cost (O : oracle) (self : runner) (s : session)
    (query : string) (tables columns : list string)
  : option Q * runner * session :=
  let (opened, s0) := db_cursor O s in
  if negb opened then (None, self, s0) else
  let s1 := db_create_extension O s0 in
  match tables, columns with
  | [], _ => (None, self, s1)
  | _, [] => (None, self, s1)
  | _ :: _, _ :: _ =>
      match new_columns_of self columns with
      | [] =>
          let (b, s2) := get_baseline_cost O query s1 in (b, self, s2)
      | (_ :: _) as new_columns =>
          let pr := probe_costs O query tables new_columns s1 in
          let self' :=
            set_index_info self
              {| all_created := map describe (p_hyps pr);
                 used_by_query := p_used pr |} in
          let s4 := drop_all O (p_hyps pr) (p_sess pr) in
          let (committed, s5) := db_commit O s4 in
          if committed then
            (match p_cost pr with
             | Some v => Some v
             | None => p_baseline pr
             end, self', s5)
          else (None, self', s5)
      end
  end.

(** *** The aggregator: the body of the loop of [run_phase] *)

(** Lines 421-424: the improvement of one sample. *)
Definition improvement_pct (baseline_cost optimized_cost : Q) : Q :=
  if Qltb 0 baseline_cost
  then ((baseline_cost - optimized_cost) / baseline_cost) * 100
  else 0.

(** Lines 433-445: the entry created when a key is first seen. *)
Definition new_entry (query : string) (tables columns : list string)
  : query_stats :=
  {| full_query := query;
     tables := tables;
     hot_columns := columns;
     executions := 0;
     total_baseline_cost := 0;
     total_optimized_cost := 0;
     avg_improvement_pct := 0;
     min_improvement_pct := 100;
     max_improvement_pct := -100;
     total_index_size_bytes := 0;
     used_indexes := [] |}.

(** Lines 447-462: the update of an entry by one sample.  [info] is
    [self.index_info] as it is when the sample is recorded. *)
Definition update_entry (info : option index_info_t)
    (baseline_cost optimized_cost : Q) (entry : query_stats) : query_stats :=
  let total_baseline := total_baseline_cost entry + baseline_cost in
  let total_optimized := total_optimized_cost entry + optimized_cost in
  let improvement := improvement_pct baseline_cost optimized_cost in
  {| full_query := full_query entry;
     tables := tables entry;
     hot_columns := hot_columns entry;
     executions := S (executions entry);
     total_baseline_cost := total_baseline;
     total_optimized_cost := total_optimized;
     avg_improvement_pct :=
       if Qltb 0 total_baseline
       then (total_baseline - total_optimized) / total_baseline * 100
       else 0;
     min_improvement_pct := Py.min (min_improvement_pct entry) improvement;
     max_improvement_pct := Py.max (max_improvement_pct entry) improvement;
     total_index_size_bytes :=
       match info with
       | Some i =>
           fold_left (fun acc idx => (acc + size_bytes idx)%Z)
                     (used_by_query i) (total_index_size_bytes entry)
       | None => total_index_size_bytes entry
       end;
     used_indexes :=
       match info with
       | Some i => used_by_query i
       | None => used_indexes entry
       end |}.

Definition query_key (query : string) : string := Py.take 100 query.

(** Lines 420-462: one recorded execution. *)
Definition record_execution (info : option index_info_t) (query : string)
    (tables columns : list string) (baseline_cost optimized_cost : Q)
    (qs : dict query_stats) : dict query_stats :=
  let entry := match dict_get (query_key query) qs with
               | Some e => e
               | None => new_entry query tables columns
               end in
  dict_set (query_key query)
           (update_entry info baseline_cost optimized_cost entry) qs.

Definition set_queries (self : runner) (qs : dict query_stats) : runner :=
  {| stats := {| workload_id := workload_id (stats self);
                 run_time := run_time (stats self);
                 queries := qs;
                 phases_completed := phases_completed (stats self);
                 stats_hot_columns := stats_hot_columns (stats self);
                 last_save := last_save (stats self) |};
     existing_indexes := existing_indexes self;
     index_info := index_info self |}.

(** [all_hot_cols.add(col)]. *)
Definition set_add (s : list string) (x : string) : list string :=
  if Py.mem x s then s else s ++ [x].

(** The variables of the loop of [run_phase]. *)
Record loop_state : Type := {
  self : runner;
  conn : session;
  all_hot_cols : list string;
  query_count : nat
}.

Section Loop.
(** The two regular-expression extractors are taken as given. *)
Variable extract_tables_from_query : string -> list string.
Variable extract_columns_from_query : string -> list string.

(** Lines 399-464: the body of [for query in queries], up to the
    clock-driven save. *)
Definition process_query (O : oracle) (st : loop_state) (query : string)
  : loop_state :=
  let tables := extract_tables_from_query query in
  let columns := extract_columns_from_query query in
  let hot := fold_left set_add columns (all_hot_cols st) in
  let skip (r : runner) (s : session) :=
    {| self := r; conn := s; all_hot_cols := hot;
       query_count := query_count st |} in
  match tables, columns with
  | [], _ => skip (self st) (conn st)
  | _, [] => skip (self st) (conn st)
  | _ :: _, _ :: _ =>
      match get_baseline_cost O query (conn st) with
      | (None, s1) => skip (self st) s1
      | (Some baseline_cost, s1) =>
          match get_optimized_cost O (self st) s1 query tables columns with
          | (None, self1, s2) => skip self1 s2
          | (Some optimized_cost, self1, s2) =>
              {| self :=
                   set_queries self1
                     (record_execution (index_info self1) query tables
                        columns baseline_cost optimized_cost
                        (queries (stats self1)));
                 conn := s2;
                 all_hot_cols := hot;
                 query_count := S (query_count st) |}
          end
      end
  end.
End Loop.

(** *** [save_stats] *)

(** What happens to the file: written, not opened, or opened (and so
    truncated) but not written to the end. *)
Inductive write_answer : Type :=
| WriteOk
| OpenError
| DumpError.

Definition set_last_save (self : runner) (now : timestamp) : runner :=
  {| stats := {| workload_id := workload_id (stats self);
                 run_time := run_time (stats self);
                 queries := queries (stats self);
                 phases_completed := phases_completed (stats self);
                 stats_hot_columns := stats_hot_columns (stats self);
                 last_save := now |};
     existing_indexes := existing_indexes self;
     index_info := index_info self |}.

(** [save_stats]: the returned flag, the runner and the readable content of
    the stats file ([None] when there is none). *)
Definition save_stats (w : write_answer) (now : timestamp) (self : runner)
    (file : option stats_t) : bool * runner * option stats_t :=
  match w with
  | WriteOk => (true, set_last_save self now, Some (stats self))
  | OpenError => (false, self, file)
  | DumpError => (false, self, None)
  end.

(** *** The rest of [run_phase] and of [run_workload] *)

Definition set_hot_columns (self : runner) (cols : list string) : runner :=
  {| stats := {| workload_id := workload_id (stats self);
                 run_time := run_time (stats self);
                 queries := queries (stats self);
                 phases_completed := phases_completed (stats self);
                 stats_hot_columns := cols;
                 last_save := last_save (stats self) |};
     existing_indexes := existing_indexes self;
     index_info := index_info self |}.

Definition incr_phases_completed (self : runner) : runner :=
  {| stats := {| workload_id := workload_id (stats self);
                 run_time := run_time (stats self);
                 queries := queries (stats self);
                 phases_completed := S (phases_completed (stats self));
                 stats_hot_columns := stats_hot_columns (stats self);
                 last_save := last_save (stats self) |};
     existing_indexes := existing_indexes self;
     index_info := index_info self |}.

(** Lines 391-394: the variables of a phase are reset. *)
Definition start_phase (st : loop_state) : loop_state :=
  {| self := self st; conn := conn st; all_hot_cols := [];
     query_count := 0 |}.

(** Lines 468-471, when the save interval has elapsed. *)
Definition periodic_save (w : write_answer) (now : timestamp)
    (st : loop_state) (file : option stats_t)
  : loop_state * option stats_t :=
  let '(_, self1, file1) :=
    save_stats w now
      (set_hot_columns (self st) (Py.sorted (all_hot_cols st))) file in
  ({| self := self1; conn := conn st; all_hot_cols := all_hot_cols st;
      query_count := query_count st |}, file1).

(** Lines 480-481. *)
Definition end_phase (st : loop_state) : loop_state :=
  {| self := set_hot_columns (incr_phases_completed (self st))
                             (Py.sorted (all_hot_cols st));
     conn := conn st; all_hot_cols := all_hot_cols st;
     query_count := query_count st |}.

(** Line 503: the save in the [finally] of [run_workload]. *)
Definition final_save (w : write_answer) (now : timestamp)
    (st : loop_state) (file : option stats_t)
  : loop_state * option stats_t :=
  let '(_, self1, file1) := save_stats w now (self st) file in
  ({| self := self1; conn := conn st; all_hot_cols := all_hot_cols st;
      query_count := query_count st |}, file1).

End Runner.


(** ** alerter.py *)

Module Alerter.

(** One value of the [queries] object of a stats file.  The alerter reads
    every field with [.get(field, default)], so a field may be absent. *)
Record query_data : Type := {
  executions : option nat;
  total_baseline_cost : option Q;
  total_optimized_cost : option Q;
  avg_improvement_pct : option Q;
  hot_columns : option (list string)
}.

(** One element of the [measurements] array of the older file format. *)
Record measurement : Type := {
  baseline_cost : option Q;
  optimized_cost : option Q;
  improvement_pct : option Q;
  m_hot_columns : option (list string)
}.

(** The fields of a loaded stats file that [analyze_workload] reads. *)
Record stats_file : Type := {
  queries : option (dict query_data);
  measurements : option (list measurement)
}.

(** [d.get(field, default)]. *)
Definition get {A : Type} (field : option A) (default : A) : A :=
  match field with
  | Some v => v
  | None => default
  end.

(** What a stats file written by the runner loads as. *)
Definition load_entry (e : Runner.query_stats) : query_data :=
  {| executions := Some (Runner.executions e);
     total_baseline_cost := Some (Runner.total_baseline_cost e);
     total_optimized_cost := Some (Runner.total_optimized_cost e);
     avg_improvement_pct := Some (Runner.avg_improvement_pct e);
     hot_columns := Some (Runner.hot_columns e) |}.

Definition load (s : Runner.stats_t) : stats_file :=
  {| queries := Some (map (fun kv => (fst kv, load_entry (snd kv)))
                          (Runner.queries s));
     measurements := None |}.

(** The attributes set by [__init__]. *)
Record config : Type := {
  improvement_threshold : Q;
  max_space_budget : Z
}.

Definition init (improvement_threshold : Q) (max_space_budget_mb : Z)
  : config :=
  {| improvement_threshold := improvement_threshold;
     max_space_budget := (max_space_budget_mb * 1000000)%Z |}.

(** The answers of the database during one run of [analyze_workload]. *)
Inductive probe_answer : Type :=
| ProbeError          (** a statement of the size probe raised *)
| ProbeNoRow          (** the size query returned no row *)
| ProbeSize (bytes : Z).

Record oracle : Type := {
  (** the index names of [public.orders], or the catalog query raises *)
  pg_indexes : result (list string);
  (** the [n]-th cost estimate of a full count of [orders] in the run *)
  explain_count : nat -> option Q;
  (** the temporary-index probe for a column *)
  probe : string -> probe_answer
}.

(** [get_existing_indexes], on the rows of the catalog. *)
Definition existing_of_rows (rows : list string) : list string :=
  map (fun idx => Py.replace "idx_opt_" "" (Py.replace "idx_" "" idx))
      (filter (fun idx => Py.contains "idx_" idx) rows).

Definition get_existing_indexes (O : oracle) : result (list string) :=
  match pg_indexes O with
  | Ok rows => Ok (existing_of_rows rows)
  | Raised => Raised
  end.

(** [get_real_index_size]. *)
Definition get_real_index_size (a : probe_answer) : Z :=
  match a with
  | ProbeSize b => b
  | ProbeNoRow => 5000000
  | ProbeError => 5000000
  end.

(** [estimate_create_index_cost]. *)
Definition estimate_create_index_cost (a : option Q) : Q :=
  match a with
  | Some c => c
  | None => 1000
  end.

(** [estimate_drop_index_cost]. *)
Definition estimate_drop_index_cost (a : option Q) : Q :=
  estimate_create_index_cost a * (2 # 10).

(** [d[col] = d.get(col, 0) + 1]. *)
Definition bump (d : dict nat) (col : string) : dict nat :=
  dict_set col (get (dict_get col d) 0 + 1)%nat d.

Definition count_columns (cols : list string) (d : dict nat) : dict nat :=
  fold_left bump cols d.

(** [sorted(d.items(), key=lambda x: x[1], reverse=True)]: Python's sort is
    stable, also under [reverse=True]; a stable sort has one result, which
    insertion gives. *)
Fixpoint insert_desc (x : string * nat) (l : list (string * nat))
  : list (string * nat) :=
  match l with
  | [] => [x]
  | y :: rest =>
      if (snd x <? snd y)%nat then y :: insert_desc x rest
      else x :: y :: rest
  end.

Definition sorted_desc (l : list (string * nat)) : list (string * nat) :=
  fold_right insert_desc [] l.

(** [extract_hot_columns_from_measurements]. *)
Definition extract_hot_columns_from_measurements (ms : list measurement)
  : list (string * nat) :=
  sorted_desc
    (fold_left (fun d m => count_columns (get (m_hot_columns m) []) d)
               ms []).

(** The accumulators of lines 144-147. *)
Record totals : Type := {
  sum_baseline_cost : Q;
  total_improvement_cost : Q;
  all_improvement_pcts : list Q;
  hot_columns_all_dict : dict nat
}.

Definition totals0 : totals :=
  {| sum_baseline_cost := 0; total_improvement_cost := 0;
     all_improvement_pcts := []; hot_columns_all_dict := [] |}.

(** Lines 150-162: one query of the [queries] object. *)
Definition add_query (t : totals) (kv : string * query_data) : totals :=
  let query_data := snd kv in
  let baseline := get (total_baseline_cost query_data) 0 in
  let optimized := get (total_optimized_cost query_data) 0 in
  let improvement := get (avg_improvement_pct query_data) 0 in
  let hot_cols := get (hot_columns query_data) [] in
  {| sum_baseline_cost := sum_baseline_cost t + baseline;
     total_improvement_cost :=
       total_improvement_cost t + (baseline - optimized);
     all_improvement_pcts := all_improvement_pcts t ++ [improvement];
     hot_columns_all_dict := count_columns hot_cols (hot_columns_all_dict t)
  |}.

(** Lines 165-172: one measurement of the older format. *)
Definition add_measurement (t : totals) (m : measurement) : totals :=
  let baseline := get (baseline_cost m) 0 in
  let optimized := get (optimized_cost m) 0 in
  let improvement := get (improvement_pct m) 0 in
  {| sum_baseline_cost := sum_baseline_cost t + baseline;
     total_improvement_cost :=
       total_improvement_cost t + (baseline - optimized);
     all_improvement_pcts := all_improvement_pcts t ++ [improvement];
     hot_columns_all_dict := hot_columns_all_dict t |}.

(** Lines 149-172. *)
Definition collect (queries_dict : dict query_data)
    (measurements : list measurement) : totals :=
  match queries_dict with
  | _ :: _ => fold_left add_query queries_dict totals0
  | [] => fold_left add_measurement measurements totals0
  end.

(** Line 175. *)
Definition mean (pcts : list Q) : Q :=
  match pcts with
  | [] => 0
  | _ :: _ => Py.sum pcts / inject_Z (Z.of_nat (List.length pcts))
  end.

(** Lines 192-195. *)
Definition hot_columns_all (t : totals) (measurements : list measurement)
  : list (string * nat) :=
  match hot_columns_all_dict t with
  | _ :: _ => sorted_desc (hot_columns_all_dict t)
  | [] => extract_hot_columns_from_measurements measurements
  end.

(** Line 197. *)
Definition candidates_of (ranking : list (string * nat))
    (existing : list string) : list string :=
  firstn 3 (map fst
              (filter (fun cc => negb (Py.mem (fst cc) existing)) ranking)).

(** Lines 220-227: the loop over the candidates; [n] counts the cost
    estimates already requested. *)
Fixpoint retuning (O : oracle) (candidates : list string) (n : nat)
    (total_retuning_cost : Q) (index_sizes : dict Z) : Q * dict Z :=
  match candidates with
  | [] => (total_retuning_cost, index_sizes)
  | col :: rest =>
      let create_cost := estimate_create_index_cost (explain_count O n) in
      let drop_cost := estimate_drop_index_cost (explain_count O (S n)) in
      let size := get_real_index_size (probe O col) in
      retuning O rest (S (S n))
               (total_retuning_cost + (create_cost + drop_cost))
               (dict_set col size index_sizes)
  end.

Inductive decision_t : Type :=
| NO_ACTION
| CREATE_INDEXES.

(** The [reason] of a recommendation.  The source renders each as a
    sentence; the constructor keeps the guard that fired and the numbers
    the sentence prints. *)
Inductive reason_t : Type :=
| AllIndexed
    (** "All hot columns already indexed" *)
| BelowThreshold (avg threshold : Q)
    (** "Average improvement {avg}% < threshold {threshold}%" *)
| NetBenefitNotPositive (net_benefit : Q)
    (** "Net benefit {net} <= 0 (retuning cost exceeds savings)" *)
| ExceedsBudget (total_new_space budget : Z)
    (** "Indexes {space}MB exceed budget {budget}MB" *)
| Worthwhile (avg threshold net_benefit : Q).
    (** "Improvement {avg}% >= {threshold}% AND net benefit {net} > 0" *)

(** Lines 244-259: the guards. *)
Definition decide (cfg : config) (avg net_benefit : Q) (total_new_space : Z)
  : decision_t * reason_t :=
  if Qltb avg (improvement_threshold cfg)
  then (NO_ACTION, BelowThreshold avg (improvement_threshold cfg))
  else if Qle_bool net_benefit 0
  then (NO_ACTION, NetBenefitNotPositive net_benefit)
  else if (max_space_budget cfg <? total_new_space)%Z
  then (NO_ACTION, ExceedsBudget total_new_space (max_space_budget cfg))
  else (CREATE_INDEXES,
        Worthwhile avg (improvement_threshold cfg) net_benefit).

Record recommended_index : Type := {
  name : string;
  column : string;
  estimated_size_mb : Q
}.

Record recommendation : Type := {
  timestamp : string;
  workload_id : Z;
  decision : decision_t;
  reason : reason_t;
  rec_improvement_pct : Q;
  improvement_value : Q;
  retuning_cost : Q;
  net_benefit : Q;
  recommended_indexes : list recommended_index
}.

(** Lines 263-269. *)
Definition recommend (index_sizes : dict Z) (col : string)
  : recommended_index :=
  {| name := "idx_opt_" ++ col;
     column := col;
     estimated_size_mb :=
       inject_Z (get (dict_get col index_sizes) 0%Z) / 1000000 |}.

(** Lines 204-281: the recommendation, once the candidates are known. *)
Definition conclude (cfg : config) (O : oracle) (now : string)
    (workload_id : Z) (t : totals) (avg : Q) (candidates : list string)
  : recommendation :=
  match candidates with
  | [] =>
      {| timestamp := now;
         workload_id := workload_id;
         decision := NO_ACTION;
         reason := AllIndexed;
         rec_improvement_pct := Py.round2 avg;
         improvement_value := Py.round2 (total_improvement_cost t);
         retuning_cost := 0;
         net_benefit := 0;
         recommended_indexes := [] |}
  | _ :: _ =>
      let (total_retuning_cost, index_sizes) :=
        retuning O candidates 0 0 [] in
      let net := total_improvement_cost t - total_retuning_cost in
      let total_new_space := Py.sumZ (dict_values index_sizes) in
      let (d, r) := decide cfg avg net total_new_space in
      {| timestamp := now;
         workload_id := workload_id;
         decision := d;
         reason := r;
         rec_improvement_pct := Py.round2 avg;
         improvement_value := Py.round2 (total_improvement_cost t);
         retuning_cost := Py.round2 total_retuning_cost;
         net_benefit := Py.round2 net;
         recommended_indexes :=
           match d with
           | CREATE_INDEXES => map (recommend index_sizes) candidates
           | NO_ACTION => []
           end |}
  end.

(** [analyze_workload]; [file] is what [load_workload_stats] returns and
    [now] the clock.  The call raises when the catalog query does. *)
Definition analyze_workload (cfg : config) (O : oracle) (now : string)
    (workload_id : Z) (file : option stats_file)
  : result (option recommendation) :=
  match file with
  | None => Ok None
  | Some stats =>
      let queries_dict := get (queries stats) [] in
      let ms := get (measurements stats) [] in
      match queries_dict, ms with
      | [], [] => Ok None
      | _, _ =>
          let t := collect queries_dict ms in
          let avg := mean (all_improvement_pcts t) in
          match get_existing_indexes O with
          | Raised => Raised
          | Ok existing =>
              Ok (Some (conclude cfg O now workload_id t avg
                          (candidates_of (hot_columns_all t ms) existing)))
          end
      end
  end.

End Alerter.

(** ** Vocabulary of the statements *)

Module Spec.

(** One recorded execution, as [run_phase] sees it: the query with its
    extracted tables and columns, the two costs, and [self.index_info] at
    that moment. *)
Record sample : Type := {
  s_info : option Runner.index_info_t;
  s_query : string;
  s_tables : list string;
  s_columns : list string;
  s_baseline : Q;
  s_optimized : Q
}.

Definition record (qs : dict Runner.query_stats) (x : sample)
  : dict Runner.query_stats :=
  Runner.record_execution (s_info x) (s_query x) (s_tables x) (s_columns x)
    (s_baseline x) (s_optimized x) qs.

(** The aggregator run on a sequence of samples, from an empty [queries]. *)
Definition record_all (xs : list sample) : dict Runner.query_stats :=
  fold_left record xs [].

(** The samples of a sequence that fall under a key. *)
Definition of_key (k : string) (xs : list sample) : list sample :=
  filter (fun x => String.eqb (Runner.query_key (s_query x)) k) xs.

Definition nonneg (x : sample) : Prop :=
  0 <= s_baseline x /\ 0 <= s_optimized x.

Definition improvement (x : sample) : Q :=
  Runner.improvement_pct (s_baseline x) (s_optimized x).

(** Minimum and maximum of a list of rationals; the value at [[]] is
    never used. *)
Definition minimum (l : list Q) : Q :=
  match l with
  | [] => 0
  | a :: rest => fold_left Qmin rest a
  end.

Definition maximum (l : list Q) : Q :=
  match l with
  | [] => 0
  | a :: rest => fold_left Qmax rest a
  end.

(** The total size of the indexes a sample used. *)
Definition used_size (x : sample) : Z :=
  match s_info x with
  | Some i => Py.sumZ (map Runner.size_bytes (Runner.used_by_query i))
  | None => 0
  end.

(** [a] occurs before [b] in [l]. *)
Definition before {A : Type} (a b : A) (l : list A) : Prop :=
  exists l1 l2 l3, l = (l1 ++ a :: l2 ++ b :: l3)%list.

(** The distinct elements of a list, in the order they are first seen. *)
Fixpoint first_seen (l : list string) : list string :=
  match l with
  | [] => []
  | x :: rest =>
      x :: filter (fun y => negb (String.eqb y x)) (first_seen rest)
  end.

(** Binomial coefficients, by Pascal's rule. *)
Fixpoint C (n k : nat) : nat :=
  match n, k with
  | _, O => 1
  | O, S _ => 0
  | S n', S k' => C n' k' + C n' k
  end.


(** What the aggregator keeps for a key, in terms of the samples [xs]
    recorded under it so far. *)
Definition entry_of (xs : list sample) (e : Runner.query_stats) : Prop :=
  Runner.executions e = List.length xs /\
  Runner.total_baseline_cost e == Py.sum (map s_baseline xs) /\
  Runner.total_optimized_cost e == Py.sum (map s_optimized xs) /\
  Runner.avg_improvement_pct e
    == (if Qltb 0 (Runner.total_baseline_cost e)
        then (Runner.total_baseline_cost e - Runner.total_optimized_cost e)
             / Runner.total_baseline_cost e * 100
        else 0) /\
  Runner.min_improvement_pct e
    == fold_left Py.min (map improvement xs) 100 /\
  Runner.max_improvement_pct e
    == fold_left Py.max (map improvement xs) (-100) /\
  Runner.total_index_size_bytes e = Py.sumZ (map used_size xs).

(** The accumulated index size kept under a key; 0 while the key has no
    entry. *)
Definition total_size_of (k : string) (qs : dict Runner.query_stats) : Z :=
  match dict_get k qs with
  | Some e => Runner.total_index_size_bytes e
  | None => 0
  end.

Definition key_of (x : sample) : string := Runner.query_key (s_query x).

(** What happens during a run of the workload, in order. *)
Inductive event : Type :=
| StartPhase
| Query (O : oracle) (query : string)
| PeriodicSave (w : Runner.write_answer) (now : timestamp)
| EndPhase
| FinalSave (w : Runner.write_answer) (now : timestamp).

(** The state of a run: the variables of the loop and the readable content
    of the stats file. *)
Definition run_state : Type := Runner.loop_state * option Runner.stats_t.

Section Run.
Variable extract_tables_from_query : string -> list string.
Variable extract_columns_from_query : string -> list string.

Definition apply_event (rs : run_state) (ev : event) : run_state :=
  match ev with
  | StartPhase => (Runner.start_phase (fst rs), snd rs)
  | Query ora query =>
      (Runner.process_query extract_tables_from_query
         extract_columns_from_query ora (fst rs) query, snd rs)
  | PeriodicSave w now => Runner.periodic_save w now (fst rs) (snd rs)
  | EndPhase => (Runner.end_phase (fst rs), snd rs)
  | FinalSave w now => Runner.final_save w now (fst rs) (snd rs)
  end.

Definition run (evs : list event) (rs : run_state) : run_state :=
  fold_left apply_event evs rs.
End Run.

(** A runner just constructed, on a fresh connection, with no stats file. *)
Definition fresh (wid : Z) (now1 now2 : timestamp)
    (catalog : option (list string)) (s : session) : run_state :=
  ({| Runner.self := Runner.init wid now1 now2 catalog;
      Runner.conn := s;
      Runner.all_hot_cols := [];
      Runner.query_count := 0 |}, None).

(** The time recorded by an event, when it is a save that succeeds. *)
Definition saved_at (ev : event) : option timestamp :=
  match ev with
  | PeriodicSave Runner.WriteOk now => Some now
  | FinalSave Runner.WriteOk now => Some now
  | _ => None
  end.

(** The time recorded by the latest successful save among [evs], or [t0]
    when there is none. *)
Definition last_recorded (t0 : timestamp) (evs : list event) : timestamp :=
  fold_left (fun t ev => match saved_at ev with
                         | Some now => now
                         | None => t
                         end) evs t0.

End Spec.

(** ** Vocabulary of the statements about the sampler *)

Module SamplerSpec.
Import Runner.

(** Interactions that leave the hypothetical indexes alone. *)
Definition same_indexes (s s' : session) : Prop :=
  active s' = active s /\ next_oid s' = next_oid s.

(** The number of hypothetical indexes created between two sessions. *)
Definition created_by (s s' : session) : Z := (next_oid s' - next_oid s)%Z.

(** The pairs (table, columns) of the indexes recorded so far. *)
Definition pairs (hyps : list hyp_index) : list (string * list string) :=
  map (fun h => (hyp_table h, hyp_combo h)) hyps.

(** The invariant of the creation loops, from the session [s0] they start
    in: the recorded indexes are the ones created since, none is lost, and
    there are at most [max_indexes] of them. *)
Record creating (s0 : session) (c : creation) : Prop := {
  cr_count : index_count c = List.length (hyp_index_info c);
  cr_bound : (index_count c <= max_indexes)%nat;
  cr_active :
    active (sess c) = (rev (map hyp_oid (hyp_index_info c)) ++ active s0)%list;
  cr_next :
    next_oid (sess c)
    = (next_oid s0 + Z.of_nat (List.length (hyp_index_info c)))%Z;
  cr_fresh :
    Forall (fun h => (next_oid s0 <= hyp_oid h < next_oid (sess c))%Z)
           (hyp_index_info c)
}.

(** [l1] is [l2] with some elements left out, the others in order. *)
Inductive subseq {A : Type} : list A -> list A -> Prop :=
| subseq_nil (l : list A) : subseq [] l
| subseq_take (x : A) (l1 l2 : list A) :
    subseq l1 l2 -> subseq (x :: l1) (x :: l2)
| subseq_skip (x : A) (l1 l2 : list A) :
    subseq l1 l2 -> subseq l1 (x :: l2).

(** A server that accepts every creation request. *)
Definition accepts_all (O : oracle) : Prop :=
  forall k stmt, exists name, hypopg_create_index O k stmt = Created name.

(** A server on which every request succeeds: a query costs 100 on its own
    and 40 once a hypothetical index is visible, and the plan then names
    the index [ix]. *)
Definition obliging : oracle :=
  {| cursor_opens := fun _ => true;
     create_extension := fun _ => true;
     explain := fun _ _ _ visible =>
                  match visible with
                  | [] => Some (100, "Seq Scan on orders")
                  | _ :: _ => Some (40, "Index Scan using ix on orders")
                  end;
     hypopg_create_index := fun _ _ => Created "ix";
     hypopg_relation_size := fun _ _ => SizeRow 8192;
     hypopg_drop_index := fun _ _ => true;
     commit := fun _ => true |}.

(** The same server, except that it refuses every drop. *)
Definition drop_refusing : oracle :=
  {| cursor_opens := cursor_opens obliging;
     create_extension := create_extension obliging;
     explain := explain obliging;
     hypopg_create_index := hypopg_create_index obliging;
     hypopg_relation_size := hypopg_relation_size obliging;
     hypopg_drop_index := fun _ _ => false;
     commit := commit obliging |}.

(** The same server, except that every commit raises. *)
Definition commit_failing : oracle :=
  {| cursor_opens := cursor_opens obliging;
     create_extension := create_extension obliging;
     explain := explain obliging;
     hypopg_create_index := hypopg_create_index obliging;
     hypopg_relation_size := hypopg_relation_size obliging;
     hypopg_drop_index := hypopg_drop_index obliging;
     commit := fun _ => false |}.

(** A fresh session and a runner that knows one indexed column. *)
Definition session0 : session := {| active := []; next_oid := 1; step := 0 |}.

Definition runner0 : Runner.runner :=
  Runner.init 1 "t0" "t1" (Some ["o_orderkey"]).

End SamplerSpec.

(** ** Vocabulary of the statements about the alerter *)

Module AlerterSpec.
Import Alerter.

(** A recommendation without its timestamp. *)
Definition verdict (r : recommendation)
  : Z * decision_t * reason_t * Q * Q * Q * Q * list recommended_index :=
  (workload_id r, decision r, reason r, rec_improvement_pct r,
   improvement_value r, retuning_cost r, net_benefit r,
   recommended_indexes r).

Definition verdict_of (out : result (option recommendation))
  : result (option (Z * decision_t * reason_t * Q * Q * Q * Q
                    * list recommended_index)) :=
  match out with
  | Ok r => Ok (option_map verdict r)
  | Raised => Raised
  end.

(** The hot columns of the query shapes of a snapshot, in the order the
    snapshot lists them. *)
Definition columns_of_queries (queries_dict : dict query_data)
  : list string :=
  List.concat (map (fun kv => get (hot_columns (snd kv)) []) queries_dict).

Definition columns_of_measurements (ms : list measurement) : list string :=
  List.concat (map (fun m => get (m_hot_columns m) []) ms).

(** The columns that are counted: those of the query shapes, or those of
    the measurements when the query shapes have none. *)
Definition seen_columns (queries_dict : dict query_data)
    (ms : list measurement) : list string :=
  match columns_of_queries queries_dict with
  | (_ :: _) as cols => cols
  | [] => columns_of_measurements ms
  end.

(** The number of times a column is seen. *)
Definition frequency (cols : list string) (c : string) : nat :=
  count_occ string_dec cols c.

(** Descending order of the counts. *)
Definition count_ge (a b : string * nat) : Prop := (snd b <= snd a)%nat.

(** The snapshot of scenario A: a shape with cumulative costs 1000 and
    400, one with 500 and 490. *)
Definition scenario_A : stats_file :=
  {| queries :=
       Some [("X", {| executions := Some 10%nat;
                      total_baseline_cost := Some 1000;
                      total_optimized_cost := Some 400;
                      avg_improvement_pct := Some 60;
                      hot_columns := Some ["o_totalprice"; "o_shipmode"] |});
             ("Y", {| executions := Some 5%nat;
                      total_baseline_cost := Some 500;
                      total_optimized_cost := Some 490;
                      avg_improvement_pct := Some 2;
                      hot_columns := Some ["o_shipmode"] |})];
     measurements := None |}.

(** A database with one index on [o_orderkey], where a full count costs
    100 and a probed index takes 1 MB. *)
Definition small_db : oracle :=
  {| pg_indexes := Ok ["orders_pkey"; "idx_o_orderkey"];
     explain_count := fun _ => Some 100;
     probe := fun _ => ProbeSize 1000000 |}.

(** The database of scenario B: both hot columns of scenario A already
    have an index. *)
Definition indexed_db : oracle :=
  {| pg_indexes := Ok ["idx_o_totalprice"; "idx_o_shipmode"];
     explain_count := fun _ => Some 100;
     probe := fun _ => ProbeSize 1000000 |}.

(** The snapshot and the database of scenario C: one shape that improves
    by 90 percent and saves 100 in all, and an index that costs 2000 to
    create and drop. *)
Definition scenario_C : stats_file :=
  {| queries :=
       Some [("Z", {| executions := Some 1%nat;
                      total_baseline_cost := Some (1000 # 9);
                      total_optimized_cost := Some (100 # 9);
                      avg_improvement_pct := Some 90;
                      hot_columns := Some ["o_custkey"] |})];
     measurements := None |}.

Definition costly_db : oracle :=
  {| pg_indexes := Ok [];
     explain_count := fun _ => Some (5000 # 3);
     probe := fun _ => ProbeSize 1000000 |}.

End AlerterSpec.

(** ** Vocabulary of the further statements *)

Module MoreSpec.
Import Runner Spec SamplerSpec.

(** Line 514: the executions summed over the entries. *)
Definition total_executions (qs : dict query_stats) : nat :=
  fold_left (fun acc kv => (acc + executions (snd kv))%nat) qs 0%nat.

(** The work saved according to the entries: baseline minus optimized,
    summed over the entries. *)
Definition total_saving (qs : dict query_stats) : Q :=
  Py.sum (map (fun kv => total_baseline_cost (snd kv)
                         - total_optimized_cost (snd kv)) qs).

(** The stored index information is coherent: the used indexes are among
    the created ones, in their order, and there are at most 50 of these. *)
Definition index_info_ok (self : runner) : Prop :=
  match index_info self with
  | None => True
  | Some i =>
      subseq (used_by_query i) (all_created i) /\
      (List.length (all_created i) <= max_indexes)%nat
  end.

(** Ascending order of strings, between neighbours. *)
Definition str_le (a b : string) : Prop := String.leb a b = true.

(** Extractors that answer the same tables and columns for every query. *)
Definition fixed_tables (ts : list string) (q : string) : list string := ts.
Definition fixed_columns (cs : list string) (q : string) : list string := cs.

(** The columns a step of a run adds to the hot columns of the phase. *)
Definition event_columns (extract_columns_from_query : string -> list string)
    (ev : event) : list string :=
  match ev with
  | Query _ query => extract_columns_from_query query
  | _ => []
  end.

(** The steps that occur inside a phase. *)
Definition in_phase (ev : event) : bool :=
  match ev with
  | Query _ _ => true
  | PeriodicSave _ _ => true
  | _ => false
  end.

Definition is_end_phase (ev : event) : bool :=
  match ev with
  | EndPhase => true
  | _ => false
  end.

End MoreSpec.

(** * Proofs *)

Import Spec SamplerSpec AlerterSpec.

(** ** Facts about the built-ins *)

Lemma Qltb_true (a b : Q) : Qltb a b = true <-> a < b.
Proof.
  unfold Qltb. rewrite negb_true_iff.
  split; intro H.
  - apply Qnot_le_lt. intro Hle. apply Qle_bool_iff in Hle. congruence.
  - destruct (Qle_bool b a) eqn:E; [|reflexivity].
    apply Qle_bool_iff in E. exfalso. apply (Qlt_not_le _ _ H E).
Qed.

Lemma Qltb_false (a b : Q) : Qltb a b = false <-> b <= a.
Proof.
  unfold Qltb. rewrite negb_false_iff. apply Qle_bool_iff.
Qed.

Lemma Qle_bool_false (a b : Q) : Qle_bool a b = false <-> b < a.
Proof.
  rewrite <- Qltb_true. unfold Qltb. now rewrite negb_true_iff.
Qed.

Lemma Py_min_Qmin (a b : Q) : Py.min a b == Qmin a b.
Proof.
  unfold Py.min. destruct (Qle_bool a b) eqn:E.
  - apply Qle_bool_iff in E. symmetry. now apply Q.min_l.
  - apply Qle_bool_false in E. symmetry. apply Q.min_r. now apply Qlt_le_weak.
Qed.

Lemma Py_max_Qmax (a b : Q) : Py.max a b == Qmax a b.
Proof.
  unfold Py.max. destruct (Qle_bool b a) eqn:E.
  - apply Qle_bool_iff in E. symmetry. now apply Q.max_l.
  - apply Qle_bool_false in E. symmetry. apply Q.max_r. now apply Qlt_le_weak.
Qed.

Lemma Py_sum_snoc (l : list Q) (a : Q) : Py.sum (l ++ [a]) = Py.sum l + a.
Proof. unfold Py.sum. now rewrite fold_left_app. Qed.

Lemma Py_sum_nonneg (l : list Q) : Forall (fun a => 0 <= a) l -> 0 <= Py.sum l.
Proof.
  induction l as [|a l IH] using rev_ind; intro H.
  - apply Qle_refl.
  - rewrite Py_sum_snoc. apply Forall_app in H. destruct H as [Hl Ha].
    inversion Ha; subst. specialize (IH Hl). lra.
Qed.

Lemma sumZ_shift (l : list Z) (a : Z) :
  fold_left Z.add l a = (a + Py.sumZ l)%Z.
Proof.
  unfold Py.sumZ. revert a.
  induction l as [|b l IH]; intro a; simpl.
  - lia.
  - rewrite IH, (IH b). lia.
Qed.

Lemma sumZ_snoc (l : list Z) (a : Z) : Py.sumZ (l ++ [a]) = (Py.sumZ l + a)%Z.
Proof. unfold Py.sumZ. now rewrite fold_left_app. Qed.

(** ** Facts about dictionaries *)

Section DictFacts.
Context {V : Type}.
Implicit Types (d : dict V) (k : string) (v : V).

Lemma dict_get_set_eq k v d : dict_get k (dict_set k v d) = Some v.
Proof.
  induction d as [|[k' v'] d IH]; simpl.
  - now rewrite String.eqb_refl.
  - destruct (String.eqb k k') eqn:E; simpl; rewrite E; auto.
Qed.

Lemma dict_get_set_neq k k' v d :
  k <> k' -> dict_get k (dict_set k' v d) = dict_get k d.
Proof.
  intro Hne. apply String.eqb_neq in Hne.
  induction d as [|[k2 v2] d IH]; simpl.
  - now rewrite Hne.
  - destruct (String.eqb k' k2) eqn:E; simpl.
    + apply String.eqb_eq in E. subst k2. now rewrite Hne.
    + now rewrite IH.
Qed.
End DictFacts.

(** ** The aggregator *)


Section Aggregator.
Import Runner.

Lemma Py_min_compat a a' b : a == a' -> Py.min a b == Py.min a' b.
Proof. intro H. now rewrite !Py_min_Qmin, H. Qed.

Lemma Py_max_compat a a' b : a == a' -> Py.max a b == Py.max a' b.
Proof. intro H. now rewrite !Py_max_Qmax, H. Qed.

Lemma Qltb_compat a b b' : b == b' -> Qltb a b = Qltb a b'.
Proof.
  intro H. destruct (Qltb a b') eqn:E.
  - apply Qltb_true. apply Qltb_true in E. now rewrite H.
  - apply Qltb_false. apply Qltb_false in E. now rewrite H.
Qed.

Lemma fold_sizes (l : list index_desc) (a : Z) :
  fold_left (fun acc idx => (acc + size_bytes idx)%Z) l a
  = (a + Py.sumZ (map size_bytes l))%Z.
Proof.
  rewrite <- sumZ_shift. revert a.
  induction l as [|i l IH]; intro a; simpl; [reflexivity|apply IH].
Qed.

Lemma entry_of_new query tables columns :
  entry_of [] (new_entry query tables columns).
Proof. unfold entry_of; simpl. repeat split; reflexivity. Qed.

Lemma entry_of_update xs x e :
  entry_of xs e ->
  entry_of (xs ++ [x])
    (update_entry (s_info x) (s_baseline x) (s_optimized x) e).
Proof.
  intros (Hn & Hb & Ho & _ & Hmin & Hmax & Hsz).
  unfold entry_of; cbn [update_entry executions total_baseline_cost
    total_optimized_cost avg_improvement_pct min_improvement_pct
    max_improvement_pct total_index_size_bytes].
  rewrite !map_app; cbn [map].
  rewrite !Py_sum_snoc, !fold_left_app, sumZ_snoc; cbn [fold_left].
  repeat split.
  - rewrite length_app; simpl. lia.
  - now rewrite Hb.
  - now rewrite Ho.
  - now apply Py_min_compat.
  - now apply Py_max_compat.
  - unfold used_size. destruct (s_info x) as [i|].
    + rewrite fold_sizes, Hsz. reflexivity.
    + rewrite Hsz, Z.add_0_r. reflexivity.
Qed.

Lemma of_key_snoc k xs x :
  of_key k (xs ++ [x])
  = (of_key k xs
     ++ (if String.eqb (query_key (s_query x)) k then [x] else []))%list.
Proof. unfold of_key. now rewrite filter_app. Qed.

(** The invariant of the aggregator: under every key, the entry
    summarises exactly the samples recorded under that key. *)
Lemma record_all_entry xs k :
  match dict_get k (record_all xs) with
  | Some e => of_key k xs <> [] /\ entry_of (of_key k xs) e
  | None => of_key k xs = []
  end.
Proof.
  induction xs as [|x xs IH] using rev_ind.
  - reflexivity.
  - unfold record_all in *. rewrite fold_left_app; cbn [fold_left].
    rewrite of_key_snoc.
    set (qs := fold_left record xs []) in *.
    unfold record at 1, record_execution.
    destruct (String.eqb (query_key (s_query x)) k) eqn:E.
    + apply String.eqb_eq in E. subst k.
      rewrite dict_get_set_eq. split.
      * intro H. apply app_eq_nil in H. destruct H; discriminate.
      * destruct (dict_get (query_key (s_query x)) qs) as [e|].
        -- now apply entry_of_update.
        -- rewrite IH. apply (entry_of_update []). apply entry_of_new.
    + apply String.eqb_neq in E.
      rewrite dict_get_set_neq by congruence.
      now rewrite app_nil_r.
Qed.
End Aggregator.


Section AggregatorProperties.
Import Runner.

Lemma ratio_le_100 (b o : Q) : 0 < b -> 0 <= o -> (b - o) / b * 100 <= 100.
Proof.
  intros Hb Ho.
  setoid_replace ((b - o) / b * 100) with (((b - o) * 100) / b)
    by (field; intro H; rewrite H in Hb; now apply Qlt_irrefl in Hb).
  apply Qle_shift_div_r; [assumption|]. nra.
Qed.

Lemma improvement_le_100 (x : sample) : nonneg x -> improvement x <= 100.
Proof.
  intros [Hb Ho]. unfold improvement, improvement_pct.
  destruct (Qltb 0 (s_baseline x)) eqn:E.
  - apply Qltb_true in E. now apply ratio_le_100.
  - discriminate.
Qed.

Lemma of_key_nonneg k xs : Forall nonneg xs -> Forall nonneg (of_key k xs).
Proof.
  intro H. apply Forall_forall. intros x Hx.
  apply filter_In in Hx. rewrite Forall_forall in H. now apply H.
Qed.

Lemma sum_baseline_nonneg xs :
  Forall nonneg xs -> 0 <= Py.sum (map s_baseline xs).
Proof.
  intro H. apply Py_sum_nonneg. apply Forall_map.
  eapply Forall_impl; [|exact H]. now intros x [Hb _].
Qed.

Lemma sum_optimized_nonneg xs :
  Forall nonneg xs -> 0 <= Py.sum (map s_optimized xs).
Proof.
  intro H. apply Py_sum_nonneg. apply Forall_map.
  eapply Forall_impl; [|exact H]. now intros x [_ Ho].
Qed.

(** C1: under every key, after any sequence of samples with non-negative
    costs, the entry's avg_improvement_pct is the ratio of the cumulative
    sums, (sum of baselines - sum of optimized) / sum of baselines * 100,
    when the sum of baselines is positive, and 0 when it is 0; the sum of
    baselines is never negative, and the value is at most 100. *)
Theorem avg_improvement_is_ratio_of_sums
    (xs : list sample) (k : string) (e : query_stats) :
  Forall nonneg xs ->
  dict_get k (record_all xs) = Some e ->
  let sb := Py.sum (map s_baseline (of_key k xs)) in
  let so := Py.sum (map s_optimized (of_key k xs)) in
  0 <= sb /\
  (0 < sb -> avg_improvement_pct e == (sb - so) / sb * 100) /\
  (sb == 0 -> avg_improvement_pct e == 0) /\
  avg_improvement_pct e <= 100.
Proof.
  intros Hnn Hget sb so.
  pose proof (record_all_entry xs k) as Hinv. rewrite Hget in Hinv.
  destruct Hinv as (_ & _ & Hb & Ho & Havg & _).
  pose proof (sum_baseline_nonneg _ (of_key_nonneg k _ Hnn)) as Hsb.
  pose proof (sum_optimized_nonneg _ (of_key_nonneg k _ Hnn)) as Hso.
  fold sb in Hb, Hsb. fold so in Ho, Hso.
  rewrite (Qltb_compat _ _ _ Hb) in Havg.
  assert (Hpos : 0 < sb -> avg_improvement_pct e == (sb - so) / sb * 100).
  { intro H. apply Qltb_true in H as Ht. rewrite Ht in Havg.
    rewrite Havg, Hb, Ho. reflexivity. }
  assert (Hzero : sb == 0 -> avg_improvement_pct e == 0).
  { intro H. assert (Hf : Qltb 0 sb = false) by (apply Qltb_false; lra).
    now rewrite Hf in Havg. }
  repeat split; try assumption.
  destruct (Qlt_le_dec 0 sb) as [H|H].
  - rewrite (Hpos H). now apply ratio_le_100.
  - rewrite Hzero by lra. lra.
Qed.

Lemma total_size_record qs x :
  total_size_of (key_of x) (Spec.record qs x)
  = (total_size_of (key_of x) qs + used_size x)%Z.
Proof.
  unfold total_size_of, Spec.record, record_execution, key_of.
  rewrite dict_get_set_eq.
  destruct (dict_get (query_key (s_query x)) qs) as [e|];
    unfold used_size; cbn [update_entry total_index_size_bytes new_entry];
    destruct (s_info x) as [i|]; rewrite ?fold_sizes; lia.
Qed.

Lemma total_size_iter qs x n :
  total_size_of (key_of x) (Nat.iter n (fun q => Spec.record q x) qs)
  = (total_size_of (key_of x) qs + Z.of_nat n * used_size x)%Z.
Proof.
  induction n as [|n IH].
  - simpl. lia.
  - rewrite Nat.iter_succ, total_size_record, IH. lia.
Qed.

(** C8: every recorded execution adds the sizes of all the indexes of
    [used_by_query] to the entry's total_index_size_bytes; the additions
    accumulate over repeated executions with no deduplication, so [n]
    executions that each used the same single index of size [s] add
    [n * s]. *)
Theorem total_index_size_is_additive :
  (forall qs x,
      total_size_of (key_of x) (Spec.record qs x)
      = (total_size_of (key_of x) qs + used_size x)%Z) /\
  (forall qs x n,
      total_size_of (key_of x) (Nat.iter n (fun q => Spec.record q x) qs)
      = (total_size_of (key_of x) qs + Z.of_nat n * used_size x)%Z) /\
  (forall qs created idx query tables columns baseline optimized n,
      let x := {| s_info := Some {| all_created := created;
                                    used_by_query := [idx] |};
                  s_query := query; s_tables := tables;
                  s_columns := columns; s_baseline := baseline;
                  s_optimized := optimized |} in
      total_size_of (key_of x) (Nat.iter n (fun q => Spec.record q x) qs)
      = (total_size_of (key_of x) qs + Z.of_nat n * size_bytes idx)%Z).
Proof.
  repeat split.
  - apply total_size_record.
  - apply total_size_iter.
  - intros. rewrite total_size_iter. reflexivity.
Qed.
(** The ratio of the sums is not the mean of the samples' ratios: after a
    sample that saves everything of a cost of 100 and one that saves
    nothing of a cost of 900, the entry holds 10, and the mean of the two
    improvements is 50. *)
Example avg_improvement_is_not_mean_of_samples :
  let x1 := {| s_info := None; s_query := "q"; s_tables := ["orders"];
               s_columns := ["o_totalprice"];
               s_baseline := 100; s_optimized := 0 |} in
  let x2 := {| s_info := None; s_query := "q"; s_tables := ["orders"];
               s_columns := ["o_totalprice"];
               s_baseline := 900; s_optimized := 900 |} in
  exists e,
    dict_get "q" (record_all [x1; x2]) = Some e /\
    Runner.avg_improvement_pct e == 10 /\
    (improvement x1 + improvement x2) / 2 == 50.
Proof.
  eexists. split; [reflexivity|]. split; reflexivity.
Qed.
End AggregatorProperties.

Section MinMax.
Import Runner.

Lemma fold_min_compat (l : list Q) (a a' : Q) :
  a == a' -> fold_left Py.min l a == fold_left Qmin l a'.
Proof.
  revert a a'. induction l as [|b l IH]; intros a a' H; simpl.
  - exact H.
  - apply IH. now rewrite Py_min_Qmin, H.
Qed.

Lemma fold_max_compat (l : list Q) (a a' : Q) :
  a == a' -> fold_left Py.max l a == fold_left Qmax l a'.
Proof.
  revert a a'. induction l as [|b l IH]; intros a a' H; simpl.
  - exact H.
  - apply IH. now rewrite Py_max_Qmax, H.
Qed.

Lemma fold_Qmax_Qeq (l : list Q) (a a' : Q) :
  a == a' -> fold_left Qmax l a == fold_left Qmax l a'.
Proof.
  revert a a'. induction l as [|b l IH]; intros a a' H; simpl.
  - exact H.
  - apply IH. now rewrite H.
Qed.

Lemma fold_Qmax_clamp (l : list Q) (c a : Q) :
  fold_left Qmax l (Qmax c a) == Qmax c (fold_left Qmax l a).
Proof.
  revert a. induction l as [|b l IH]; intro a; simpl.
  - reflexivity.
  - rewrite <- IH. apply fold_Qmax_Qeq. now rewrite Q.max_assoc.
Qed.

(** The running minimum is the minimum of the samples: the initial value
    100 is an upper bound of every improvement. *)
Lemma min_improvement_is_minimum (xs : list sample) (k : string)
    (e : query_stats) :
  Forall nonneg xs ->
  dict_get k (record_all xs) = Some e ->
  min_improvement_pct e == minimum (map improvement (of_key k xs)).
Proof.
  intros Hnn Hget.
  pose proof (record_all_entry xs k) as Hinv. rewrite Hget in Hinv.
  destruct Hinv as (Hne & _ & _ & _ & _ & Hmin & _).
  pose proof (of_key_nonneg k _ Hnn) as Hk.
  destruct (of_key k xs) as [|x rest]; [congruence|].
  rewrite Hmin. cbn [map fold_left minimum].
  apply fold_min_compat. rewrite Py_min_Qmin.
  apply Q.min_r. apply improvement_le_100. now inversion Hk.
Qed.

(** The running maximum is the maximum of the samples and of the initial
    value -100. *)
Lemma max_improvement_is_clamped (xs : list sample) (k : string)
    (e : query_stats) :
  dict_get k (record_all xs) = Some e ->
  max_improvement_pct e
  == Qmax (-100) (maximum (map improvement (of_key k xs))).
Proof.
  intro Hget.
  pose proof (record_all_entry xs k) as Hinv. rewrite Hget in Hinv.
  destruct Hinv as (Hne & _ & _ & _ & _ & _ & Hmax & _).
  destruct (of_key k xs) as [|x rest]; [congruence|].
  rewrite Hmax. cbn [map fold_left maximum].
  rewrite <- fold_Qmax_clamp.
  apply fold_max_compat. apply Py_max_Qmax.
Qed.

(** C7, at a sample whose optimized cost is more than twice its baseline:
    with baseline 1 and optimized 3 the sample's improvement is -200, and
    after it is recorded max_improvement_pct is the initial -100, not the
    maximum over the samples; min_improvement_pct is -200. *)
Theorem max_improvement_stuck_at_initial_value :
  let x := {| s_info := None; s_query := "q"; s_tables := ["orders"];
              s_columns := ["o_totalprice"];
              s_baseline := 1; s_optimized := 3 |} in
  nonneg x /\
  exists e,
    dict_get "q" (record_all [x]) = Some e /\
    maximum (map improvement (of_key "q" [x])) == -200 /\
    max_improvement_pct e == -100 /\
    min_improvement_pct e == -200 /\
    ~ max_improvement_pct e == maximum (map improvement (of_key "q" [x])).
Proof.
  split.
  - split; discriminate.
  - eexists. split; [reflexivity|]. repeat split; try reflexivity.
    intro H. vm_compute in H. discriminate.
Qed.
End MinMax.

(** ** [save_stats] and the run *)

Section Saving.
Import Runner.
Variable extract_tables_from_query : string -> list string.
Variable extract_columns_from_query : string -> list string.

Lemma get_optimized_cost_stats O self0 s query tables columns :
  stats (snd (fst (get_optimized_cost O self0 s query tables columns)))
  = stats self0.
Proof.
  unfold get_optimized_cost.
  destruct (db_cursor O s) as [opened s0]. destruct opened; [|reflexivity].
  cbn [negb]. destruct tables as [|t ts]; [reflexivity|].
  destruct columns as [|c cs]; [reflexivity|].
  destruct (new_columns_of self0 (c :: cs)) as [|n ns].
  - destruct (get_baseline_cost O query _). reflexivity.
  - destruct (db_commit O _) as [committed s5].
    destruct committed; reflexivity.
Qed.

Lemma process_query_stats_fields O st query :
  let st' := process_query extract_tables_from_query
               extract_columns_from_query O st query in
  last_save (stats (self st')) = last_save (stats (self st)).
Proof.
  unfold process_query.
  destruct (extract_tables_from_query query) as [|t ts]; [reflexivity|].
  destruct (extract_columns_from_query query) as [|c cs]; [reflexivity|].
  destruct (get_baseline_cost O query (conn st)) as [[b|] s1];
    [|reflexivity].
  pose proof (get_optimized_cost_stats O (self st) s1 query (t :: ts)
                (c :: cs)) as H.
  destruct (get_optimized_cost O (self st) s1 query (t :: ts) (c :: cs))
    as [[[o|] self1] s2]; cbn in H |- *; now rewrite H.
Qed.

Lemma apply_event_last_save rs ev :
  last_save (stats (self (fst (apply_event extract_tables_from_query
                              extract_columns_from_query rs ev))))
  = match saved_at ev with
    | Some now => now
    | None => last_save (stats (self (fst rs)))
    end.
Proof.
  destruct rs as [st file]. destruct ev as [|O query|w now| |w now]; cbn.
  - reflexivity.
  - apply process_query_stats_fields.
  - destruct w; reflexivity.
  - reflexivity.
  - destruct w; reflexivity.
Qed.

Lemma run_last_save evs rs :
  last_save (stats (self (fst (run extract_tables_from_query
                              extract_columns_from_query evs rs))))
  = last_recorded (last_save (stats (self (fst rs)))) evs.
Proof.
  revert rs. induction evs as [|ev evs IH]; intro rs.
  - reflexivity.
  - unfold Spec.run, last_recorded in *. cbn [fold_left].
    rewrite IH. now rewrite apply_event_last_save.
Qed.

(** C10: whenever a save succeeds, the snapshot it writes carries in
    last_save the time recorded by the latest earlier successful save of
    the run, or the construction time of the runner when no save succeeded
    before; the time of the save itself only goes to the runner's in-memory
    last_save, after the file is written. *)
Theorem snapshot_last_save_is_previous_save
    (wid : Z) (now1 now2 : timestamp) (catalog : option (list string))
    (s : session) (evs : list event) (now : timestamp) :
  let previous := last_recorded now2 evs in
  (exists st snap,
      run extract_tables_from_query extract_columns_from_query
          (evs ++ [PeriodicSave WriteOk now])
          (fresh wid now1 now2 catalog s) = (st, Some snap)
      /\ last_save snap = previous
      /\ last_save (stats (self st)) = now)
  /\
  (exists st snap,
      run extract_tables_from_query extract_columns_from_query
          (evs ++ [FinalSave WriteOk now])
          (fresh wid now1 now2 catalog s) = (st, Some snap)
      /\ last_save snap = previous
      /\ last_save (stats (self st)) = now).
Proof.
  intro previous.
  pose proof (run_last_save evs (fresh wid now1 now2 catalog s)) as H.
  revert H.
  cbn [fresh fst self init stats last_save]. fold previous.
  unfold Spec.run. rewrite !fold_left_app. cbn [fold_left].
  destruct (fold_left _ evs _) as [st file].
  cbn [fst]. intro H.
  split; do 2 eexists; (split; [reflexivity|]); cbn; auto.
Qed.
End Saving.

(** ** The sampler: [get_optimized_cost] *)

Section Sampler.
Import Runner.


Lemma same_indexes_refl s : same_indexes s s.
Proof. now split. Qed.

Lemma same_indexes_trans s1 s2 s3 :
  same_indexes s1 s2 -> same_indexes s2 s3 -> same_indexes s1 s3.
Proof. intros [H1 H2] [H3 H4]. split; congruence. Qed.

Lemma tick_same s : same_indexes s (tick s).
Proof. now split. Qed.

Lemma db_create_extension_same O s : same_indexes s (db_create_extension O s).
Proof.
  unfold db_create_extension. destruct (create_extension O (step s)); now split.
Qed.

Lemma get_baseline_cost_same O query s :
  same_indexes s (snd (get_baseline_cost O query s)).
Proof.
  unfold get_baseline_cost, db_cursor.
  destruct (cursor_opens O (step s)); now split.
Qed.

Lemma explain_with_hypotheticals_same O query hyps s :
  same_indexes s (snd (explain_with_hypotheticals O query hyps s)).
Proof.
  unfold explain_with_hypotheticals, db_explain.
  destruct hyps; [now split|].
  destruct (explain O (step s) true query (active s)) as [[c p]|]; now split.
Qed.



Lemma creating_start s0 :
  creating s0 {| hyp_index_info := []; index_count := 0; sess := s0 |}.
Proof.
  constructor; cbn; auto.
  - unfold max_indexes. lia.
  - lia.
Qed.

Lemma try_create_creating O s0 table combo c :
  creating s0 c -> (index_count c < max_indexes)%nat ->
  creating s0 (try_create O table combo c).
Proof.
  intros [Hc Hb Ha Hn Hf] Hlt. unfold try_create, db_create_index.
  destruct (hypopg_create_index O (step (sess c)) (create_stmt table combo)).
  - constructor; cbn; auto.
  - constructor; cbn; auto.
  - unfold db_relation_size. constructor; cbn.
    + rewrite length_app. cbn. lia.
    + lia.
    + rewrite map_app, rev_app_distr. cbn. now rewrite Ha.
    + rewrite length_app. cbn. lia.
    + apply Forall_app. split.
      * eapply Forall_impl; [|exact Hf]. cbn. intros h Hh. lia.
      * constructor; [|constructor]. cbn. lia.
Qed.

Lemma create_combos_creating O s0 table combos c :
  creating s0 c -> creating s0 (create_combos O table combos c).
Proof.
  revert c. induction combos as [|combo rest IH]; intros c H;
    cbn [create_combos].
  - exact H.
  - destruct (max_indexes <=? index_count c)%nat eqn:E; [exact H|].
    apply Nat.leb_gt in E. apply IH. now apply try_create_creating.
Qed.

Lemma create_tables_creating O s0 tables combos c :
  creating s0 c -> creating s0 (create_tables O tables combos c).
Proof.
  revert c. induction tables as [|table rest IH]; intros c H;
    cbn [create_tables].
  - exact H.
  - destruct (max_indexes <=? index_count c)%nat; [exact H|].
    apply IH. now apply create_combos_creating.
Qed.
End Sampler.

Section Cleanup.
Import Runner.

Lemma db_drop_index_In O oid s o :
  In o (active (snd (db_drop_index O oid s))) -> In o (active s).
Proof.
  unfold db_drop_index. destruct (hypopg_drop_index O (step s) oid); cbn.
  - intro H. now apply in_remove in H.
  - auto.
Qed.

Lemma db_drop_index_next O oid s :
  next_oid (snd (db_drop_index O oid s)) = next_oid s.
Proof.
  unfold db_drop_index. now destruct (hypopg_drop_index O (step s) oid).
Qed.

Lemma drop_all_In O hyps s o :
  In o (active (drop_all O hyps s)) -> In o (active s).
Proof.
  revert s. induction hyps as [|h rest IH]; intros s H; cbn in H.
  - exact H.
  - apply IH in H. now apply db_drop_index_In in H.
Qed.

Lemma drop_all_next O hyps s : next_oid (drop_all O hyps s) = next_oid s.
Proof.
  revert s. induction hyps as [|h rest IH]; intro s; cbn.
  - reflexivity.
  - now rewrite IH, db_drop_index_next.
Qed.

(** An index that is in the list handed to the clean-up and is still active
    afterwards had its drop refused. *)
Lemma drop_all_refused O hyps s o :
  In o (map hyp_oid hyps) ->
  In o (active (drop_all O hyps s)) ->
  exists k, hypopg_drop_index O k o = false.
Proof.
  revert s. induction hyps as [|h rest IH]; intros s Hin Hact; cbn in *.
  - contradiction.
  - destruct (Z.eq_dec (hyp_oid h) o) as [E|E].
    + subst o. apply drop_all_In in Hact.
      unfold db_drop_index in Hact.
      destruct (hypopg_drop_index O (step s) (hyp_oid h)) eqn:D.
      * cbn in Hact. now apply remove_In in Hact.
      * now exists (step s).
    + destruct Hin as [Hin|Hin]; [contradiction|]. now apply (IH _ Hin Hact).
Qed.

(** When no drop is refused, the clean-up removes exactly the listed
    indexes. *)
Lemma drop_all_obeyed O hyps s :
  (forall k o, hypopg_drop_index O k o = true) ->
  active (drop_all O hyps s)
  = filter (fun o => negb (existsb (Z.eqb o) (map hyp_oid hyps))) (active s).
Proof.
  intro Hok. revert s. induction hyps as [|h rest IH]; intro s; cbn.
  - induction (active s) as [|a l IHl]; cbn; congruence.
  - rewrite IH. unfold db_drop_index. rewrite Hok. cbn.
    induction (active s) as [|a l IHl]; cbn; [reflexivity|].
    destruct (Z.eq_dec (hyp_oid h) a) as [E|E].
    + subst a. rewrite Z.eqb_refl. cbn. exact IHl.
    + cbn. rewrite IHl.
      assert (Hne : (a =? hyp_oid h)%Z = false) by (apply Z.eqb_neq; congruence).
      rewrite Hne. reflexivity.
Qed.

Lemma filter_none {A : Type} (f : A -> bool) (l : list A) :
  (forall x, In x l -> f x = false) -> filter f l = [].
Proof.
  induction l as [|a l IH]; intro H; cbn; [reflexivity|].
  rewrite (H a (or_introl eq_refl)). apply IH. intros x Hx. apply H. now right.
Qed.

Lemma filter_all {A : Type} (f : A -> bool) (l : list A) :
  (forall x, In x l -> f x = true) -> filter f l = l.
Proof.
  induction l as [|a l IH]; intro H; cbn; [reflexivity|].
  rewrite (H a (or_introl eq_refl)). f_equal. apply IH.
  intros x Hx. apply H. now right.
Qed.

Lemma filter_created (news : list Z) (old : list Z) (bound : Z) :
  Forall (fun o => (o < bound)%Z) old ->
  Forall (fun o => (bound <= o)%Z) news ->
  filter (fun o => negb (existsb (Z.eqb o) news)) (rev news ++ old) = old.
Proof.
  intros Hold Hnew. rewrite filter_app, filter_none, filter_all.
  - reflexivity.
  - intros o Ho. apply negb_true_iff.
    destruct (existsb (Z.eqb o) news) eqn:E; [|reflexivity].
    apply existsb_exists in E. destruct E as (o' & Hin & Heq).
    apply Z.eqb_eq in Heq. subst o'.
    rewrite Forall_forall in Hold, Hnew.
    specialize (Hold _ Ho). specialize (Hnew _ Hin). lia.
  - intros o Ho. apply negb_false_iff. apply existsb_exists.
    exists o. split; [now apply in_rev|apply Z.eqb_refl].
Qed.
End Cleanup.

Section SamplerProperties.
Import Runner.

Lemma probe_costs_creating O query tables new_columns s :
  let pr := probe_costs O query tables new_columns s in
  active (p_sess pr) = (rev (map hyp_oid (p_hyps pr)) ++ active s)%list /\
  next_oid (p_sess pr)
  = (next_oid s + Z.of_nat (List.length (p_hyps pr)))%Z /\
  (List.length (p_hyps pr) <= max_indexes)%nat /\
  Forall (fun h => (next_oid s <= hyp_oid h < next_oid (p_sess pr))%Z)
         (p_hyps pr).
Proof.
  unfold probe_costs.
  pose proof (get_baseline_cost_same O query s) as [Ha Hn].
  destruct (get_baseline_cost O query s) as [b s2]. cbn [snd] in Ha, Hn.
  set (c := create_tables _ _ _ _).
  assert (Hc : creating s2 c) by apply create_tables_creating, creating_start.
  pose proof (explain_with_hypotheticals_same O query (hyp_index_info c)
                (sess c)) as [Ha3 Hn3].
  destruct (explain_with_hypotheticals O query (hyp_index_info c) (sess c))
    as [[cost used] s3].
  cbn [snd] in Ha3, Hn3. cbn [p_sess p_hyps].
  destruct Hc as [Hcount Hbound Hact Hnext Hfresh].
  rewrite Ha3, Hn3, Hact, Hnext, Ha, Hn. repeat split.
  - lia.
  - eapply Forall_impl; [|exact Hfresh]. cbn. intros h Hh. lia.
Qed.

(** The session after a call: either no hypothetical index was touched, or
    some were created and then handed to the clean-up. *)
Lemma get_optimized_cost_session O self0 s query tables columns :
  let s' := snd (get_optimized_cost O self0 s query tables columns) in
  same_indexes s s' \/
  exists (hyps : list hyp_index) (s3 : session),
    active s3 = (rev (map hyp_oid hyps) ++ active s)%list /\
    next_oid s3 = (next_oid s + Z.of_nat (List.length hyps))%Z /\
    (List.length hyps <= max_indexes)%nat /\
    Forall (fun h => (next_oid s <= hyp_oid h < next_oid s3)%Z) hyps /\
    active s' = active (drop_all O hyps s3) /\
    next_oid s' = next_oid s3.
Proof.
  unfold get_optimized_cost, db_cursor.
  destruct (cursor_opens O (step s)); cbn [negb];
    [|left; apply tick_same].
  pose proof (db_create_extension_same O (tick s)) as [Ha1 Hn1].
  set (s1 := db_create_extension O (tick s)) in *. cbn in Ha1, Hn1.
  destruct tables as [|t ts]; [left; now split|].
  destruct columns as [|col cols]; [left; now split|].
  destruct (new_columns_of self0 (col :: cols)) as [|n ns].
  - pose proof (get_baseline_cost_same O query s1) as [Ha2 Hn2].
    destruct (get_baseline_cost O query s1) as [b s2]. cbn in *.
    left. split; congruence.
  - right.
    pose proof (probe_costs_creating O query (t :: ts) (n :: ns) s1)
      as (Ha & Hn & Hlen & Hfresh).
    set (pr := probe_costs O query (t :: ts) (n :: ns) s1) in *.
    exists (p_hyps pr), (p_sess pr).
    rewrite Ha, Hn, Ha1, Hn1. repeat split; try assumption.
    + eapply Forall_impl; [|exact Hfresh]. cbn. intros h Hh.
      rewrite Hn, Hn1 in Hh. exact Hh.
    + unfold db_commit. now destruct (commit O _).
    + unfold db_commit. destruct (commit O _); cbn;
        now rewrite drop_all_next, Hn, Hn1.
Qed.

(** C3, as the code has it: a hypothetical index that is active after a
    call and was not before was created by the call and had its drop
    request refused (the refusal is swallowed); and when no drop request is
    refused, the hypothetical indexes active after the call are exactly
    those active before it, on every path by which the call returns. *)
Theorem created_indexes_remain_only_if_drop_refused
    (O : oracle) (self0 : runner) (s : session) (query : string)
    (tables columns : list string) :
  session_wf s ->
  let s' := snd (get_optimized_cost O self0 s query tables columns) in
  (forall oid,
      In oid (active s') ->
      In oid (active s) \/
      ((next_oid s <= oid < next_oid s')%Z /\
       exists k, hypopg_drop_index O k oid = false)) /\
  ((forall k oid, hypopg_drop_index O k oid = true) ->
   active s' = active s).
Proof.
  intros Hwf s'.
  destruct (get_optimized_cost_session O self0 s query tables columns)
    as [[Ha Hn]|(hyps & s3 & Ha3 & Hn3 & Hlen & Hfresh & Ha' & Hn')];
    fold s' in Ha, Hn || fold s' in Ha', Hn'.
  - split.
    + intros oid H. left. now rewrite <- Ha.
    + intros _. exact Ha.
  - split.
    + intros oid H. rewrite Ha' in H.
      pose proof (drop_all_In _ _ _ _ H) as H3. rewrite Ha3 in H3.
      apply in_app_or in H3. destruct H3 as [Hnew|Hold]; [right|now left].
      apply in_rev in Hnew. split.
      * rewrite Hn'. apply in_map_iff in Hnew.
        destruct Hnew as (h & <- & Hh).
        rewrite Forall_forall in Hfresh. now apply Hfresh.
      * now apply (drop_all_refused O hyps s3).
    + intro Hok. rewrite Ha', (drop_all_obeyed _ _ _ Hok), Ha3.
      apply (filter_created _ _ (next_oid s)); [exact Hwf|].
      apply Forall_map. eapply Forall_impl; [|exact Hfresh].
      cbn. intros h Hh. lia.
Qed.
End SamplerProperties.

Section Enumeration.
Import Runner.

Lemma C_zero_above (n k : nat) : (n < k)%nat -> C n k = 0%nat.
Proof.
  revert k. induction n as [|n IH]; intros k H.
  - destruct k; [lia|reflexivity].
  - destruct k; [lia|]. cbn. rewrite !IH by lia. reflexivity.
Qed.

Lemma C_1 (n : nat) : C n 1 = n.
Proof.
  induction n as [|n IH]; [reflexivity|].
  cbn [C]. rewrite IH. destruct n; cbn; lia.
Qed.

(** [C] agrees with the closed forms of the binomial coefficients. *)
Lemma C_2 (n : nat) : (2 * C n 2 = n * (n - 1))%nat.
Proof.
  induction n as [|n IH]; [reflexivity|].
  cbn [C]. rewrite C_1. destruct n; [reflexivity|].
  replace (S (S n) - 1)%nat with (S n) by lia.
  replace (S n - 1)%nat with n in IH by lia. nia.
Qed.

Lemma C_3 (n : nat) : (6 * C n 3 = n * (n - 1) * (n - 2))%nat.
Proof.
  induction n as [|n IH]; [reflexivity|].
  cbn [C]. pose proof (C_2 n) as H2.
  destruct n as [|[|n]]; [reflexivity|reflexivity|].
  replace (S (S (S n)) - 1)%nat with (S (S n)) by lia.
  replace (S (S (S n)) - 2)%nat with (S n) by lia.
  replace (S (S n) - 1)%nat with (S n) in * by lia.
  replace (S (S n) - 2)%nat with n in IH by lia. nia.
Qed.

Lemma combinations_length {A : Type} (l : list A) (r : nat) :
  List.length (combinations l r) = C (List.length l) r.
Proof.
  revert r. induction l as [|x l IH]; intro r; destruct r; try reflexivity.
  cbn [combinations List.length C].
  now rewrite length_app, length_map, !IH.
Qed.

Lemma all_combinations_length (new_columns : list string) :
  let n := List.length new_columns in
  List.length (all_combinations new_columns)
  = (C n 1 + C n 2 + C n 3)%nat.
Proof.
  intro n. unfold all_combinations.
  rewrite !length_app, length_map, C_1. fold n.
  destruct (2 <=? n)%nat eqn:E2; destruct (3 <=? n)%nat eqn:E3;
    rewrite ?combinations_length; fold n; cbn [List.length];
    try apply Nat.leb_gt in E2; try apply Nat.leb_gt in E3;
    rewrite ?(C_zero_above n 2), ?(C_zero_above n 3) by lia; lia.
Qed.


Lemma try_create_accepted O table combo c :
  accepts_all O ->
  pairs (hyp_index_info (try_create O table combo c))
  = (pairs (hyp_index_info c) ++ [(table, combo)])%list /\
  index_count (try_create O table combo c) = S (index_count c).
Proof.
  intro Hacc. unfold try_create, db_create_index.
  destruct (Hacc (step (sess c)) (create_stmt table combo)) as [name ->].
  cbn. unfold pairs. rewrite map_app. now cbn.
Qed.

Lemma create_combos_accepted O table combos c :
  accepts_all O ->
  index_count c = List.length (hyp_index_info c) ->
  let c' := create_combos O table combos c in
  pairs (hyp_index_info c')
  = (pairs (hyp_index_info c)
     ++ firstn (max_indexes - index_count c) (map (pair table) combos))%list
  /\ index_count c' = List.length (hyp_index_info c').
Proof.
  intro Hacc. revert c.
  induction combos as [|combo rest IH]; intros c Hc; cbn [create_combos].
  - cbn. rewrite firstn_nil, app_nil_r. now split.
  - destruct (max_indexes <=? index_count c)%nat eqn:E.
    + apply Nat.leb_le in E.
      replace (max_indexes - index_count c)%nat with 0%nat by lia.
      cbn. rewrite app_nil_r. now split.
    + apply Nat.leb_gt in E.
      destruct (try_create_accepted O table combo c Hacc) as [Hp Hn].
      assert (Hc1 : index_count (try_create O table combo c)
                    = List.length (hyp_index_info (try_create O table combo c))).
      { rewrite Hn, Hc. unfold pairs in Hp.
        apply (f_equal (@List.length _)) in Hp.
        rewrite length_app, !length_map in Hp. cbn in Hp. lia. }
      destruct (IH _ Hc1) as [IHp IHn]. cbn zeta in IHp, IHn.
      split; [|exact IHn].
      rewrite IHp, Hp, Hn, <- app_assoc.
      replace (max_indexes - index_count c)%nat
        with (S (max_indexes - S (index_count c))) by lia.
      reflexivity.
Qed.

Lemma create_tables_accepted O tables combos c :
  accepts_all O ->
  index_count c = List.length (hyp_index_info c) ->
  let c' := create_tables O tables combos c in
  pairs (hyp_index_info c')
  = (pairs (hyp_index_info c)
     ++ firstn (max_indexes - index_count c) (list_prod tables combos))%list
  /\ index_count c' = List.length (hyp_index_info c').
Proof.
  intro Hacc. revert c.
  induction tables as [|table rest IH]; intros c Hc; cbn [create_tables].
  - cbn. rewrite firstn_nil, app_nil_r. now split.
  - destruct (max_indexes <=? index_count c)%nat eqn:E.
    + apply Nat.leb_le in E.
      replace (max_indexes - index_count c)%nat with 0%nat by lia.
      cbn. rewrite app_nil_r. now split.
    + apply Nat.leb_gt in E.
      destruct (create_combos_accepted O table combos c Hacc Hc) as [Hp Hn].
      cbn zeta in Hp, Hn.
      destruct (IH _ Hn) as [IHp IHn]. cbn zeta in IHp, IHn.
      split; [|exact IHn].
      rewrite IHp, Hp, <- app_assoc. f_equal.
      cbn [list_prod]. rewrite firstn_app. f_equal.
      rewrite length_map.
      assert (Hlen : index_count (create_combos O table combos c)
                     = (index_count c
                        + Nat.min (max_indexes - index_count c)
                                  (List.length combos))%nat).
      { rewrite Hn. unfold pairs in Hp.
        apply (f_equal (@List.length _)) in Hp.
        rewrite length_app, !length_map, length_firstn, length_map in Hp.
        lia. }
      rewrite Hlen. f_equal. lia.
Qed.
End Enumeration.

Section CreationOrder.
Import Runner.

Lemma subseq_app {A : Type} (a b c d : list A) :
  subseq a b -> subseq c d -> subseq (a ++ c) (b ++ d).
Proof.
  intros Hab Hcd. induction Hab as [l|x l1 l2 H IH|x l1 l2 H IH]; cbn.
  - induction l as [|y l IHl]; cbn; [exact Hcd|now apply subseq_skip].
  - now apply subseq_take.
  - now apply subseq_skip.
Qed.

Lemma try_create_pairs O table combo c :
  exists d,
    pairs (hyp_index_info (try_create O table combo c))
    = (pairs (hyp_index_info c) ++ d)%list /\
    subseq d [(table, combo)].
Proof.
  unfold try_create, db_create_index.
  destruct (hypopg_create_index O (step (sess c)) (create_stmt table combo));
    cbn.
  - exists []. rewrite app_nil_r. split; [reflexivity|constructor].
  - exists []. rewrite app_nil_r. split; [reflexivity|constructor].
  - exists [(table, combo)]. unfold pairs. rewrite map_app. split;
      [reflexivity|repeat constructor].
Qed.

Lemma create_combos_pairs O table combos c :
  exists news,
    pairs (hyp_index_info (create_combos O table combos c))
    = (pairs (hyp_index_info c) ++ news)%list /\
    subseq news (map (pair table) combos).
Proof.
  revert c. induction combos as [|combo rest IH]; intro c;
    cbn [create_combos map].
  - exists []. rewrite app_nil_r. split; [reflexivity|constructor].
  - destruct (max_indexes <=? index_count c)%nat.
    + exists []. rewrite app_nil_r. split; [reflexivity|constructor].
    + destruct (try_create_pairs O table combo c) as (d & Hd & Sd).
      destruct (IH (try_create O table combo c)) as (n1 & Hn & Sn).
      exists (d ++ n1)%list. split.
      * now rewrite Hn, Hd, app_assoc.
      * apply (subseq_app d [(table, combo)] n1 _ Sd Sn).
Qed.

Lemma create_tables_pairs O tables combos c :
  exists news,
    pairs (hyp_index_info (create_tables O tables combos c))
    = (pairs (hyp_index_info c) ++ news)%list /\
    subseq news (list_prod tables combos).
Proof.
  revert c. induction tables as [|table rest IH]; intro c;
    cbn [create_tables list_prod].
  - exists []. rewrite app_nil_r. split; [reflexivity|constructor].
  - destruct (max_indexes <=? index_count c)%nat.
    + exists []. rewrite app_nil_r. split; [reflexivity|constructor].
    + destruct (create_combos_pairs O table combos c) as (d & Hd & Sd).
      destruct (IH (create_combos O table combos c)) as (n1 & Hn & Sn).
      exists (d ++ n1)%list. split.
      * now rewrite Hn, Hd, app_assoc.
      * now apply subseq_app.
Qed.

(** Whatever the server answers, the indexes are recorded in the order of
    the pairs (table, combination), table by table. *)
Lemma probe_costs_order O query tables new_columns s :
  subseq (pairs (p_hyps (probe_costs O query tables new_columns s)))
         (list_prod tables (all_combinations new_columns)).
Proof.
  unfold probe_costs.
  destruct (get_baseline_cost O query s) as [b s2].
  destruct (create_tables_pairs O tables (all_combinations new_columns)
              {| hyp_index_info := []; index_count := 0; sess := s2 |})
    as (news & Hn & Sn).
  destruct (explain_with_hypotheticals _ _ _ _) as [[cost used] s3].
  cbn [p_hyps]. rewrite Hn. exact Sn.
Qed.
End CreationOrder.

Section EnumerationProperties.
Import Runner.

Lemma pairs_describe (hyps : list hyp_index) :
  map (fun d => (table d, columns d)) (map describe hyps) = pairs hyps.
Proof. unfold pairs. rewrite map_map. reflexivity. Qed.

Lemma probe_costs_accepted O query tables new_columns s :
  accepts_all O ->
  pairs (p_hyps (probe_costs O query tables new_columns s))
  = firstn max_indexes (list_prod tables (all_combinations new_columns)).
Proof.
  intro Hacc. unfold probe_costs.
  destruct (get_baseline_cost O query s) as [b s2].
  set (c0 := {| hyp_index_info := []; index_count := 0; sess := s2 |}).
  destruct (create_tables_accepted O tables (all_combinations new_columns) c0
              Hacc eq_refl) as [Hp _].
  cbn zeta in Hp.
  destruct (explain_with_hypotheticals _ _ _ _) as [[cost used] s3].
  cbn [p_hyps]. rewrite Hp. cbn [c0 hyp_index_info index_count pairs map app].
  now rewrite Nat.sub_0_r.
Qed.

(** C4, as the code has it: the combinations enumerated for [n] new
    columns are C(n,1)+C(n,2)+C(n,3) in number; a call never creates more
    than 50 hypothetical indexes; the indexes it creates follow the order
    of the pairs (table, combination), table by table and, within a table,
    singles, then pairs, then triplets; and when every creation request
    succeeds they are the first 50 of these pairs, so that their number is
    the number of tables times C(n,1)+C(n,2)+C(n,3), capped at 50. *)
Theorem hypothetical_indexes_enumerated
    (O : oracle) (self0 : runner) (s : session) (query : string)
    (tables columns : list string) :
  let new_columns := new_columns_of self0 columns in
  let n := List.length new_columns in
  let K := (C n 1 + C n 2 + C n 3)%nat in
  let all_pairs := list_prod tables (all_combinations new_columns) in
  let out := get_optimized_cost O self0 s query tables columns in
  List.length (all_combinations new_columns) = K /\
  (0 <= created_by s (snd out) <= 50)%Z /\
  (cursor_opens O (step s) = true -> tables <> [] -> new_columns <> [] ->
   exists i,
     let created :=
       map (fun d => (Runner.table d, Runner.columns d)) (all_created i) in
     index_info (snd (fst out)) = Some i /\
     created_by s (snd out) = Z.of_nat (List.length created) /\
     subseq created all_pairs /\
     (accepts_all O ->
      created = firstn 50 all_pairs /\
      List.length created = Nat.min 50 (List.length tables * K))).
Proof.
  intros new_columns n K all_pairs out.
  split; [apply all_combinations_length|]. split.
  - unfold created_by, out.
    destruct (get_optimized_cost_session O self0 s query tables columns)
      as [[_ Hn]|(hyps & s3 & _ & Hn3 & Hlen & _ & _ & Hn')].
    + rewrite Hn. lia.
    + rewrite Hn', Hn3. unfold max_indexes in Hlen. lia.
  - intros Hcur Htab Hnew.
    unfold out, get_optimized_cost, db_cursor, created_by. rewrite Hcur.
    cbn [negb]. destruct tables as [|t ts]; [congruence|].
    destruct columns as [|col cols]; [now cbn in Hnew|].
    unfold all_pairs. fold new_columns.
    destruct new_columns as [|nc ncs] eqn:E; [congruence|].
    set (s1 := db_create_extension O (tick s)).
    pose proof (probe_costs_order O query (t :: ts) (nc :: ncs) s1) as Hsub.
    pose proof (probe_costs_creating O query (t :: ts) (nc :: ncs) s1)
      as (_ & Hn & _ & _).
    pose proof (db_create_extension_same O (tick s)) as [_ Hn1].
    fold s1 in Hn1. cbn [tick next_oid] in Hn1.
    pose proof (fun H => probe_costs_accepted O query (t :: ts) (nc :: ncs)
                           s1 H) as Hp.
    set (pr := probe_costs O query (t :: ts) (nc :: ncs) s1) in *.
    exists {| all_created := map describe (p_hyps pr);
              used_by_query := p_used pr |}.
    cbn [all_created]. rewrite pairs_describe.
    split; [|split; [|split]].
    + unfold db_commit. destruct (commit O _); reflexivity.
    + unfold db_commit, pairs. destruct (commit O _); cbn [snd tick next_oid];
        rewrite drop_all_next, Hn, Hn1, length_map; lia.
    + exact Hsub.
    + intro Hacc. specialize (Hp Hacc). split; [exact Hp|].
      rewrite Hp, length_firstn, length_prod. unfold max_indexes, K, n.
      now rewrite all_combinations_length.
Qed.

(** C5, as the code has it: with non-empty tables and columns, the call
    returns none when the cursor cannot be opened; the baseline estimate
    when every column is already indexed; and otherwise, when the closing
    commit succeeds, the cost estimated with the hypothetical indexes if
    there is one and else the baseline estimate (itself none when the
    baseline request fails), and none when the closing commit raises. *)
Theorem optimized_cost_or_baseline
    (O : oracle) (self0 : runner) (s : session) (query : string)
    (tables columns : list string) :
  tables <> [] -> columns <> [] ->
  let s1 := db_create_extension O (tick s) in
  let new_columns := new_columns_of self0 columns in
  let pr := probe_costs O query tables new_columns s1 in
  let s4 := drop_all O (p_hyps pr) (p_sess pr) in
  let r := fst (fst (get_optimized_cost O self0 s query tables columns)) in
  p_baseline pr = fst (get_baseline_cost O query s1) /\
  (cursor_opens O (step s) = false -> r = None) /\
  (cursor_opens O (step s) = true -> new_columns = [] ->
   r = fst (get_baseline_cost O query s1)) /\
  (cursor_opens O (step s) = true -> new_columns <> [] ->
   commit O (step s4) = true ->
   r = match p_cost pr with
       | Some v => Some v
       | None => p_baseline pr
       end) /\
  (cursor_opens O (step s) = true -> new_columns <> [] ->
   commit O (step s4) = false -> r = None).
Proof.
  intros Htab Hcol s1 new_columns pr s4 r.
  destruct tables as [|t ts]; [congruence|].
  destruct columns as [|col cols]; [congruence|].
  split.
  { unfold pr, probe_costs.
    destruct (get_baseline_cost O query s1) as [b s2].
    now destruct (explain_with_hypotheticals _ _ _ _) as [[cost used] s3]. }
  unfold r, get_optimized_cost, db_cursor. fold s1. fold new_columns.
  repeat split.
  - intro Hcur. now rewrite Hcur.
  - intros Hcur Hnew. rewrite Hcur, Hnew. cbn [negb].
    now destruct (get_baseline_cost O query s1).
  - intros Hcur Hnew Hcommit. rewrite Hcur. cbn [negb].
    unfold s4, pr in Hcommit |- *.
    destruct new_columns as [|nc ncs]; [congruence|].
    unfold db_commit. now rewrite Hcommit.
  - intros Hcur Hnew Hcommit. rewrite Hcur. cbn [negb].
    unfold s4, pr in Hcommit |- *.
    destruct new_columns as [|nc ncs]; [congruence|].
    unfold db_commit. now rewrite Hcommit.
Qed.
End EnumerationProperties.

Section SamplerExamples.
Import Runner.

Lemma session0_wf : session_wf session0.
Proof. constructor. Defined.

Lemma obliging_accepts_all : accepts_all obliging.
Proof. intros k stmt. now exists "ix". Defined.

(** C1 at two samples of one query: costs 100 then 50 without indexes, 40
    then 45 with them. *)
Lemma avg_improvement_is_ratio_of_sums_witness :
  let x1 := {| s_info := None; s_query := "q"; s_tables := ["orders"];
               s_columns := ["o_totalprice"];
               s_baseline := 100; s_optimized := 40 |} in
  let x2 := {| s_info := None; s_query := "q"; s_tables := ["orders"];
               s_columns := ["o_totalprice"];
               s_baseline := 50; s_optimized := 45 |} in
  Forall nonneg [x1; x2] /\
  exists e,
    dict_get "q" (record_all [x1; x2]) = Some e /\
    avg_improvement_pct e == (150 - 85) / 150 * 100 /\
    avg_improvement_pct e <= 100.
Proof.
  intros x1 x2.
  assert (Hnn : Forall nonneg [x1; x2]).
  { repeat constructor; discriminate. }
  split; [exact Hnn|].
  eexists. split; [reflexivity|].
  destruct (avg_improvement_is_ratio_of_sums [x1; x2] "q" _ Hnn eq_refl)
    as (_ & Hpos & _ & Hle).
  split; [|exact Hle].
  apply Hpos. reflexivity.
Defined.

(** C3 fails when the server refuses the drops: the index the call created
    (identifier 1) is still active when the call has returned. *)
Lemma refused_drop_leaves_index_active :
  let s' := snd (get_optimized_cost drop_refusing runner0 session0 "q"
                   ["orders"] ["o_totalprice"]) in
  session_wf session0 /\
  (next_oid session0 <= 1 < next_oid s')%Z /\
  In 1%Z (active s') /\
  ~ In 1%Z (active session0).
Proof.
  cbn. repeat split; try lia; auto. constructor.
Qed.

(** C3, as the code has it, on a server that obeys every drop. *)
Lemma created_indexes_remain_only_if_drop_refused_witness :
  let s' := snd (get_optimized_cost obliging runner0 session0 "q"
                   ["orders"] ["o_totalprice"]) in
  session_wf session0 /\
  (forall k oid, hypopg_drop_index obliging k oid = true) /\
  active s' = active session0.
Proof.
  intro s'. split; [exact session0_wf|]. split; [reflexivity|].
  apply (created_indexes_remain_only_if_drop_refused obliging runner0
           session0 "q" ["orders"] ["o_totalprice"] session0_wf).
  reflexivity.
Defined.

(** C4 fails with two tables: one new column gives one combination, and
    the call creates two hypothetical indexes, one per table. *)
Lemma two_tables_double_the_count :
  let out := get_optimized_cost obliging runner0 session0 "q"
               ["orders"; "lineitem"] ["o_totalprice"] in
  new_columns_of runner0 ["o_totalprice"] = ["o_totalprice"] /\
  (C 1 1 + C 1 2 + C 1 3 = 1)%nat /\
  created_by session0 (snd out) = 2%Z /\
  option_map (fun i => List.length (all_created i))
             (index_info (snd (fst out))) = Some 2%nat /\
  created_by session0 (snd out)
  <> Z.of_nat (Nat.min 50 (C 1 1 + C 1 2 + C 1 3)).
Proof.
  cbn. repeat split. discriminate.
Qed.

(** C4, as the code has it, at the same call. *)
Lemma hypothetical_indexes_enumerated_witness :
  let out := get_optimized_cost obliging runner0 session0 "q"
               ["orders"; "lineitem"] ["o_totalprice"] in
  cursor_opens obliging (step session0) = true /\
  ["orders"; "lineitem"] <> [] /\
  new_columns_of runner0 ["o_totalprice"] <> [] /\
  accepts_all obliging /\
  exists i,
    index_info (snd (fst out)) = Some i /\
    List.length (all_created i) = 2%nat.
Proof.
  intro out.
  assert (H1 : ["orders"; "lineitem"] <> []) by discriminate.
  assert (H2 : new_columns_of runner0 ["o_totalprice"] <> [])
    by discriminate.
  refine (conj eq_refl (conj H1 (conj H2 (conj obliging_accepts_all _)))).
  destruct (hypothetical_indexes_enumerated obliging runner0 session0 "q"
              ["orders"; "lineitem"] ["o_totalprice"]) as (_ & _ & H).
  destruct (H eq_refl H1 H2) as (i & Hi & _ & _ & Hacc).
  exists i. split; [exact Hi|].
  destruct (Hacc obliging_accepts_all) as [_ Hlen].
  rewrite length_map in Hlen. exact Hlen.
Defined.

(** C5 fails when the closing commit raises: the estimate with the
    hypothetical index was obtained (40, against a baseline of 100), and
    the call returns none. *)
Lemma failed_commit_loses_the_estimate :
  let s1 := db_create_extension commit_failing (tick session0) in
  let pr := probe_costs commit_failing "q" ["orders"]
              (new_columns_of runner0 ["o_totalprice"]) s1 in
  let r := fst (fst (get_optimized_cost commit_failing runner0 session0 "q"
                       ["orders"] ["o_totalprice"])) in
  p_cost pr = Some 40 /\
  p_baseline pr = Some 100 /\
  r = None /\
  r <> match p_cost pr with
       | Some v => Some v
       | None => p_baseline pr
       end.
Proof.
  cbn. repeat split. discriminate.
Qed.

(** C5, as the code has it, on a server whose commit succeeds. *)
Lemma optimized_cost_or_baseline_witness :
  ["orders"] <> [] /\ ["o_totalprice"] <> [] /\
  fst (fst (get_optimized_cost obliging runner0 session0 "q"
              ["orders"] ["o_totalprice"])) = Some 40.
Proof.
  assert (H1 : ["orders"] <> []) by discriminate.
  assert (H2 : ["o_totalprice"] <> []) by discriminate.
  refine (conj H1 (conj H2 _)).
  destruct (optimized_cost_or_baseline obliging runner0 session0 "q"
              ["orders"] ["o_totalprice"] H1 H2) as (_ & _ & _ & H & _).
  apply H; [reflexivity|discriminate|reflexivity].
Defined.
End SamplerExamples.

(** ** The decision engine: [analyze_workload] *)

Section Decision.
Import Alerter.

Lemma fold_add_query_pcts (qs : dict query_data) (t : totals) :
  all_improvement_pcts (fold_left add_query qs t)
  = (all_improvement_pcts t
     ++ map (fun kv => get (avg_improvement_pct (snd kv)) 0) qs)%list.
Proof.
  revert t. induction qs as [|kv qs IH]; intro t; cbn [fold_left map].
  - now rewrite app_nil_r.
  - rewrite IH. cbn [add_query all_improvement_pcts].
    now rewrite <- app_assoc.
Qed.

Lemma collect_pcts (queries_dict : dict query_data) (ms : list measurement) :
  queries_dict <> [] ->
  all_improvement_pcts (collect queries_dict ms)
  = map (fun kv => get (avg_improvement_pct (snd kv)) 0) queries_dict.
Proof.
  intro H. unfold collect. destruct queries_dict as [|kv qs]; [congruence|].
  apply (fold_add_query_pcts (kv :: qs) totals0).
Qed.

Lemma analyze_workload_returns cfg O now wid stats r :
  analyze_workload cfg O now wid (Some stats) = Ok (Some r) ->
  let ms := get (measurements stats) [] in
  let t := collect (get (queries stats) []) ms in
  exists existing,
    get_existing_indexes O = Ok existing /\
    r = conclude cfg O now wid t (mean (all_improvement_pcts t))
          (candidates_of (hot_columns_all t ms) existing).
Proof.
  intros H ms t. unfold analyze_workload in H. cbv zeta in H.
  fold ms in H. fold t in H.
  destruct (get_existing_indexes O) as [existing|].
  - exists existing. split; [reflexivity|].
    destruct (get (queries stats) []) as [|kv qs]; [destruct ms as [|m ms']|];
      try discriminate; now injection H as <-.
  - destruct (get (queries stats) []) as [|kv qs]; [destruct ms as [|m ms']|];
      discriminate.
Qed.

Lemma conclude_improvement cfg O now wid t avg candidates :
  rec_improvement_pct (conclude cfg O now wid t avg candidates)
  = Py.round2 avg.
Proof.
  unfold conclude. destruct candidates as [|c cs]; [reflexivity|].
  destruct (retuning O (c :: cs) 0 0 []) as [trc sizes].
  now destruct (decide cfg avg _ _).
Qed.

(** What a returned recommendation reports as improvement. *)
Lemma analyze_workload_improvement cfg O now wid stats r :
  analyze_workload cfg O now wid (Some stats) = Ok (Some r) ->
  rec_improvement_pct r
  = Py.round2 (mean (all_improvement_pcts
                       (collect (get (queries stats) [])
                                (get (measurements stats) [])))).
Proof.
  intro H. apply analyze_workload_returns in H.
  destruct H as (existing & _ & ->). apply conclude_improvement.
Qed.

(** C6: for a snapshot with at least one query shape, the improvement the
    decision engine works with is the plain mean of the avg_improvement_pct
    stored with each shape (0 for a shape that stores none): their sum
    divided by the number of shapes, whatever the executions of each; it is
    what a returned recommendation reports, rounded. *)
Theorem mean_counts_each_shape_once
    (cfg : config) (O : oracle) (now : string) (wid : Z)
    (stats : stats_file) :
  get (queries stats) [] <> [] ->
  let queries_dict := get (queries stats) [] in
  let stored := map (fun kv => get (avg_improvement_pct (snd kv)) 0)
                    queries_dict in
  let avg := mean (all_improvement_pcts
                     (collect queries_dict (get (measurements stats) []))) in
  avg = Py.sum stored / inject_Z (Z.of_nat (List.length queries_dict)) /\
  forall r,
    analyze_workload cfg O now wid (Some stats) = Ok (Some r) ->
    rec_improvement_pct r = Py.round2 avg.
Proof.
  intros Hne queries_dict stored avg. split.
  - unfold avg, stored, queries_dict. rewrite (collect_pcts _ _ Hne).
    destruct (get (queries stats) []) as [|kv qs]; [congruence|].
    unfold mean. cbn [map List.length]. now rewrite length_map.
  - intros r Hr. now apply analyze_workload_improvement in Hr.
Qed.

Lemma decide_cases (cfg : config) (avg net : Q) (space : Z) :
  let thr := improvement_threshold cfg in
  let budget := max_space_budget cfg in
  (avg < thr -> decide cfg avg net space = (NO_ACTION, BelowThreshold avg thr))
  /\ (thr <= avg -> net <= 0 ->
      decide cfg avg net space = (NO_ACTION, NetBenefitNotPositive net))
  /\ (thr <= avg -> 0 < net -> (budget < space)%Z ->
      decide cfg avg net space = (NO_ACTION, ExceedsBudget space budget))
  /\ (thr <= avg -> 0 < net -> (space <= budget)%Z ->
      decide cfg avg net space = (CREATE_INDEXES, Worthwhile avg thr net)).
Proof.
  intros thr budget. unfold decide. fold thr budget. repeat split.
  - intro H. apply Qltb_true in H. now rewrite H.
  - intros H1 H2. apply Qltb_false in H1. apply Qle_bool_iff in H2.
    now rewrite H1, H2.
  - intros H1 H2 H3. apply Qltb_false in H1. apply Qle_bool_false in H2.
    apply Z.ltb_lt in H3. now rewrite H1, H2, H3.
  - intros H1 H2 H3. apply Qltb_false in H1. apply Qle_bool_false in H2.
    apply Z.ltb_ge in H3. now rewrite H1, H2, H3.
Qed.

Lemma no_data_no_candidates (existing : list string) :
  candidates_of (hot_columns_all (collect [] []) []) existing = [].
Proof. reflexivity. Qed.

Lemma analyze_workload_with_candidates cfg O now wid stats existing :
  let ms := get (measurements stats) [] in
  let t := collect (get (queries stats) []) ms in
  get_existing_indexes O = Ok existing ->
  candidates_of (hot_columns_all t ms) existing <> [] ->
  analyze_workload cfg O now wid (Some stats)
  = Ok (Some (conclude cfg O now wid t (mean (all_improvement_pcts t))
                (candidates_of (hot_columns_all t ms) existing))).
Proof.
  intros ms t Hex Hcand. unfold analyze_workload. cbv zeta.
  fold ms. fold t. rewrite Hex.
  destruct (get (queries stats) []) as [|kv qs] eqn:Eq;
    [destruct ms as [|m ms'] eqn:Em|]; try reflexivity.
  exfalso. apply Hcand. unfold t. apply no_data_no_candidates.
Qed.

(** C2: when the snapshot and the catalog give at least one candidate, the
    recommendation is decided by three guards tried in this order, the
    first that holds deciding: a mean improvement below the threshold gives
    NO_ACTION for that reason, whatever the net benefit and the space;
    otherwise a net benefit of 0 or less gives NO_ACTION for that reason;
    otherwise a total size above the budget gives NO_ACTION for that
    reason; otherwise the decision is CREATE_INDEXES, with one recommended
    index per candidate.  CREATE_INDEXES is returned exactly when none of
    the three guards holds. *)
Theorem guards_are_tried_in_order
    (cfg : config) (O : oracle) (now : string) (wid : Z)
    (stats : stats_file) (existing : list string) :
  let ms := get (measurements stats) [] in
  let t := collect (get (queries stats) []) ms in
  let avg := mean (all_improvement_pcts t) in
  let candidates := candidates_of (hot_columns_all t ms) existing in
  let total_retuning_cost := fst (retuning O candidates 0 0 []) in
  let index_sizes := snd (retuning O candidates 0 0 []) in
  let net := total_improvement_cost t - total_retuning_cost in
  let space := Py.sumZ (dict_values index_sizes) in
  let thr := improvement_threshold cfg in
  let budget := max_space_budget cfg in
  get_existing_indexes O = Ok existing ->
  candidates <> [] ->
  exists r,
    analyze_workload cfg O now wid (Some stats) = Ok (Some r) /\
    (avg < thr ->
     decision r = NO_ACTION /\ reason r = BelowThreshold avg thr /\
     recommended_indexes r = []) /\
    (thr <= avg -> net <= 0 ->
     decision r = NO_ACTION /\ reason r = NetBenefitNotPositive net /\
     recommended_indexes r = []) /\
    (thr <= avg -> 0 < net -> (budget < space)%Z ->
     decision r = NO_ACTION /\ reason r = ExceedsBudget space budget /\
     recommended_indexes r = []) /\
    (thr <= avg -> 0 < net -> (space <= budget)%Z ->
     decision r = CREATE_INDEXES /\ reason r = Worthwhile avg thr net /\
     recommended_indexes r = map (recommend index_sizes) candidates) /\
    (decision r = CREATE_INDEXES <->
     thr <= avg /\ 0 < net /\ (space <= budget)%Z).
Proof.
  intros ms t avg candidates trc sizes net space thr budget Hex Hcand.
  exists (conclude cfg O now wid t avg candidates). split.
  { apply (analyze_workload_with_candidates cfg O now wid stats existing Hex
             Hcand). }
  unfold net, space, trc, sizes. clearbody candidates.
  unfold conclude. destruct candidates as [|c cs]; [congruence|].
  destruct (retuning O (c :: cs) 0 0 []) as [trc0 sizes0]. cbn [fst snd].
  destruct (decide_cases cfg avg (total_improvement_cost t - trc0)
              (Py.sumZ (dict_values sizes0))) as (D1 & D2 & D3 & D4).
  fold thr budget in D1, D2, D3, D4.
  split; [intro H1; rewrite (D1 H1); now repeat split|].
  split; [intros H1 H2; rewrite (D2 H1 H2); now repeat split|].
  split; [intros H1 H2 H3; rewrite (D3 H1 H2 H3); now repeat split|].
  split; [intros H1 H2 H3; rewrite (D4 H1 H2 H3); now repeat split|].
  split.
  - intro Hd.
    destruct (Qlt_le_dec avg thr) as [H1|H1];
      [rewrite (D1 H1) in Hd; discriminate|].
    destruct (Qlt_le_dec 0 (total_improvement_cost t - trc0)) as [H2|H2];
      [|rewrite (D2 H1 H2) in Hd; discriminate].
    destruct (Z_lt_le_dec budget (Py.sumZ (dict_values sizes0))) as [H3|H3];
      [rewrite (D3 H1 H2 H3) in Hd; discriminate|].
    now repeat split.
  - intros (H1 & H2 & H3). now rewrite (D4 H1 H2 H3).
Qed.
End Decision.

(** ** The ranking of the hot columns *)

Section Ranking.
Import Alerter.

Lemma insert_desc_perm x l : Permutation (insert_desc x l) (x :: l).
Proof.
  induction l as [|y l IH]; cbn [insert_desc].
  - apply Permutation_refl.
  - destruct (snd x <? snd y)%nat.
    + apply perm_trans with (y :: x :: l); [now apply perm_skip|].
      apply perm_swap.
    + apply Permutation_refl.
Qed.

Lemma sorted_desc_perm l : Permutation (sorted_desc l) l.
Proof.
  induction l as [|x l IH]; cbn.
  - apply Permutation_refl.
  - fold (sorted_desc l).
    apply perm_trans with (x :: sorted_desc l); [apply insert_desc_perm|].
    now apply perm_skip.
Qed.

Lemma insert_desc_sorted x l :
  StronglySorted count_ge l -> StronglySorted count_ge (insert_desc x l).
Proof.
  induction 1 as [|y l Hs IH Hy]; cbn [insert_desc].
  - repeat constructor.
  - destruct (snd x <? snd y)%nat eqn:E.
    + apply Nat.ltb_lt in E. constructor; [exact IH|].
      apply Forall_forall. intros z Hz.
      apply (Permutation_in _ (insert_desc_perm x l)) in Hz.
      destruct Hz as [<-|Hz].
      * unfold count_ge. lia.
      * rewrite Forall_forall in Hy. now apply Hy.
    + apply Nat.ltb_ge in E. constructor; [now constructor|].
      constructor; [exact E|].
      eapply Forall_impl; [|exact Hy]. unfold count_ge. intros z Hz. lia.
Qed.

Lemma sorted_desc_sorted l : StronglySorted count_ge (sorted_desc l).
Proof.
  induction l as [|x l IH]; cbn.
  - constructor.
  - now apply insert_desc_sorted.
Qed.

(** Stability: the entries of one count keep their relative order. *)
Lemma insert_desc_stable n x l :
  filter (fun cc => (snd cc =? n)%nat) (insert_desc x l)
  = filter (fun cc => (snd cc =? n)%nat) (x :: l).
Proof.
  induction l as [|y l IH]; [reflexivity|].
  cbn [insert_desc]. destruct (snd x <? snd y)%nat eqn:E; [|reflexivity].
  apply Nat.ltb_lt in E. cbn [filter] in *. rewrite IH.
  destruct (snd x =? n)%nat eqn:Ex; destruct (snd y =? n)%nat eqn:Ey;
    try reflexivity.
  apply Nat.eqb_eq in Ex, Ey. lia.
Qed.

Lemma sorted_desc_stable n l :
  filter (fun cc => (snd cc =? n)%nat) (sorted_desc l)
  = filter (fun cc => (snd cc =? n)%nat) l.
Proof.
  induction l as [|x l IH]; [reflexivity|].
  cbn [sorted_desc fold_right]. fold (sorted_desc l).
  rewrite insert_desc_stable. cbn [filter]. now rewrite IH.
Qed.
End Ranking.
Section Counting.
Import Alerter.

Lemma mem_true x l : Py.mem x l = true <-> In x l.
Proof.
  unfold Py.mem. rewrite existsb_exists. split.
  - intros (y & Hy & E). apply String.eqb_eq in E. now subst y.
  - intro H. exists x. split; [exact H|apply String.eqb_refl].
Qed.

Lemma mem_false x l : Py.mem x l = false <-> ~ In x l.
Proof.
  rewrite <- mem_true. destruct (Py.mem x l); split; congruence.
Qed.

Lemma first_seen_In x l : In x (first_seen l) <-> In x l.
Proof.
  induction l as [|a l IH]; cbn; [tauto|].
  rewrite filter_In, IH, negb_true_iff, String.eqb_neq.
  destruct (string_dec a x) as [E|E]; intuition congruence.
Qed.

Lemma first_seen_NoDup l : NoDup (first_seen l).
Proof.
  induction l as [|a l IH]; cbn; constructor.
  - rewrite filter_In, negb_true_iff, String.eqb_neq. tauto.
  - now apply NoDup_filter.
Qed.

Lemma first_seen_snoc l x :
  first_seen (l ++ [x])
  = if Py.mem x l then first_seen l else (first_seen l ++ [x])%list.
Proof.
  induction l as [|a l IH]; [reflexivity|].
  cbn [app first_seen]. rewrite IH.
  change (Py.mem x (a :: l)) with (String.eqb x a || Py.mem x l)%bool.
  destruct (Py.mem x l).
  - now rewrite orb_true_r.
  - rewrite orb_false_r, filter_app. cbn [filter].
    destruct (String.eqb x a); cbn [negb]; [now rewrite app_nil_r|reflexivity].
Qed.

Lemma frequency_snoc l x c :
  frequency (l ++ [x]) c
  = (frequency l c + if String.eqb c x then 1 else 0)%nat.
Proof.
  unfold frequency. rewrite count_occ_app. cbn [count_occ].
  destruct (string_dec x c) as [E|E].
  - subst. now rewrite String.eqb_refl.
  - assert (H : String.eqb c x = false) by (apply String.eqb_neq; congruence).
    now rewrite H.
Qed.

Section Keyed.
Context {V : Type} (f : string -> V).

Lemma dict_get_keyed L x :
  dict_get x (map (fun c => (c, f c)) L)
  = if Py.mem x L then Some (f x) else None.
Proof.
  induction L as [|c L IH]; [reflexivity|].
  cbn [map dict_get].
  change (Py.mem x (c :: L)) with (String.eqb x c || Py.mem x L)%bool.
  destruct (String.eqb x c) eqn:E; cbn [orb]; [|exact IH].
  apply String.eqb_eq in E. now subst.
Qed.

Lemma dict_set_absent L x v :
  Py.mem x L = false ->
  dict_set x v (map (fun c => (c, f c)) L)
  = (map (fun c => (c, f c)) L ++ [(x, v)])%list.
Proof.
  induction L as [|c L IH]; intro H; [reflexivity|].
  change (Py.mem x (c :: L)) with (String.eqb x c || Py.mem x L)%bool in H.
  apply orb_false_iff in H. destruct H as [E H].
  cbn [map dict_set app]. rewrite E. now rewrite IH.
Qed.

Lemma dict_set_present L x v :
  NoDup L -> In x L ->
  dict_set x v (map (fun c => (c, f c)) L)
  = map (fun c => (c, if String.eqb c x then v else f c)) L.
Proof.
  induction L as [|c L IH]; intros Hnd Hin; [contradiction|].
  inversion Hnd as [|? ? Hc HL]; subst.
  cbn [map dict_set]. destruct (String.eqb x c) eqn:E.
  - apply String.eqb_eq in E. subst c. rewrite String.eqb_refl. f_equal.
    apply map_ext_in. intros c Hc'.
    assert (Hne : String.eqb c x = false)
      by (apply String.eqb_neq; intro; subst; contradiction).
    now rewrite Hne.
  - rewrite String.eqb_sym in E. rewrite E. f_equal.
    apply IH; [exact HL|]. destruct Hin as [->|Hin]; [|exact Hin].
    now rewrite String.eqb_refl in E.
Qed.
End Keyed.

Lemma count_columns_snoc l x d :
  count_columns (l ++ [x]) d = bump (count_columns l d) x.
Proof. unfold count_columns. now rewrite fold_left_app. Qed.

(** The counting dictionary lists every column once, in first-seen order,
    with the number of times it was seen. *)
Lemma count_columns_first_seen (cols : list string) :
  count_columns cols []
  = map (fun c => (c, frequency cols c)) (first_seen cols).
Proof.
  induction cols as [|x l IH] using rev_ind; [reflexivity|].
  rewrite count_columns_snoc, IH, first_seen_snoc. unfold bump.
  rewrite dict_get_keyed.
  assert (Hmem : Py.mem x (first_seen l) = Py.mem x l).
  { destruct (Py.mem x l) eqn:E.
    - apply mem_true, first_seen_In, mem_true, E.
    - apply mem_false. rewrite first_seen_In. now apply mem_false. }
  rewrite Hmem. destruct (Py.mem x l) eqn:E.
  - cbn [get]. rewrite dict_set_present.
    + apply map_ext. intro c. rewrite frequency_snoc.
      destruct (String.eqb c x) eqn:Ec.
      * apply String.eqb_eq in Ec. now subst.
      * now rewrite Nat.add_0_r.
    + apply first_seen_NoDup.
    + apply first_seen_In, mem_true, E.
  - cbn [get]. rewrite dict_set_absent by exact Hmem.
    rewrite map_app. cbn [map]. f_equal.
    + apply map_ext_in. intros c Hc. rewrite frequency_snoc.
      assert (Hne : String.eqb c x = false).
      { apply String.eqb_neq. intro. subst c.
        apply (proj1 (first_seen_In _ _)) in Hc.
        apply (proj1 (mem_false _ _)) in E. contradiction. }
      now rewrite Hne, Nat.add_0_r.
    + rewrite frequency_snoc, String.eqb_refl.
      apply (proj1 (mem_false _ _)) in E. unfold frequency.
      now rewrite (proj1 (count_occ_not_In string_dec l x) E).
Qed.
End Counting.
Section RankingProperties.
Import Alerter.

Lemma count_columns_app l1 l2 d :
  count_columns (l1 ++ l2) d = count_columns l2 (count_columns l1 d).
Proof. unfold count_columns. apply fold_left_app. Qed.

Lemma fold_add_query_hot (qs : dict query_data) (t : totals) :
  hot_columns_all_dict (fold_left add_query qs t)
  = count_columns (columns_of_queries qs) (hot_columns_all_dict t).
Proof.
  revert t. induction qs as [|kv qs IH]; intro t; [reflexivity|].
  cbn [fold_left]. rewrite IH. unfold columns_of_queries.
  cbn [map List.concat]. now rewrite count_columns_app.
Qed.

Lemma fold_add_measurement_hot (ms : list measurement) (t : totals) :
  hot_columns_all_dict (fold_left add_measurement ms t)
  = hot_columns_all_dict t.
Proof.
  revert t. induction ms as [|m ms IH]; intro t; [reflexivity|].
  cbn [fold_left]. now rewrite IH.
Qed.

Lemma collect_hot (qd : dict query_data) (ms : list measurement) :
  hot_columns_all_dict (collect qd ms)
  = count_columns (columns_of_queries qd) [].
Proof.
  unfold collect. destruct qd as [|kv qs].
  - now rewrite fold_add_measurement_hot.
  - now rewrite fold_add_query_hot.
Qed.

Lemma fold_measurements_hot (ms : list measurement) (d : dict nat) :
  fold_left (fun d m => count_columns (get (m_hot_columns m) []) d) ms d
  = count_columns (columns_of_measurements ms) d.
Proof.
  revert d. induction ms as [|m ms IH]; intro d; [reflexivity|].
  cbn [fold_left]. rewrite IH. unfold columns_of_measurements.
  cbn [map List.concat]. now rewrite count_columns_app.
Qed.

Lemma count_columns_cons_not_nil c cs : count_columns (c :: cs) [] <> [].
Proof.
  rewrite count_columns_first_seen. cbn [first_seen map]. discriminate.
Qed.

(** The ranking is the stable descending sort of the counting dictionary
    of the seen columns. *)
Lemma hot_columns_all_ranking (qd : dict query_data) (ms : list measurement) :
  hot_columns_all (collect qd ms) ms
  = sorted_desc (count_columns (seen_columns qd ms) []).
Proof.
  unfold hot_columns_all, seen_columns. rewrite collect_hot.
  destruct (columns_of_queries qd) as [|c cs].
  - cbn [count_columns fold_left]. unfold extract_hot_columns_from_measurements.
    now rewrite fold_measurements_hot.
  - pose proof (count_columns_cons_not_nil c cs) as H.
    destruct (count_columns (c :: cs) []); [congruence|reflexivity].
Qed.

Lemma filter_keyed {V : Type} (f : string -> V) (p : V -> bool)
    (L : list string) :
  map fst (filter (fun cv => p (snd cv)) (map (fun c => (c, f c)) L))
  = filter (fun c => p (f c)) L.
Proof.
  induction L as [|c L IH]; [reflexivity|].
  cbn [map filter snd]. destruct (p (f c)); cbn [map fst]; now rewrite IH.
Qed.

Lemma conclude_verdict cfg O now1 now2 wid t avg candidates :
  verdict (conclude cfg O now1 wid t avg candidates)
  = verdict (conclude cfg O now2 wid t avg candidates).
Proof.
  unfold conclude. destruct candidates as [|c cs]; [reflexivity|].
  destruct (retuning O (c :: cs) 0 0 []) as [trc sizes].
  now destruct (decide cfg avg _ _).
Qed.

(** C9: the decision engine reads nothing but the snapshot, the catalog
    and the answers of the oracle: two runs that differ only in the time
    they are made at return the same recommendation apart from its
    timestamp.  The ranking lists every seen column once with the number
    of times it is seen, in descending order of that number, and columns
    seen equally often are ranked in the order the snapshot first shows
    them. *)
Theorem decision_is_deterministic
    (cfg : config) (O : oracle) (wid : Z) (stats : stats_file)
    (now1 now2 : string) :
  let queries_dict := get (queries stats) [] in
  let ms := get (measurements stats) [] in
  let cols := seen_columns queries_dict ms in
  let ranking := hot_columns_all (collect queries_dict ms) ms in
  verdict_of (analyze_workload cfg O now1 wid (Some stats))
  = verdict_of (analyze_workload cfg O now2 wid (Some stats)) /\
  Permutation ranking
    (map (fun c => (c, frequency cols c)) (first_seen cols)) /\
  StronglySorted count_ge ranking /\
  forall n,
    map fst (filter (fun cc => (snd cc =? n)%nat) ranking)
    = filter (fun c => (frequency cols c =? n)%nat) (first_seen cols).
Proof.
  intros queries_dict ms cols ranking.
  assert (Hr : ranking
               = sorted_desc (map (fun c => (c, frequency cols c))
                                  (first_seen cols))).
  { unfold ranking. rewrite hot_columns_all_ranking. fold cols.
    now rewrite count_columns_first_seen. }
  split; [|split; [|split]].
  - unfold analyze_workload. cbv zeta. fold queries_dict. fold ms.
    destruct (get_existing_indexes O) as [existing|];
      destruct queries_dict as [|kv qs]; destruct ms as [|m ms'];
      try reflexivity; cbn [verdict_of option_map];
      now rewrite (conclude_verdict cfg O now1 now2).
  - rewrite Hr. apply sorted_desc_perm.
  - rewrite Hr. apply sorted_desc_sorted.
  - intro n. rewrite Hr, sorted_desc_stable.
    apply (filter_keyed (frequency cols) (fun k => (k =? n)%nat)).
Qed.
End RankingProperties.
Section DecisionExamples.
Import Alerter.

(** C2 on scenario A with a threshold of 40: the mean improvement is 31,
    the net benefit 370 and the space within budget; the threshold guard
    decides. *)
Lemma guards_are_tried_in_order_witness :
  let cfg := init 40 500 in
  let t := collect (get (queries scenario_A) []) [] in
  let candidates := candidates_of (hot_columns_all t []) ["o_orderkey"] in
  get_existing_indexes small_db = Ok ["o_orderkey"] /\
  candidates <> [] /\
  0 < total_improvement_cost t - fst (retuning small_db candidates 0 0 []) /\
  (Py.sumZ (dict_values (snd (retuning small_db candidates 0 0 [])))
   <= max_space_budget cfg)%Z /\
  exists r,
    analyze_workload cfg small_db "now" 1 (Some scenario_A) = Ok (Some r) /\
    decision r = NO_ACTION /\
    recommended_indexes r = [].
Proof.
  intros cfg t candidates.
  assert (Hex : get_existing_indexes small_db = Ok ["o_orderkey"])
    by reflexivity.
  assert (Hcand : candidates <> []) by discriminate.
  refine (conj Hex (conj Hcand (conj eq_refl (conj _ _)))).
  - discriminate.
  - destruct (guards_are_tried_in_order cfg small_db "now" 1 scenario_A
                ["o_orderkey"] Hex Hcand) as (r & Hr & Hbelow & _).
    exists r. split; [exact Hr|].
    destruct (Hbelow eq_refl) as (Hd & _ & Hi). now split.
Defined.

(** C6 on scenario A: the shapes store 60 and 2, and the mean is 31,
    although the first shape has twice the executions of the second. *)
Lemma mean_counts_each_shape_once_witness :
  get (queries scenario_A) [] <> [] /\
  mean (all_improvement_pcts
          (collect (get (queries scenario_A) [])
                   (get (measurements scenario_A) []))) == 31.
Proof.
  assert (Hne : get (queries scenario_A) [] <> []) by discriminate.
  split; [exact Hne|].
  destruct (mean_counts_each_shape_once (init 20 500) small_db "now" 1
              scenario_A Hne) as [Havg _].
  rewrite Havg. reflexivity.
Defined.

(** Scenario A with the default threshold of 20: CREATE_INDEXES. *)
Example scenario_A_creates_indexes :
  option_map decision
    match analyze_workload (init 20 500) small_db "now" 1 (Some scenario_A)
    with
    | Ok r => r
    | Raised => None
    end
  = Some CREATE_INDEXES.
Proof. reflexivity. Qed.
(** Scenario B: every hot column is already indexed. *)
Example scenario_B_already_indexed :
  exists r,
    analyze_workload (init 20 500) indexed_db "now" 1 (Some scenario_A)
    = Ok (Some r) /\
    decision r = NO_ACTION /\ reason r = AllIndexed /\
    recommended_indexes r = [].
Proof. eexists. repeat split. Qed.

(** Scenario C: a high percentage, and a retuning cost above the savings. *)
Example scenario_C_retuning_too_costly :
  exists r,
    analyze_workload (init 20 500) costly_db "now" 1 (Some scenario_C)
    = Ok (Some r) /\
    decision r = NO_ACTION /\
    rec_improvement_pct r == 90 /\
    improvement_value r == 100 /\
    retuning_cost r == 2000 /\
    net_benefit r == -1900.
Proof. eexists. split; [reflexivity|]. repeat split. Qed.
End DecisionExamples.

(** * Further properties

    The theorems numbered X1 to X20 cover the code around the numbered
    properties: the rest of the aggregator and of the loop, the sampler's
    treatment of its session, and the alerter's candidates, catalog
    reading and outcomes. *)

Import MoreSpec.

(** * Further properties of the aggregator *)

Section AggregatorInvariants.
Import Runner.

(** X1: under every key the entry counts the samples recorded under it and
    holds the sums of their baseline and of their optimized costs; a key
    has an entry exactly when a sample was recorded under it. *)
Theorem entry_counts_and_sums (xs : list sample) (k : string) :
  match dict_get k (record_all xs) with
  | Some e =>
      of_key k xs <> [] /\
      executions e = List.length (of_key k xs) /\
      total_baseline_cost e == Py.sum (map s_baseline (of_key k xs)) /\
      total_optimized_cost e == Py.sum (map s_optimized (of_key k xs))
  | None => of_key k xs = []
  end.
Proof.
  pose proof (record_all_entry xs k) as H.
  destruct (dict_get k (record_all xs)) as [e|]; [|exact H].
  destruct H as (Hne & Hn & Hb & Ho & _). auto.
Qed.






End AggregatorInvariants.

Section AggregatorBounds.
Import Runner.



End AggregatorBounds.

Section AggregatorEntries.
Import Runner.

Lemma update_entry_shape info b o e :
  full_query (update_entry info b o e) = full_query e /\
  tables (update_entry info b o e) = tables e /\
  hot_columns (update_entry info b o e) = hot_columns e.
Proof. now repeat split. Qed.

(** X3: an entry keeps the text, the tables and the hot columns of the
    first sample recorded under its key; later samples under the same key
    (queries that agree on their first 100 characters) do not change
    them. *)
Theorem entry_keeps_first_query (xs : list sample) (k : string) :
  match dict_get k (record_all xs), of_key k xs with
  | Some e, x1 :: _ =>
      full_query e = s_query x1 /\
      tables e = s_tables x1 /\
      hot_columns e = s_columns x1
  | None, [] => True
  | _, _ => False
  end.
Proof.
  induction xs as [|x xs IH] using rev_ind; [exact I|].
  unfold record_all in *. rewrite fold_left_app; cbn [fold_left].
  rewrite of_key_snoc.
  set (qs := fold_left record xs []) in *.
  unfold record at 1, record_execution.
  destruct (String.eqb (query_key (s_query x)) k) eqn:E.
  - apply String.eqb_eq in E. subst k. rewrite dict_get_set_eq.
    destruct (dict_get (query_key (s_query x)) qs) as [e|];
      destruct (of_key (query_key (s_query x)) xs) as [|x1 rest];
      try contradiction; cbn [app]; [exact IH|now repeat split].
  - apply String.eqb_neq in E. rewrite dict_get_set_neq by congruence.
    now rewrite app_nil_r.
Qed.

Lemma dict_set_keys {V : Type} (k : string) (v : V) (d : dict V) :
  map fst (dict_set k v d)
  = if Py.mem k (map fst d) then map fst d else (map fst d ++ [k])%list.
Proof.
  induction d as [|[k' v'] d IH]; [reflexivity|].
  cbn [dict_set map fst].
  change (Py.mem k (k' :: map fst d))
    with (String.eqb k k' || Py.mem k (map fst d))%bool.
  destruct (String.eqb k k'); cbn [orb map fst]; [reflexivity|].
  rewrite IH. now destruct (Py.mem k (map fst d)).
Qed.

(** X4: the keys of [queries] are the keys of the recorded samples, each
    once, in the order in which they were first recorded. *)
Theorem queries_keys_in_first_recorded_order (xs : list sample) :
  map fst (record_all xs) = first_seen (map key_of xs) /\
  NoDup (map fst (record_all xs)).
Proof.
  assert (H : map fst (record_all xs) = first_seen (map key_of xs)).
  { induction xs as [|x xs IH] using rev_ind; [reflexivity|].
    unfold record_all in *. rewrite fold_left_app; cbn [fold_left].
    unfold record at 1, record_execution.
    rewrite dict_set_keys, IH, map_app. cbn [map].
    rewrite first_seen_snoc. fold (key_of x).
    assert (Hm : Py.mem (key_of x) (first_seen (map key_of xs))
                 = Py.mem (key_of x) (map key_of xs)).
    { destruct (Py.mem (key_of x) (map key_of xs)) eqn:E.
      - apply mem_true, first_seen_In, mem_true, E.
      - apply mem_false. rewrite first_seen_In. now apply mem_false. }
    now rewrite Hm. }
  split; [exact H|]. rewrite H. apply first_seen_NoDup.
Qed.

Lemma total_executions_shift (qs : dict query_stats) (a : nat) :
  fold_left (fun acc kv => (acc + executions (snd kv))%nat) qs a
  = (a + total_executions qs)%nat.
Proof.
  unfold total_executions. revert a.
  induction qs as [|kv qs IH]; intro a; cbn [fold_left]; [lia|].
  rewrite IH, (IH (0 + _)%nat). lia.
Qed.

Lemma total_executions_cons kv (qs : dict query_stats) :
  total_executions (kv :: qs)
  = (executions (snd kv) + total_executions qs)%nat.
Proof.
  unfold total_executions at 1. cbn [fold_left].
  now rewrite total_executions_shift.
Qed.

Lemma total_executions_set k v (qs : dict query_stats) :
  (total_executions (dict_set k v qs)
   + match dict_get k qs with
     | Some e => executions e
     | None => 0
     end
   = total_executions qs + executions v)%nat.
Proof.
  induction qs as [|[k' e'] qs IH]; cbn [dict_set dict_get].
  - rewrite total_executions_cons. cbn. lia.
  - destruct (String.eqb k k').
    + rewrite !total_executions_cons. cbn [snd]. lia.
    + rewrite !total_executions_cons. cbn [snd]. lia.
Qed.

Lemma total_executions_record qs x :
  total_executions (record qs x) = S (total_executions qs).
Proof.
  unfold record, record_execution.
  pose proof (total_executions_set (query_key (s_query x))
    (update_entry (s_info x) (s_baseline x) (s_optimized x)
       match dict_get (query_key (s_query x)) qs with
       | Some e => e
       | None => new_entry (s_query x) (s_tables x) (s_columns x)
       end) qs) as H.
  destruct (dict_get (query_key (s_query x)) qs) as [e|];
    cbn [update_entry executions new_entry] in H; lia.
Qed.
End AggregatorEntries.

(** * Further properties of the sampler *)

Section SamplerShape.
Import Runner.

Lemma subseq_refl {A : Type} (l : list A) : subseq l l.
Proof. induction l; constructor; assumption. Qed.

Lemma subseq_In {A : Type} (l1 l2 : list A) (x : A) :
  subseq l1 l2 -> In x l1 -> In x l2.
Proof.
  induction 1 as [l|y l1 l2 H IH|y l1 l2 H IH]; cbn; intro Hin.
  - contradiction.
  - destruct Hin; [now left|right; auto].
  - right; auto.
Qed.

Lemma subseq_filter {A : Type} (p : A -> bool) (l : list A) :
  subseq (filter p l) l.
Proof.
  induction l as [|a l IH]; cbn; [constructor|].
  destruct (p a); now constructor.
Qed.

Lemma subseq_map {A B : Type} (f : A -> B) (l1 l2 : list A) :
  subseq l1 l2 -> subseq (map f l1) (map f l2).
Proof. induction 1; cbn; now constructor. Qed.

Lemma subseq_length {A : Type} (l1 l2 : list A) :
  subseq l1 l2 -> (List.length l1 <= List.length l2)%nat.
Proof. induction 1; cbn; lia. Qed.

Lemma subseq_NoDup {A : Type} (l1 l2 : list A) :
  subseq l1 l2 -> NoDup l2 -> NoDup l1.
Proof.
  induction 1 as [l|y l1 l2 H IH|y l1 l2 H IH]; intro Hnd.
  - constructor.
  - inversion Hnd; subst. constructor; [|auto].
    intro Hin. now apply (subseq_In _ _ _ H) in Hin.
  - inversion Hnd; subst. auto.
Qed.

(** The used indexes are taken from the created ones. *)
Lemma probe_costs_used O query tables new_columns s :
  let pr := probe_costs O query tables new_columns s in
  subseq (p_used pr) (map describe (p_hyps pr)) /\
  (p_cost pr = None -> p_used pr = []).
Proof.
  unfold probe_costs.
  destruct (get_baseline_cost O query s) as [b s2].
  set (c := create_tables _ _ _ _).
  unfold explain_with_hypotheticals.
  destruct (hyp_index_info c) as [|h hs] eqn:Eh.
  - cbn. split; [constructor|reflexivity].
  - destruct (db_explain O true query (sess c)) as [[[cost plan]|] s3];
      cbn [p_used p_cost p_hyps].
    + split; [|intro H; discriminate H].
      apply (subseq_map describe _ (h :: hs)). apply subseq_filter.
    + split; [constructor|reflexivity].
Qed.

(** What a call leaves in [self.index_info]. *)
Lemma get_optimized_cost_index_info O self0 s query tables columns :
  let out := get_optimized_cost O self0 s query tables columns in
  let pr := probe_costs O query tables (new_columns_of self0 columns)
              (db_create_extension O (tick s)) in
  (cursor_opens O (step s) = true /\ tables <> [] /\
   new_columns_of self0 columns <> [] /\
   index_info (snd (fst out))
   = Some {| all_created := map describe (p_hyps pr);
             used_by_query := p_used pr |})
  \/
  ((cursor_opens O (step s) = false \/ tables = [] \/
    new_columns_of self0 columns = []) /\
   snd (fst out) = self0 /\ same_indexes s (snd out)).
Proof.
  unfold get_optimized_cost, db_cursor.
  destruct (cursor_opens O (step s)) eqn:Hcur; cbn [negb];
    [|right; split; [now left|split; [reflexivity|apply tick_same]]].
  pose proof (db_create_extension_same O (tick s)) as [Ha1 Hn1].
  set (s1 := db_create_extension O (tick s)) in *. cbn in Ha1, Hn1.
  destruct tables as [|t ts];
    [right; split; [now (right; left)|now repeat split]|].
  destruct columns as [|col cols];
    [right; split; [now (right; right)|now repeat split]|].
  destruct (new_columns_of self0 (col :: cols)) as [|n ns] eqn:En.
  - right. split; [now (right; right)|].
    pose proof (get_baseline_cost_same O query s1) as [Ha2 Hn2].
    destruct (get_baseline_cost O query s1) as [b s2]. cbn in *.
    split; [reflexivity|split; congruence].
  - left. repeat split; try discriminate.
    unfold db_commit. now destruct (commit O _).
Qed.
End SamplerShape.

Section SamplerMore.
Import Runner.

Lemma subseq_single {A : Type} (x : A) (l : list A) :
  In x l -> subseq [x] l.
Proof.
  induction l as [|a l IH]; cbn; [contradiction|].
  intros [->|H]; [constructor; constructor|apply subseq_skip; auto].
Qed.

Lemma combinations_spec {A : Type} (l : list A) (r : nat) (c : list A) :
  In c (combinations l r) -> List.length c = r /\ subseq c l.
Proof.
  revert r c. induction l as [|x l IH]; intros r c Hin; destruct r;
    cbn [combinations] in Hin.
  - destruct Hin as [<-|[]]. split; [reflexivity|constructor].
  - contradiction.
  - destruct Hin as [<-|[]]. split; [reflexivity|constructor].
  - apply in_app_or in Hin. destruct Hin as [Hin|Hin].
    + apply in_map_iff in Hin. destruct Hin as (c' & <- & Hc').
      destruct (IH _ _ Hc') as [Hl Hs]. split; [cbn; now rewrite Hl|].
      now constructor.
    + destruct (IH _ _ Hin) as [Hl Hs]. split; [exact Hl|].
      now apply subseq_skip.
Qed.

Lemma all_combinations_spec (new_columns : list string) (c : list string) :
  In c (all_combinations new_columns) ->
  (1 <= List.length c <= 3)%nat /\ subseq c new_columns.
Proof.
  unfold all_combinations. intro Hin.
  apply in_app_or in Hin. destruct Hin as [Hin|Hin].
  - apply in_map_iff in Hin. destruct Hin as (col & <- & Hcol).
    split; [cbn; lia|now apply subseq_single].
  - apply in_app_or in Hin. destruct Hin as [Hin|Hin].
    + destruct (2 <=? List.length new_columns)%nat; [|contradiction].
      apply combinations_spec in Hin. destruct Hin as [Hl Hs].
      split; [lia|exact Hs].
    + destruct (3 <=? List.length new_columns)%nat; [|contradiction].
      apply combinations_spec in Hin. destruct Hin as [Hl Hs].
      split; [lia|exact Hs].
Qed.

Lemma new_columns_of_In self0 cols c :
  In c (new_columns_of self0 cols) ->
  In c cols /\ ~ In c (existing_indexes self0).
Proof.
  unfold new_columns_of. intro H. apply filter_In in H.
  destruct H as [Hin Hm]. split; [exact Hin|].
  apply negb_true_iff in Hm. now apply mem_false.
Qed.

(** X5: every hypothetical index a call creates is on one of the given
    tables and on one, two or three of the given columns, taken in their
    order, none of which is in the cached list of indexed columns. *)
Theorem created_indexes_are_on_new_columns
    (O : oracle) (self0 : runner) (s : session) (query : string)
    (tables cols : list string) :
  cursor_opens O (step s) = true ->
  tables <> [] ->
  new_columns_of self0 cols <> [] ->
  let out := get_optimized_cost O self0 s query tables cols in
  exists i,
    index_info (snd (fst out)) = Some i /\
    Forall (fun d =>
              In (Runner.table d) tables /\
              (1 <= List.length (Runner.columns d) <= 3)%nat /\
              subseq (Runner.columns d) (new_columns_of self0 cols) /\
              forall c, In c (Runner.columns d) ->
                        In c cols /\ ~ In c (existing_indexes self0))
           (all_created i).
Proof.
  intros Hcur Htab Hnew out.
  destruct (get_optimized_cost_index_info O self0 s query tables cols)
    as [(_ & _ & _ & Hi)|([H|[H|H]] & _)]; try congruence.
  fold out in Hi. eexists. split; [exact Hi|].
  cbn [all_created]. apply Forall_forall. intros d Hd.
  apply in_map_iff in Hd. destruct Hd as (h & <- & Hh).
  pose proof (probe_costs_order O query tables (new_columns_of self0 cols)
                (db_create_extension O (tick s))) as Hsub.
  assert (Hp : In (hyp_table h, hyp_combo h)
                  (list_prod tables
                     (all_combinations (new_columns_of self0 cols)))).
  { apply (subseq_In _ _ _ Hsub). unfold pairs.
    apply in_map_iff. now exists h. }
  apply in_prod_iff in Hp. destruct Hp as [Ht Hc].
  apply all_combinations_spec in Hc. destruct Hc as [Hl Hs].
  cbn [describe Runner.table Runner.columns].
  split; [exact Ht|]. split; [exact Hl|]. split; [exact Hs|].
  intros c Hc. apply new_columns_of_In. now apply (subseq_In _ _ _ Hs).
Qed.

(** X5 on a server that accepts every request. *)
Lemma created_indexes_are_on_new_columns_witness :
  cursor_opens obliging (step session0) = true /\
  ["orders"] <> [] /\
  new_columns_of runner0 ["o_totalprice"; "o_orderkey"] <> [] /\
  exists i,
    index_info (snd (fst (get_optimized_cost obliging runner0 session0 "q"
                            ["orders"] ["o_totalprice"; "o_orderkey"])))
    = Some i /\
    Forall (fun d => In (Runner.table d) ["orders"]) (all_created i).
Proof.
  assert (H1 : ["orders"] <> []) by discriminate.
  assert (H2 : new_columns_of runner0 ["o_totalprice"; "o_orderkey"] <> [])
    by discriminate.
  refine (conj eq_refl (conj H1 (conj H2 _))).
  destruct (created_indexes_are_on_new_columns obliging runner0 session0 "q"
              ["orders"] ["o_totalprice"; "o_orderkey"] eq_refl H1 H2)
    as (i & Hi & Hall).
  exists i. split; [exact Hi|].
  eapply Forall_impl; [|exact Hall]. cbn. intros d Hd. apply Hd.
Defined.

Lemma db_drop_index_keeps O oid s o :
  In o (active s) -> o <> oid ->
  In o (active (snd (db_drop_index O oid s))).
Proof.
  intros Hin Hne. unfold db_drop_index.
  destruct (hypopg_drop_index O (step s) oid); cbn; [|exact Hin].
  apply in_in_remove; assumption.
Qed.

Lemma drop_all_keeps O hyps s o :
  In o (active s) -> ~ In o (map hyp_oid hyps) ->
  In o (active (drop_all O hyps s)).
Proof.
  revert s. induction hyps as [|h rest IH]; intros s Hin Hno; cbn.
  - exact Hin.
  - apply IH.
    + apply db_drop_index_keeps; [exact Hin|].
      intro E. apply Hno. left. now symmetry.
    + intro H. apply Hno. now right.
Qed.

(** X6: a call never retracts a hypothetical index that was active before
    it: the clean-up only drops the indexes the call created itself. *)
Theorem earlier_indexes_survive_the_call
    (O : oracle) (self0 : runner) (s : session) (query : string)
    (tables cols : list string) :
  session_wf s ->
  let s' := snd (get_optimized_cost O self0 s query tables cols) in
  forall oid, In oid (active s) -> In oid (active s').
Proof.
  intros Hwf s' oid Hin.
  destruct (get_optimized_cost_session O self0 s query tables cols)
    as [[Ha _]|(hyps & s3 & Ha3 & _ & _ & Hfresh & Ha' & _)]; unfold s'.
  - now rewrite Ha.
  - rewrite Ha'. apply drop_all_keeps.
    + rewrite Ha3. apply in_or_app. now right.
    + intro Hx. apply in_map_iff in Hx. destruct Hx as (h & <- & Hh).
      rewrite Forall_forall in Hfresh. specialize (Hfresh _ Hh).
      unfold session_wf in Hwf. rewrite Forall_forall in Hwf.
      specialize (Hwf _ Hin). lia.
Qed.

(** X6 with an index left over from an earlier call. *)
Lemma earlier_indexes_survive_the_call_witness :
  let s := {| active := [7%Z]; next_oid := 8; step := 0 |} in
  session_wf s /\
  In 7%Z (active (snd (get_optimized_cost obliging runner0 s "q"
                         ["orders"] ["o_totalprice"]))).
Proof.
  intro s.
  assert (Hwf : session_wf s) by (repeat constructor).
  split; [exact Hwf|].
  apply (earlier_indexes_survive_the_call obliging runner0 s "q"
           ["orders"] ["o_totalprice"] Hwf).
  now left.
Defined.
End SamplerMore.

(** * Further properties of the loop of [run_phase] *)

Section LoopBody.
Import Runner.
Variable extract_tables_from_query : string -> list string.
Variable extract_columns_from_query : string -> list string.

(** The four ways through the body of the loop. *)
Lemma process_query_cases O st query :
  let tables := extract_tables_from_query query in
  let cols := extract_columns_from_query query in
  let st' := process_query extract_tables_from_query
               extract_columns_from_query O st query in
  let base := get_baseline_cost O query (conn st) in
  let out := get_optimized_cost O (self st) (snd base) query tables cols in
  all_hot_cols st' = fold_left set_add cols (all_hot_cols st) /\
  (((tables = [] \/ cols = []) /\
    self st' = self st /\ conn st' = conn st /\
    query_count st' = query_count st)
   \/
   (tables <> [] /\ cols <> [] /\ fst base = None /\
    self st' = self st /\ conn st' = snd base /\
    query_count st' = query_count st)
   \/
   (tables <> [] /\ cols <> [] /\ fst base <> None /\
    fst (fst out) = None /\
    self st' = snd (fst out) /\ conn st' = snd out /\
    query_count st' = query_count st)
   \/
   (exists b o,
      tables <> [] /\ cols <> [] /\
      fst base = Some b /\ fst (fst out) = Some o /\
      self st'
      = set_queries (snd (fst out))
          (record_execution (index_info (snd (fst out))) query tables cols
             b o (queries (stats (snd (fst out))))) /\
      conn st' = snd out /\
      query_count st' = S (query_count st))).
Proof.
  intros tables cols st' base out.
  unfold st', process_query. fold tables cols.
  destruct tables as [|t ts] eqn:Et;
    [split; [reflexivity|left; now repeat split; try left]|].
  destruct cols as [|c cs] eqn:Ec;
    [split; [reflexivity|left; now repeat split; try right]|].
  fold base. destruct base as [[b|] s1] eqn:Eb; cbn [fst snd] in *.
  - fold out. destruct out as [[[o|] self1] s2] eqn:Eo; cbn [fst snd].
    + split; [reflexivity|]. right; right; right. exists b, o.
      repeat split; discriminate.
    + split; [reflexivity|]. right; right; left.
      repeat split; discriminate.
  - split; [reflexivity|]. right; left. repeat split; discriminate.
Qed.

(** X7: the body of the loop counts a query exactly when it records it:
    either the entries are untouched and [query_count] is unchanged, or
    [query_count] and the total of the executions both grow by one.  The
    extracted columns are added to the hot columns in both cases; a query
    with no extracted table or no extracted column is skipped before any
    request is sent to the database. *)
Theorem process_query_counts_what_it_records
    (O : oracle) (st : loop_state) (query : string) :
  let st' := process_query extract_tables_from_query
               extract_columns_from_query O st query in
  all_hot_cols st'
  = fold_left set_add (extract_columns_from_query query) (all_hot_cols st) /\
  ((queries (stats (self st')) = queries (stats (self st)) /\
    query_count st' = query_count st)
   \/
   (total_executions (queries (stats (self st')))
    = S (total_executions (queries (stats (self st)))) /\
    query_count st' = S (query_count st))) /\
  (extract_tables_from_query query = [] \/
   extract_columns_from_query query = [] ->
   self st' = self st /\ conn st' = conn st).
Proof.
  intro st'.
  destruct (process_query_cases O st query)
    as (Hhot & [(He & Hs & Hc & Hq)
               |[(Ht & Hcl & _ & Hs & Hc & Hq)
                |[(Ht & Hcl & _ & _ & Hs & Hc & Hq)
                 |(b & o & Ht & Hcl & _ & _ & Hs & Hc & Hq)]]]);
    fold st' in Hhot, Hs, Hc, Hq.
  - split; [exact Hhot|]. split; [left; now rewrite Hs|]. intros _.
    now split.
  - split; [exact Hhot|]. split; [left; now rewrite Hs|].
    intros [H|H]; contradiction.
  - split; [exact Hhot|]. split.
    + left. split; [|exact Hq]. rewrite Hs.
      now rewrite get_optimized_cost_stats.
    + intros [H|H]; contradiction.
  - split; [exact Hhot|]. split.
    + right. split; [|exact Hq]. rewrite Hs. cbn [set_queries stats queries].
      rewrite get_optimized_cost_stats.
      apply (total_executions_record _
               {| s_info := _; s_query := query; s_tables := _;
                  s_columns := _; s_baseline := b; s_optimized := o |}).
    + intros [H|H]; contradiction.
Qed.
End LoopBody.

Section LoopBodyMore.
Import Runner.
Variable extract_tables_from_query : string -> list string.
Variable extract_columns_from_query : string -> list string.

(** X8: when every extracted column is in the cached list of indexed
    columns, the call of [get_optimized_cost] creates nothing and leaves
    [self.index_info] as an earlier call set it; the execution is then
    recorded with the used indexes of that earlier call, whose sizes are
    added to the entry's total. *)
Theorem indexed_query_is_recorded_with_earlier_indexes
    (O : oracle) (st : loop_state) (query : string) (i0 : index_info_t) :
  new_columns_of (self st) (extract_columns_from_query query) = [] ->
  index_info (self st) = Some i0 ->
  let st' := process_query extract_tables_from_query
               extract_columns_from_query O st query in
  query_count st' = S (query_count st) ->
  index_info (self st') = Some i0 /\
  created_by (conn st) (conn st') = 0%Z /\
  exists e,
    dict_get (query_key query) (queries (stats (self st'))) = Some e /\
    used_indexes e = used_by_query i0 /\
    total_index_size_bytes e
    = (total_size_of (query_key query) (queries (stats (self st)))
       + Py.sumZ (map size_bytes (used_by_query i0)))%Z.
Proof.
  intros Hnew Hinfo st' Hcount. subst st'.
  destruct (process_query_cases extract_tables_from_query
              extract_columns_from_query O st query)
    as (_ & [(_ & _ & _ & Hq)
            |[(_ & _ & _ & _ & _ & Hq)
             |[(_ & _ & _ & _ & _ & _ & Hq)
              |(b & o & Ht & Hcl & Hb & Ho & Hs & Hc & _)]]]);
    try lia.
  set (base := get_baseline_cost O query (conn st)) in *.
  destruct (get_optimized_cost_index_info O (self st) (snd base) query
              (extract_tables_from_query query)
              (extract_columns_from_query query))
    as [(_ & _ & Hne & _)|(_ & Hself & Hsame)]; [congruence|].
  rewrite Hself in Hs. rewrite Hs, Hc.
  cbn [set_queries index_info stats queries]. rewrite Hinfo.
  split; [reflexivity|]. split.
  - unfold created_by. destruct Hsame as [_ Hn]. rewrite Hn.
    destruct (get_baseline_cost_same O query (conn st)) as [_ Hn0].
    fold base in Hn0. rewrite Hn0. lia.
  - unfold record_execution. rewrite dict_get_set_eq. eexists.
    split; [reflexivity|]. cbn [update_entry used_indexes
      total_index_size_bytes]. split; [reflexivity|].
    rewrite fold_sizes. unfold total_size_of.
    now destruct (dict_get (query_key query) (queries (stats (self st)))).
Qed.

Lemma get_optimized_cost_ok O self0 s query tables cols :
  index_info_ok self0 ->
  index_info_ok (snd (fst (get_optimized_cost O self0 s query tables cols))).
Proof.
  intro H0.
  destruct (get_optimized_cost_index_info O self0 s query tables cols)
    as [(_ & _ & _ & Hi)|(_ & Hself & _)].
  - unfold index_info_ok. rewrite Hi. cbn [used_by_query all_created].
    split; [apply probe_costs_used|].
    rewrite length_map. apply probe_costs_creating.
  - now rewrite Hself.
Qed.

Lemma get_optimized_cost_existing O self0 s query tables cols :
  existing_indexes (snd (fst (get_optimized_cost O self0 s query tables cols)))
  = existing_indexes self0.
Proof.
  destruct (get_optimized_cost_index_info O self0 s query tables cols)
    as [(Hcur & Ht & Hn & _)|(_ & Hself & _)]; [|now rewrite Hself].
  unfold get_optimized_cost, db_cursor. rewrite Hcur. cbn [negb].
  destruct tables as [|t ts]; [congruence|].
  destruct cols as [|c cs]; [now cbn in Hn|].
  destruct (new_columns_of self0 (c :: cs)) as [|n ns]; [congruence|].
  unfold db_commit. now destruct (commit O _).
Qed.

Lemma process_query_ok O st query :
  index_info_ok (self st) ->
  index_info_ok (self (process_query extract_tables_from_query
                         extract_columns_from_query O st query)).
Proof.
  intro H0.
  destruct (process_query_cases extract_tables_from_query
              extract_columns_from_query O st query)
    as (_ & [(_ & Hs & _)
            |[(_ & _ & _ & Hs & _)
             |[(_ & _ & _ & _ & Hs & _)
              |(b & o & _ & _ & _ & _ & Hs & _)]]]);
    rewrite Hs; try exact H0.
  - now apply get_optimized_cost_ok.
  - unfold index_info_ok. cbn [set_queries index_info].
    now apply get_optimized_cost_ok.
Qed.

Lemma process_query_frame O st query :
  let st' := process_query extract_tables_from_query
               extract_columns_from_query O st query in
  existing_indexes (self st') = existing_indexes (self st) /\
  workload_id (stats (self st')) = workload_id (stats (self st)) /\
  run_time (stats (self st')) = run_time (stats (self st)) /\
  phases_completed (stats (self st')) = phases_completed (stats (self st)) /\
  stats_hot_columns (stats (self st')) = stats_hot_columns (stats (self st)).
Proof.
  intro st'.
  destruct (process_query_cases extract_tables_from_query
              extract_columns_from_query O st query)
    as (_ & [(_ & Hs & _)
            |[(_ & _ & _ & Hs & _)
             |[(_ & _ & _ & _ & Hs & _)
              |(b & o & _ & _ & _ & _ & Hs & _)]]]);
    fold st' in Hs; rewrite Hs; cbn [set_queries stats existing_indexes
      workload_id run_time phases_completed stats_hot_columns];
    rewrite ?get_optimized_cost_existing, ?get_optimized_cost_stats;
    now repeat split.
Qed.

Lemma apply_event_ok rs ev :
  index_info_ok (self (fst rs)) ->
  index_info_ok (self (fst (apply_event extract_tables_from_query
                              extract_columns_from_query rs ev))).
Proof.
  destruct rs as [st file]. intro H0.
  destruct ev as [|ora query|w now| |w now]; cbn [apply_event fst snd].
  - exact H0.
  - now apply process_query_ok.
  - destruct w; exact H0.
  - exact H0.
  - destruct w; exact H0.
Qed.

(** X9: throughout a run, the index information the runner holds is
    coherent: the indexes reported as used by the last sampled query are
    among those created for it, in their order, and at most 50 were
    created. *)
Theorem run_keeps_index_info_coherent
    (wid : Z) (now1 now2 : timestamp) (catalog : option (list string))
    (s : session) (evs : list event) :
  index_info_ok
    (self (fst (run extract_tables_from_query extract_columns_from_query
                  evs (fresh wid now1 now2 catalog s)))).
Proof.
  assert (H : forall rs, index_info_ok (self (fst rs)) ->
                         index_info_ok
                           (self (fst (run extract_tables_from_query
                                         extract_columns_from_query evs rs)))).
  { induction evs as [|ev evs IH]; intros rs H0; [exact H0|].
    unfold run in *. cbn [fold_left]. apply IH. now apply apply_event_ok. }
  apply H. exact I.
Qed.

Lemma apply_event_frame rs ev :
  let rs' := apply_event extract_tables_from_query
               extract_columns_from_query rs ev in
  existing_indexes (self (fst rs')) = existing_indexes (self (fst rs)) /\
  workload_id (stats (self (fst rs'))) = workload_id (stats (self (fst rs)))
  /\ run_time (stats (self (fst rs'))) = run_time (stats (self (fst rs))) /\
  phases_completed (stats (self (fst rs')))
  = ((if is_end_phase ev then 1 else 0)
     + phases_completed (stats (self (fst rs))))%nat.
Proof.
  destruct rs as [st file].
  destruct ev as [|ora query|w now| |w now]; cbn [apply_event fst snd
    is_end_phase].
  - now repeat split.
  - destruct (process_query_frame ora st query) as (H1 & H2 & H3 & H4 & _).
    now repeat split.
  - destruct w; now repeat split.
  - now repeat split.
  - destruct w; now repeat split.
Qed.

(** X10: the list of indexed columns read from the catalog when the runner
    is constructed is never refreshed during a run; the workload id and
    the start time do not change either, and phases_completed counts the
    phases that have ended. *)
Theorem run_keeps_catalog_cache
    (wid : Z) (now1 now2 : timestamp) (catalog : option (list string))
    (s : session) (evs : list event) :
  let st := fst (run extract_tables_from_query extract_columns_from_query
                   evs (fresh wid now1 now2 catalog s)) in
  existing_indexes (self st) = _get_existing_indexes catalog /\
  workload_id (stats (self st)) = wid /\
  run_time (stats (self st)) = now1 /\
  phases_completed (stats (self st))
  = List.length (filter is_end_phase evs).
Proof.
  assert (H : forall rs,
    let st := fst (run extract_tables_from_query extract_columns_from_query
                     evs rs) in
    existing_indexes (self st) = existing_indexes (self (fst rs)) /\
    workload_id (stats (self st)) = workload_id (stats (self (fst rs))) /\
    run_time (stats (self st)) = run_time (stats (self (fst rs))) /\
    phases_completed (stats (self st))
    = (List.length (filter is_end_phase evs)
       + phases_completed (stats (self (fst rs))))%nat).
  { induction evs as [|ev evs IH]; intro rs; [now repeat split|].
    unfold run in *. cbn [fold_left filter].
    destruct (IH (apply_event extract_tables_from_query
                    extract_columns_from_query rs ev)) as (I1 & I2 & I3 & I4).
    destruct (apply_event_frame rs ev) as (F1 & F2 & F3 & F4).
    cbn zeta in *. rewrite I1, I2, I3, I4, F1, F2, F3, F4.
    repeat split. destruct (is_end_phase ev); cbn [List.length]; lia. }
  intro st. destruct (H (fresh wid now1 now2 catalog s)) as (H1 & H2 & H3 & H4).
  cbn zeta in *. fold st in H1, H2, H3, H4.
  rewrite H1, H2, H3, H4. cbn. repeat split. lia.
Qed.
End LoopBodyMore.

Section LoopExamples.
Import Runner.

(** X7 at a query from which no table is extracted. *)
Lemma process_query_counts_what_it_records_witness :
  let st := {| self := runner0; conn := session0; all_hot_cols := [];
               query_count := 0 |} in
  let st' := process_query (fixed_tables []) (fixed_columns ["o_custkey"])
               obliging st "SELECT 1" in
  (fixed_tables [] "SELECT 1" = [] \/
   fixed_columns ["o_custkey"] "SELECT 1" = []) /\
  self st' = self st /\ conn st' = conn st /\
  all_hot_cols st' = ["o_custkey"].
Proof.
  intros st st'.
  assert (H : fixed_tables [] "SELECT 1" = [] \/
              fixed_columns ["o_custkey"] "SELECT 1" = []) by now left.
  split; [exact H|].
  destruct (process_query_counts_what_it_records (fixed_tables [])
              (fixed_columns ["o_custkey"]) obliging st "SELECT 1")
    as (Hhot & _ & Hskip).
  destruct (Hskip H) as [Hs Hc].
  split; [exact Hs|]. split; [exact Hc|]. exact Hhot.
Defined.

(** X8 at a query on the indexed column [o_orderkey], after a call that
    used an index of 8192 bytes. *)
Lemma indexed_query_is_recorded_with_earlier_indexes_witness :
  let ix := {| index_name := "ix"; columns := ["o_totalprice"];
               table := "orders"; size_bytes := 8192 |} in
  let i0 := {| all_created := [ix]; used_by_query := [ix] |} in
  let st := {| self := set_index_info runner0 i0; conn := session0;
               all_hot_cols := []; query_count := 0 |} in
  let st' := process_query (fixed_tables ["orders"])
               (fixed_columns ["o_orderkey"]) obliging st "q" in
  new_columns_of (self st) (fixed_columns ["o_orderkey"] "q") = [] /\
  index_info (self st) = Some i0 /\
  query_count st' = S (query_count st) /\
  exists e,
    dict_get (query_key "q") (queries (stats (self st'))) = Some e /\
    used_indexes e = [ix] /\
    total_index_size_bytes e = 8192%Z.
Proof.
  intros ix i0 st st'.
  refine (conj eq_refl (conj eq_refl (conj eq_refl _))).
  destruct (indexed_query_is_recorded_with_earlier_indexes
              (fixed_tables ["orders"]) (fixed_columns ["o_orderkey"])
              obliging st "q" i0 eq_refl eq_refl eq_refl)
    as (_ & _ & e & He & Hu & Hsz).
  exists e. split; [exact He|]. split; [exact Hu|]. exact Hsz.
Defined.
End LoopExamples.

Section HotColumns.
Import Runner.
Variable extract_tables_from_query : string -> list string.
Variable extract_columns_from_query : string -> list string.

Lemma insert_str_perm x l : Permutation (Py.insert_str x l) (x :: l).
Proof.
  induction l as [|y l IH]; cbn [Py.insert_str].
  - apply Permutation_refl.
  - destruct (String.leb x y); [apply Permutation_refl|].
    apply perm_trans with (y :: x :: l); [now apply perm_skip|].
    apply perm_swap.
Qed.

Lemma sorted_str_perm l : Permutation (Py.sorted l) l.
Proof.
  induction l as [|x l IH]; cbn; [apply Permutation_refl|].
  fold (Py.sorted l).
  apply perm_trans with (x :: Py.sorted l); [apply insert_str_perm|].
  now apply perm_skip.
Qed.

Lemma insert_str_sorted x l :
  Sorted str_le l -> Sorted str_le (Py.insert_str x l).
Proof.
  induction 1 as [|y l Hs IH Hy]; cbn [Py.insert_str].
  - repeat constructor.
  - destruct (String.leb x y) eqn:E.
    + constructor; [now constructor|]. now constructor.
    + assert (Hyx : str_le y x).
      { destruct (String.leb_total x y) as [H|H]; [congruence|exact H]. }
      constructor; [exact IH|].
      destruct l as [|z l]; cbn [Py.insert_str].
      * now constructor.
      * destruct (String.leb x z); constructor; [exact Hyx|].
        now inversion Hy.
Qed.

Lemma sorted_str_sorted l : Sorted str_le (Py.sorted l).
Proof.
  induction l as [|x l IH]; cbn; [constructor|].
  now apply insert_str_sorted.
Qed.

Lemma fold_set_add_first_seen (l : list string) :
  fold_left set_add l [] = first_seen l.
Proof.
  induction l as [|x l IH] using rev_ind; [reflexivity|].
  rewrite fold_left_app, IH, first_seen_snoc. cbn [fold_left].
  unfold set_add.
  assert (Hm : Py.mem x (first_seen l) = Py.mem x l).
  { destruct (Py.mem x l) eqn:E.
    - apply mem_true, first_seen_In, mem_true, E.
    - apply mem_false. rewrite first_seen_In. now apply mem_false. }
  now rewrite Hm.
Qed.

Lemma apply_event_hot rs ev :
  in_phase ev = true ->
  all_hot_cols (fst (apply_event extract_tables_from_query
                       extract_columns_from_query rs ev))
  = fold_left set_add (event_columns extract_columns_from_query ev)
              (all_hot_cols (fst rs)).
Proof.
  destruct rs as [st file].
  destruct ev as [|ora query|w now| |w now]; try discriminate; intros _;
    cbn [apply_event fst snd event_columns fold_left].
  - apply process_query_cases.
  - now destruct w.
Qed.

Lemma run_hot mid rs :
  forallb in_phase mid = true ->
  all_hot_cols (fst (run extract_tables_from_query
                       extract_columns_from_query mid rs))
  = fold_left set_add
      (List.concat (map (event_columns extract_columns_from_query) mid))
      (all_hot_cols (fst rs)).
Proof.
  revert rs. induction mid as [|ev mid IH]; intros rs H; [reflexivity|].
  cbn [forallb] in H. apply andb_true_iff in H. destruct H as [Hev Hmid].
  unfold run in *. cbn [fold_left map List.concat].
  rewrite (IH _ Hmid), (apply_event_hot _ _ Hev).
  now rewrite fold_left_app.
Qed.

(** X11: at the end of a phase, the hot columns of the stats are the
    columns extracted from the queries of the phase, those of the queries
    that were skipped or whose sampling failed included, each once and in
    ascending order. *)
Theorem phase_hot_columns (rs : run_state) (mid : list event) :
  forallb in_phase mid = true ->
  let seen := List.concat
                (map (event_columns extract_columns_from_query) mid) in
  let rs' := run extract_tables_from_query extract_columns_from_query
               (StartPhase :: mid ++ [EndPhase]) rs in
  let hot := stats_hot_columns (stats (self (fst rs'))) in
  hot = Py.sorted (first_seen seen) /\
  Sorted str_le hot /\
  NoDup hot /\
  forall c, In c hot <-> In c seen.
Proof.
  intros Hmid seen rs' hot.
  assert (Hhot : hot = Py.sorted (first_seen seen)).
  { unfold hot, rs', run. cbn [fold_left]. rewrite fold_left_app.
    cbn [fold_left].
    set (rs1 := apply_event extract_tables_from_query
                  extract_columns_from_query rs StartPhase).
    pose proof (run_hot mid rs1 Hmid) as H. unfold run in H.
    set (rs2 := fold_left _ mid rs1) in *.
    cbn [apply_event fst end_phase self set_hot_columns stats
      stats_hot_columns].
    rewrite H. fold seen. unfold rs1.
    cbn [apply_event fst start_phase all_hot_cols].
    now rewrite fold_set_add_first_seen. }
  split; [exact Hhot|]. rewrite Hhot. split; [apply sorted_str_sorted|].
  split.
  - apply (Permutation_NoDup (Permutation_sym (sorted_str_perm _))).
    apply first_seen_NoDup.
  - intro c. split; intro H.
    + apply (proj1 (first_seen_In c seen)).
      exact (Permutation_in _ (sorted_str_perm _) H).
    + apply (Permutation_in _ (Permutation_sym (sorted_str_perm _))).
      now apply (proj2 (first_seen_In c seen)).
Qed.

End HotColumns.

Section HotColumnsExample.
Import Runner.

(** X11 at a phase of two queries, the first of which is skipped. *)
Lemma phase_hot_columns_witness :
  let mid := [Query obliging "q1"; Query obliging "q2"] in
  let rs' := run (fixed_tables []) (fixed_columns ["b"; "a"; "b"])
               (StartPhase :: mid ++ [EndPhase])
               (fresh 1 "t0" "t1" None session0) in
  forallb in_phase mid = true /\
  stats_hot_columns (stats (self (fst rs'))) = ["a"; "b"].
Proof.
  intros mid rs'.
  split; [reflexivity|].
  destruct (phase_hot_columns (fixed_tables []) (fixed_columns ["b"; "a"; "b"])
              (fresh 1 "t0" "t1" None session0) mid eq_refl) as [H _].
  exact H.
Defined.
End HotColumnsExample.

(** * From the runner's snapshot to the alerter *)

Section Snapshot.
Import Alerter.

Lemma Py_sum_shift (l : list Q) (a : Q) : fold_left Qplus l a == a + Py.sum l.
Proof.
  unfold Py.sum. revert a.
  induction l as [|b l IH]; intro a; cbn [fold_left].
  - lra.
  - rewrite IH, (IH (0 + b)). lra.
Qed.

Lemma Py_sum_cons (a : Q) (l : list Q) : Py.sum (a :: l) == a + Py.sum l.
Proof.
  unfold Py.sum at 1. cbn [fold_left]. rewrite Py_sum_shift. lra.
Qed.

Lemma total_saving_set k v (qs : dict Runner.query_stats) :
  total_saving (dict_set k v qs)
  + match dict_get k qs with
    | Some e => Runner.total_baseline_cost e - Runner.total_optimized_cost e
    | None => 0
    end
  == total_saving qs
     + (Runner.total_baseline_cost v - Runner.total_optimized_cost v).
Proof.
  unfold total_saving.
  induction qs as [|[k' e'] qs IH]; cbn [dict_set dict_get map snd].
  - rewrite Py_sum_cons. cbn. lra.
  - destruct (String.eqb k k'); cbn [map snd].
    + rewrite !Py_sum_cons. lra.
    + rewrite !Py_sum_cons. lra.
Qed.

Lemma total_saving_record qs x :
  total_saving (record qs x)
  == total_saving qs + (s_baseline x - s_optimized x).
Proof.
  unfold record, Runner.record_execution.
  pose proof (total_saving_set (Runner.query_key (s_query x))
    (Runner.update_entry (s_info x) (s_baseline x) (s_optimized x)
       match dict_get (Runner.query_key (s_query x)) qs with
       | Some e => e
       | None => Runner.new_entry (s_query x) (s_tables x) (s_columns x)
       end) qs) as H.
  destruct (dict_get (Runner.query_key (s_query x)) qs) as [e|];
    cbn [Runner.update_entry Runner.total_baseline_cost
         Runner.total_optimized_cost Runner.new_entry] in H; lra.
Qed.

Lemma total_saving_record_all xs :
  total_saving (record_all xs)
  == Py.sum (map (fun x => s_baseline x - s_optimized x) xs).
Proof.
  induction xs as [|x xs IH] using rev_ind; [reflexivity|].
  unfold record_all in *. rewrite fold_left_app; cbn [fold_left].
  rewrite total_saving_record, IH, map_app. cbn [map].
  now rewrite Py_sum_snoc.
Qed.

Lemma fold_add_query_improvement (qs : dict query_data) (t : totals) :
  total_improvement_cost (fold_left add_query qs t)
  == total_improvement_cost t
     + Py.sum (map (fun kv => get (total_baseline_cost (snd kv)) 0
                              - get (total_optimized_cost (snd kv)) 0) qs).
Proof.
  revert t. induction qs as [|kv qs IH]; intro t; cbn [fold_left map].
  - cbn. lra.
  - rewrite IH, Py_sum_cons. cbn [add_query total_improvement_cost]. lra.
Qed.

Lemma collect_loaded_improvement (qs : dict Runner.query_stats) :
  total_improvement_cost
    (collect (map (fun kv => (fst kv, load_entry (snd kv))) qs) [])
  == total_saving qs.
Proof.
  destruct qs as [|kv qs]; [reflexivity|].
  set (l := kv :: qs). unfold collect. cbn [l map].
  change ((fst kv, load_entry (snd kv))
          :: map (fun kv0 => (fst kv0, load_entry (snd kv0))) qs)
    with (map (fun kv0 => (fst kv0, load_entry (snd kv0))) l).
  rewrite fold_add_query_improvement, map_map.
  unfold total_saving. cbn [totals0 total_improvement_cost snd load_entry
    total_baseline_cost total_optimized_cost get]. lra.
Qed.

Lemma Qle_bool_compat (a a' b b' : Q) :
  a == a' -> b == b' -> Qle_bool a b = Qle_bool a' b'.
Proof.
  intros Ha Hb. destruct (Qle_bool a' b') eqn:E.
  - apply Qle_bool_iff. apply Qle_bool_iff in E. now rewrite Ha, Hb.
  - apply Qle_bool_false. apply Qle_bool_false in E. now rewrite Ha, Hb.
Qed.

Lemma round2_compat (x y : Q) : x == y -> Py.round2 x = Py.round2 y.
Proof.
  intro H. unfold Py.round2.
  assert (Hf : Qfloor (x * 100) = Qfloor (y * 100)) by now rewrite H.
  rewrite Hf.
  assert (Hr : x * 100 - inject_Z (Qfloor (y * 100))
               == y * 100 - inject_Z (Qfloor (y * 100))) by now rewrite H.
  rewrite (Qle_bool_compat _ _ _ _ Hr (Qeq_refl (1 # 2))).
  rewrite (Qle_bool_compat _ _ _ _ (Qeq_refl (1 # 2)) Hr).
  reflexivity.
Qed.

(** X12: for a snapshot written by the runner, the improvement value the
    alerter works with is the work saved over all the recorded samples,
    the sum of baseline minus optimized over every execution; a returned
    recommendation reports it rounded. *)
Theorem improvement_value_is_total_saving
    (cfg : config) (O : oracle) (now : string) (wid : Z)
    (run_wid : Z) (run_time last_save : string) (phases : nat)
    (hot : list string) (xs : list sample) :
  let snapshot := load {| Runner.workload_id := run_wid;
                          Runner.run_time := run_time;
                          Runner.queries := record_all xs;
                          Runner.phases_completed := phases;
                          Runner.stats_hot_columns := hot;
                          Runner.last_save := last_save |} in
  let saving := Py.sum (map (fun x => s_baseline x - s_optimized x) xs) in
  total_improvement_cost
    (collect (get (queries snapshot) []) (get (measurements snapshot) []))
  == saving /\
  forall r,
    analyze_workload cfg O now wid (Some snapshot) = Ok (Some r) ->
    improvement_value r = Py.round2 saving.
Proof.
  intros snapshot saving.
  assert (H : total_improvement_cost
                (collect (get (queries snapshot) [])
                         (get (measurements snapshot) [])) == saving).
  { cbn [snapshot load queries measurements get Runner.queries].
    rewrite collect_loaded_improvement. apply total_saving_record_all. }
  split; [exact H|]. intros r Hr.
  apply analyze_workload_returns in Hr. destruct Hr as (existing & _ & ->).
  rewrite <- (round2_compat _ _ H).
  unfold conclude. destruct (candidates_of _ existing) as [|c cs];
    [reflexivity|].
  destruct (retuning O (c :: cs) 0 0 []) as [trc sizes].
  now destruct (decide cfg _ _ _).
Qed.
End Snapshot.

(** * Further properties of the decision engine *)

Section Candidates.
Import Alerter.

Lemma subseq_firstn {A : Type} (n : nat) (l : list A) : subseq (firstn n l) l.
Proof.
  revert n. induction l as [|a l IH]; intro n; destruct n; cbn;
    constructor; auto.
Qed.

Lemma subseq_trans {A : Type} (l1 l2 l3 : list A) :
  subseq l1 l2 -> subseq l2 l3 -> subseq l1 l3.
Proof.
  intros H12 H23. revert l1 H12.
  induction H23 as [l|x l2 l3 H IH|x l2 l3 H IH]; intros l1 H12.
  - inversion H12; subst. constructor.
  - inversion H12; subst; constructor; auto.
  - apply subseq_skip. auto.
Qed.

Lemma StronglySorted_filter {A : Type} (R : A -> A -> Prop) (p : A -> bool)
    (l : list A) :
  StronglySorted R l -> StronglySorted R (filter p l).
Proof.
  induction 1 as [|a l Hs IH Ha]; cbn; [constructor|].
  destruct (p a); [|exact IH]. constructor; [exact IH|].
  apply Forall_forall. intros x Hx. apply filter_In in Hx.
  rewrite Forall_forall in Ha. now apply Ha.
Qed.

Lemma StronglySorted_split {A : Type} (R : A -> A -> Prop) (l1 l2 : list A) :
  StronglySorted R (l1 ++ l2) ->
  forall a b, In a l1 -> In b l2 -> R a b.
Proof.
  induction l1 as [|x l1 IH]; cbn; intros Hs a b Ha Hb; [contradiction|].
  inversion Hs as [|? ? Hs' Hx]; subst.
  destruct Ha as [<-|Ha].
  - rewrite Forall_forall in Hx. apply Hx. apply in_or_app. now right.
  - now apply (IH Hs').
Qed.

(** The ranking pairs every seen column with its frequency. *)
Lemma ranking_entries (qd : dict query_data) (ms : list measurement) :
  let cols := seen_columns qd ms in
  let ranking := hot_columns_all (collect qd ms) ms in
  Permutation ranking (map (fun c => (c, frequency cols c)) (first_seen cols))
  /\ StronglySorted count_ge ranking
  /\ NoDup (map fst ranking).
Proof.
  intros cols ranking.
  assert (Hr : ranking
               = sorted_desc (map (fun c => (c, frequency cols c))
                                  (first_seen cols))).
  { unfold ranking. rewrite hot_columns_all_ranking. fold cols.
    now rewrite count_columns_first_seen. }
  assert (Hp : Permutation ranking
                 (map (fun c => (c, frequency cols c)) (first_seen cols))).
  { rewrite Hr. apply sorted_desc_perm. }
  split; [exact Hp|]. split; [rewrite Hr; apply sorted_desc_sorted|].
  apply (Permutation_NoDup
           (Permutation_sym (Permutation_map fst Hp))).
  rewrite map_map. cbn [fst]. rewrite map_id. apply first_seen_NoDup.
Qed.

Lemma ranking_In (qd : dict query_data) (ms : list measurement) c n :
  In (c, n) (hot_columns_all (collect qd ms) ms) <->
  In c (seen_columns qd ms) /\ n = frequency (seen_columns qd ms) c.
Proof.
  destruct (ranking_entries qd ms) as (Hp & _ & _). split.
  - intro H. apply (Permutation_in _ Hp) in H.
    apply in_map_iff in H. destruct H as (c' & E & Hc').
    injection E as -> <-. split; [|reflexivity].
    now apply (proj1 (first_seen_In _ _)).
  - intros [Hc ->]. apply (Permutation_in _ (Permutation_sym Hp)).
    apply in_map_iff. exists c. split; [reflexivity|].
    now apply (proj2 (first_seen_In _ _)).
Qed.

(** X13: the candidates are at most three columns seen in the snapshot,
    all different, none of them already indexed; no new column that was
    left out is seen more often than a candidate; and there is no
    candidate exactly when every seen column is already indexed. *)
Theorem candidates_are_the_most_seen_new_columns
    (qd : dict query_data) (ms : list measurement) (existing : list string) :
  let cols := seen_columns qd ms in
  let candidates :=
    candidates_of (hot_columns_all (collect qd ms) ms) existing in
  (List.length candidates <= 3)%nat /\
  NoDup candidates /\
  (forall c, In c candidates -> In c cols /\ ~ In c existing) /\
  (forall c c',
      In c candidates ->
      In c' cols -> ~ In c' existing -> ~ In c' candidates ->
      (frequency cols c' <= frequency cols c)%nat) /\
  (candidates = [] <-> forall c, In c cols -> In c existing).
Proof.
  intros cols candidates.
  destruct (ranking_entries qd ms) as (Hp & Hs & Hnd).
  fold cols in Hp. set (ranking := hot_columns_all (collect qd ms) ms) in *.
  set (p := fun cc : string * nat => negb (Py.mem (fst cc) existing)).
  assert (Hsub : subseq candidates (map fst ranking)).
  { unfold candidates, candidates_of. fold ranking. fold p.
    apply (subseq_trans _ (map fst (filter p ranking))).
    - apply subseq_firstn.
    - apply subseq_map, subseq_filter. }
  assert (Hfil : forall c, In c (map fst (filter p ranking)) <->
                           In c cols /\ ~ In c existing).
  { intro c. rewrite in_map_iff. split.
    - intros ([c0 n] & E & H). cbn in E. subst c0.
      apply filter_In in H. destruct H as [Hin Hp'].
      apply (proj1 (ranking_In qd ms c n)) in Hin. destruct Hin as [Hc _].
      split; [exact Hc|]. unfold p in Hp'. cbn in Hp'.
      apply negb_true_iff in Hp'. now apply mem_false.
    - intros [Hc Hex]. exists (c, frequency cols c). split; [reflexivity|].
      apply filter_In. split.
      + apply (proj2 (ranking_In qd ms c _)). now split.
      + unfold p. cbn. apply negb_true_iff. now apply mem_false. }
  assert (Hcand : candidates = map fst (firstn 3 (filter p ranking))).
  { unfold candidates, candidates_of. fold ranking. fold p.
    now rewrite firstn_map. }
  split; [|split; [|split; [|split]]].
  - unfold candidates, candidates_of. rewrite length_firstn. lia.
  - now apply (subseq_NoDup _ _ Hsub).
  - intros c Hc. apply Hfil.
    unfold candidates, candidates_of in Hc. fold ranking in Hc. fold p in Hc.
    now apply (subseq_In _ _ _ (subseq_firstn 3 _)).
  - intros c c' Hc Hc' Hex Hout.
    rewrite Hcand in Hc, Hout.
    apply in_map_iff in Hc. destruct Hc as ([c0 n] & E & Hin). cbn in E.
    subst c0.
    assert (Hn : n = frequency cols c).
    { apply (subseq_In _ _ _ (subseq_firstn 3 _)) in Hin.
      apply filter_In in Hin. destruct Hin as [Hin _].
      now apply (proj1 (ranking_In qd ms c n)) in Hin. }
    assert (Hin' : In (c', frequency cols c') (filter p ranking)).
    { apply filter_In. split.
      - apply (proj2 (ranking_In qd ms c' _)). now split.
      - unfold p. cbn. apply negb_true_iff. now apply mem_false. }
    rewrite <- (firstn_skipn 3 (filter p ranking)) in Hin'.
    apply in_app_or in Hin'. destruct Hin' as [Hin'|Hin'].
    + exfalso. apply Hout. apply in_map_iff.
      now exists (c', frequency cols c').
    + pose proof (StronglySorted_filter count_ge p _ Hs) as Hsf.
      rewrite <- (firstn_skipn 3 (filter p ranking)) in Hsf.
      pose proof (StronglySorted_split _ _ _ Hsf _ _ Hin Hin') as Hge.
      unfold count_ge in Hge. cbn in Hge. now subst n.
  - split.
    + intros Hnil c Hc.
      destruct (Py.mem c existing) eqn:E; [now apply mem_true|].
      exfalso. apply (proj1 (mem_false _ _)) in E.
      assert (Hin : In c (map fst (filter p ranking)))
        by (apply Hfil; now split).
      unfold candidates, candidates_of in Hnil.
      fold ranking in Hnil. fold p in Hnil.
      destruct (map fst (filter p ranking)); [contradiction|discriminate].
    + intro Hall. unfold candidates, candidates_of.
      fold ranking. fold p.
      destruct (map fst (filter p ranking)) as [|c l] eqn:E; [reflexivity|].
      exfalso. destruct (proj1 (Hfil c)) as [Hc Hex]; [now left|].
      apply Hex. now apply Hall.
Qed.

(** X13 on scenario A with one index on [o_orderkey]. *)
Lemma candidates_are_the_most_seen_new_columns_witness :
  let candidates :=
    candidates_of (hot_columns_all
                     (collect (get (queries scenario_A) []) []) [])
                  ["o_orderkey"] in
  In "o_shipmode" candidates /\
  In "o_shipmode" (seen_columns (get (queries scenario_A) []) []) /\
  ~ In "o_shipmode" ["o_orderkey"].
Proof.
  intro candidates.
  assert (Hin : In "o_shipmode" candidates) by now left.
  split; [exact Hin|].
  destruct (candidates_are_the_most_seen_new_columns
              (get (queries scenario_A) []) [] ["o_orderkey"])
    as (_ & _ & H & _).
  exact (H "o_shipmode" Hin).
Defined.
End Candidates.

Section CatalogNames.
Import Alerter.

Lemma prefix_empty (s : string) : prefix "" s = true.
Proof. now destruct s. Qed.

Lemma prefix_append (a b s : string) :
  prefix (a ++ b) s = true -> prefix a s = true.
Proof.
  revert s. induction a as [|c a IH]; intros s H; [apply prefix_empty|].
  destruct s as [|c' s]; cbn in H |- *; [discriminate|].
  destruct (ascii_dec c c'); [now apply IH|discriminate].
Qed.

Lemma contains_unfold (needle : string) (c : ascii) (hay : string) :
  Py.contains needle (String c hay)
  = (prefix needle (String c hay) || Py.contains needle hay)%bool.
Proof. cbn [Py.contains]. now destruct (prefix needle (String c hay)). Qed.

Lemma contains_empty (needle : string) :
  Py.contains needle "" = prefix needle "".
Proof. cbn [Py.contains]. now destruct (prefix needle ""). Qed.

Lemma contains_longer (a b s : string) :
  Py.contains a s = false -> Py.contains (a ++ b) s = false.
Proof.
  induction s as [|c s IH]; intro H.
  - rewrite contains_empty in *.
    destruct (prefix (a ++ b) "") eqn:E; [|reflexivity].
    apply prefix_append in E. congruence.
  - rewrite contains_unfold in *. apply orb_false_iff in H.
    destruct H as [Hp Hc]. apply orb_false_iff. split; [|now apply IH].
    destruct (prefix (a ++ b) (String c s)) eqn:E; [|reflexivity].
    apply prefix_append in E. congruence.
Qed.

Lemma replace_absent (old new s : string) :
  Py.contains old s = false -> Py.replace_from old new 0 s = s.
Proof.
  induction s as [|c s IH]; intro H; [reflexivity|].
  rewrite contains_unfold in H. apply orb_false_iff in H.
  destruct H as [Hp Hc]. cbn [Py.replace_from]. rewrite Hp.
  now rewrite IH.
Qed.

Lemma append_not_self (col : string) : col <> "opt_" ++ col.
Proof.
  intro H. apply (f_equal String.length) in H.
  cbn [append String.length] in H. lia.
Qed.

Lemma prefix_cons (c : ascii) (s1 s2 : string) :
  prefix (String c s1) (String c s2) = prefix s1 s2.
Proof. cbn [prefix]. destruct (ascii_dec c c); congruence. Qed.

Lemma prefix_cons_neq (c c' : ascii) (s1 s2 : string) :
  c <> c' -> prefix (String c s1) (String c' s2) = false.
Proof. intro H. cbn [prefix]. destruct (ascii_dec c c'); congruence. Qed.

Lemma replace_from_match (old new : string) (c : ascii) (s : string) :
  prefix old (String c s) = true ->
  Py.replace_from old new 0 (String c s)
  = new ++ Py.replace_from old new (String.length old - 1) s.
Proof. intro H. cbn [Py.replace_from]. now rewrite H. Qed.

Lemma replace_from_pass (old new : string) (c : ascii) (s : string) :
  prefix old (String c s) = false ->
  Py.replace_from old new 0 (String c s)
  = String c (Py.replace_from old new 0 s).
Proof. intro H. cbn [Py.replace_from]. now rewrite H. Qed.

Lemma replace_from_skip (old new : string) (k : nat) (c : ascii)
    (s : string) :
  Py.replace_from old new (S k) (String c s) = Py.replace_from old new k s.
Proof. reflexivity. Qed.

Lemma replace_idx_head (s : string) :
  Py.replace "idx_" "" ("idx_" ++ s) = Py.replace "idx_" "" s.
Proof.
  unfold Py.replace. cbn [append].
  rewrite replace_from_match
    by (now rewrite !prefix_cons, prefix_empty).
  cbn [String.length Nat.sub append].
  now rewrite !replace_from_skip.
Qed.

Lemma replace_idx_opt (s : string) :
  Py.replace "idx_" "" ("opt_" ++ s) = "opt_" ++ Py.replace "idx_" "" s.
Proof.
  unfold Py.replace. cbn [append].
  now rewrite !replace_from_pass by (apply prefix_cons_neq; discriminate).
Qed.

Lemma replace_idx_opt_opt (s : string) :
  Py.replace "idx_opt_" "" ("opt_" ++ s)
  = "opt_" ++ Py.replace "idx_opt_" "" s.
Proof.
  unfold Py.replace. cbn [append].
  now rewrite !replace_from_pass by (apply prefix_cons_neq; discriminate).
Qed.

Lemma contains_idx_head (s : string) : Py.contains "idx_" ("idx_" ++ s) = true.
Proof.
  cbn [append]. rewrite contains_unfold.
  now rewrite !prefix_cons, prefix_empty.
Qed.

(** X14: an index named [idx_] followed by a column is read back from the
    catalog as that column, but an index created under the name the
    alerter recommends, [idx_opt_] followed by the column, is read back as
    [opt_] followed by the column: the first replacement has already
    removed [idx_], so the column itself is not listed as indexed.  (For a
    column name in which [idx_] does not occur.) *)
Theorem recommended_index_is_not_recognised
    (col : string) (index_sizes : dict Z) :
  Py.contains "idx_" col = false ->
  existing_of_rows ["idx_" ++ col] = [col] /\
  existing_of_rows [name (recommend index_sizes col)] = ["opt_" ++ col] /\
  ~ In col (existing_of_rows [name (recommend index_sizes col)]).
Proof.
  intro H.
  pose proof (contains_longer "idx_" "opt_" col H) as Hopt.
  change ("idx_" ++ "opt_") with "idx_opt_" in Hopt.
  assert (Ha : Py.replace "idx_" "" col = col)
    by apply (replace_absent _ _ _ H).
  assert (Hb : Py.replace "idx_opt_" "" col = col)
    by apply (replace_absent _ _ _ Hopt).
  assert (H1 : existing_of_rows ["idx_" ++ col] = [col]).
  { unfold existing_of_rows. cbn [filter].
    rewrite contains_idx_head. cbn [map].
    now rewrite replace_idx_head, Ha, Hb. }
  assert (H2 : existing_of_rows [name (recommend index_sizes col)]
               = ["opt_" ++ col]).
  { unfold existing_of_rows. cbn [recommend name filter].
    change ("idx_opt_" ++ col) with ("idx_" ++ ("opt_" ++ col)).
    rewrite contains_idx_head. cbn [map].
    now rewrite replace_idx_head, replace_idx_opt, Ha,
      replace_idx_opt_opt, Hb. }
  split; [exact H1|]. split; [exact H2|].
  rewrite H2. intros [E|[]]. symmetry in E. now apply append_not_self in E.
Qed.

(** X14 at the column [o_totalprice]. *)
Lemma recommended_index_is_not_recognised_witness :
  Py.contains "idx_" "o_totalprice" = false /\
  existing_of_rows ["idx_opt_o_totalprice"] = ["opt_o_totalprice"].
Proof.
  split; [reflexivity|].
  exact (proj1 (proj2 (recommended_index_is_not_recognised "o_totalprice" []
                         eq_refl))).
Defined.
End CatalogNames.

Section Outcomes.
Import Alerter.



Lemma conclude_recommended cfg O now wid t avg candidates :
  let r := conclude cfg O now wid t avg candidates in
  (recommended_indexes r <> [] <-> decision r = CREATE_INDEXES) /\
  (decision r = CREATE_INDEXES ->
   map column (recommended_indexes r) = candidates) /\
  Forall (fun ri => name ri = "idx_opt_" ++ column ri)
         (recommended_indexes r).
Proof.
  unfold conclude. destruct candidates as [|c cs].
  - cbn. repeat split; try congruence; try discriminate. constructor.
  - destruct (retuning O (c :: cs) 0 0 []) as [trc sizes].
    destruct (decide cfg avg _ _) as [[|] rs]; cbn [recommended_indexes
      decision].
    + repeat split; try congruence; try discriminate. constructor.
    + split; [split; [reflexivity|discriminate]|]. split.
      * intros _. rewrite map_map. cbn [recommend column]. apply map_id.
      * apply Forall_map. apply Forall_forall. now intros.
Qed.

(** X16: a returned recommendation lists indexes exactly when its decision
    is CREATE_INDEXES; it then lists one index per candidate, at most
    three, each named [idx_opt_] followed by its column. *)
Theorem recommendation_lists_indexes_only_to_create
    (cfg : config) (O : oracle) (now : string) (wid : Z)
    (stats : stats_file) (r : recommendation) :
  analyze_workload cfg O now wid (Some stats) = Ok (Some r) ->
  (recommended_indexes r <> [] <-> decision r = CREATE_INDEXES) /\
  (List.length (recommended_indexes r) <= 3)%nat /\
  NoDup (map column (recommended_indexes r)) /\
  Forall (fun ri => name ri = "idx_opt_" ++ column ri)
         (recommended_indexes r).
Proof.
  intro Hr. apply analyze_workload_returns in Hr.
  destruct Hr as (existing & _ & ->).
  set (ms := get (measurements stats) []).
  set (qd := get (queries stats) []).
  set (cands := candidates_of (hot_columns_all (collect qd ms) ms) existing).
  destruct (conclude_recommended cfg O now wid (collect qd ms)
              (mean (all_improvement_pcts (collect qd ms))) cands)
    as (Hiff & Hcols & Hnames).
  cbv zeta in Hiff, Hcols, Hnames.
  set (r := conclude cfg O now wid (collect qd ms)
              (mean (all_improvement_pcts (collect qd ms))) cands) in *.
  assert (Hc : cands = candidates_of (hot_columns_all (collect qd ms) ms)
                         existing) by reflexivity.
  assert (Hlen : (List.length cands <= 3)%nat).
  { rewrite Hc. unfold candidates_of. rewrite length_firstn. lia. }
  assert (Hnd : NoDup cands).
  { rewrite Hc. unfold candidates_of.
    apply (subseq_NoDup _ (map fst (hot_columns_all (collect qd ms) ms))).
    - apply (subseq_trans _ (map fst (filter
               (fun cc => negb (Py.mem (fst cc) existing))
               (hot_columns_all (collect qd ms) ms)))).
      + apply subseq_firstn.
      + apply subseq_map, subseq_filter.
    - apply ranking_entries. }
  split; [exact Hiff|].
  destruct (decision r) eqn:Ed.
  - assert (Hnil : recommended_indexes r = []).
    { destruct (recommended_indexes r) as [|x l]; [reflexivity|].
      assert (H : x :: l <> []) by discriminate.
      apply Hiff in H. discriminate. }
    rewrite Hnil. cbn. repeat split; try lia; constructor.
  - specialize (Hcols eq_refl). split; [|split; [|exact Hnames]].
    + rewrite <- (length_map column), Hcols. exact Hlen.
    + now rewrite Hcols.
Qed.

(** X16 on scenario A. *)
Lemma recommendation_lists_indexes_only_to_create_witness :
  exists r,
    analyze_workload (init 20 500) small_db "now" 1 (Some scenario_A)
    = Ok (Some r) /\
    (List.length (recommended_indexes r) <= 3)%nat.
Proof.
  eexists. split; [reflexivity|].
  exact (proj1 (proj2 (recommendation_lists_indexes_only_to_create
                         (init 20 500) small_db "now" 1 scenario_A _
                         eq_refl))).
Defined.
End Outcomes.

Section Retuning.
Import Alerter.

Lemma retuning_sizes O (cands : list string) :
  forall (seen : list string) (n : nat) (t : Q),
    NoDup (seen ++ cands) ->
    snd (retuning O cands n t
           (map (fun c => (c, get_real_index_size (probe O c))) seen))
    = map (fun c => (c, get_real_index_size (probe O c))) (seen ++ cands).
Proof.
  induction cands as [|c cs IH]; intros seen n t Hnd; cbn [retuning].
  - now rewrite app_nil_r.
  - rewrite (dict_set_absent (fun c => get_real_index_size (probe O c))).
    + change (map _ seen ++ [(c, get_real_index_size (probe O c))])%list
        with (map (fun c => (c, get_real_index_size (probe O c))) seen
              ++ map (fun c => (c, get_real_index_size (probe O c))) [c])%list.
      rewrite <- map_app. rewrite IH.
      * now rewrite <- app_assoc.
      * now rewrite <- app_assoc.
    + apply mem_false. intro Hin.
      apply NoDup_remove_2 in Hnd. apply Hnd. apply in_or_app. now left.
Qed.

Lemma retuning_cost O (c : Q) (cands : list string) :
  (forall n, estimate_create_index_cost (explain_count O n) == c) ->
  forall (n : nat) (t : Q) (d : dict Z),
    fst (retuning O cands n t d)
    == t + inject_Z (Z.of_nat (List.length cands)) * (c + c * (2 # 10)).
Proof.
  intro Hc. induction cands as [|x cs IH]; intros n t d; cbn [retuning].
  - cbn [fst List.length Z.of_nat]. unfold inject_Z. lra.
  - rewrite IH. unfold estimate_drop_index_cost. rewrite !Hc.
    cbn [List.length]. rewrite Nat2Z.inj_succ, <- Z.add_1_r, inject_Z_plus.
    change (inject_Z 1) with 1. ring.
Qed.

(** X17: the loop over the candidates probes each candidate once: when the
    candidates are all different, [index_sizes] lists them in order, each
    with its probed size (5000000 when the probe fails), and the space
    needed is the sum of these sizes. *)
Theorem retuning_sizes_each_candidate
    (O : oracle) (candidates : list string) :
  NoDup candidates ->
  let index_sizes := snd (retuning O candidates 0 0 []) in
  index_sizes
  = map (fun c => (c, get_real_index_size (probe O c))) candidates /\
  Py.sumZ (dict_values index_sizes)
  = Py.sumZ (map (fun c => get_real_index_size (probe O c)) candidates) /\
  ((forall c, probe O c = ProbeError \/ probe O c = ProbeNoRow) ->
   Py.sumZ (dict_values index_sizes)
   = (5000000 * Z.of_nat (List.length candidates))%Z).
Proof.
  intros Hnd index_sizes.
  assert (H : index_sizes
              = map (fun c => (c, get_real_index_size (probe O c)))
                    candidates).
  { apply (retuning_sizes O candidates [] 0 0 Hnd). }
  split; [exact H|]. rewrite H. unfold dict_values. rewrite map_map.
  cbn [snd]. split; [reflexivity|].
  intro Hfail. clear H index_sizes Hnd.
  induction candidates as [|c cs IH] using rev_ind; [reflexivity|].
  rewrite map_app, length_app. cbn [map List.length].
  rewrite sumZ_snoc, IH.
  destruct (Hfail c) as [-> | ->]; cbn [get_real_index_size]; lia.
Qed.

(** X17 with two candidates whose probes fail. *)
Lemma retuning_sizes_each_candidate_witness :
  let O := {| pg_indexes := Ok []; explain_count := fun _ => None;
              probe := fun _ => ProbeError |} in
  NoDup ["a"; "b"] /\
  (forall c, probe O c = ProbeError \/ probe O c = ProbeNoRow) /\
  Py.sumZ (dict_values (snd (retuning O ["a"; "b"] 0 0 []))) = 10000000%Z.
Proof.
  intro O.
  assert (Hnd : NoDup ["a"; "b"]).
  { constructor; [intros [H|[]]; discriminate|].
    constructor; [intros []|constructor]. }
  assert (Hf : forall c, probe O c = ProbeError \/ probe O c = ProbeNoRow)
    by (intro; now left).
  split; [exact Hnd|]. split; [exact Hf|].
  exact (proj2 (proj2 (retuning_sizes_each_candidate O ["a"; "b"] Hnd)) Hf).
Defined.

(** X18: when every cost estimate of the run gives the same cost [c], the
    retuning cost is 1.2 times [c] for each candidate, creation plus a
    drop at a fifth of it; when every estimate fails it is 1200 for each
    candidate. *)
Theorem retuning_cost_per_candidate
    (O : oracle) (candidates : list string) (c : Q) :
  (forall n, estimate_create_index_cost (explain_count O n) == c) ->
  fst (retuning O candidates 0 0 [])
  == inject_Z (Z.of_nat (List.length candidates)) * (c * (12 # 10)) /\
  ((forall n, explain_count O n = None) ->
   fst (retuning O candidates 0 0 [])
   == inject_Z (Z.of_nat (List.length candidates)) * 1200).
Proof.
  intro Hc. split.
  - rewrite (retuning_cost O c candidates Hc). lra.
  - intro Hnone.
    rewrite (retuning_cost O 1000 candidates).
    + lra.
    + intro n. now rewrite Hnone.
Qed.

(** X18 on a database where a full count costs 100. *)
Lemma retuning_cost_per_candidate_witness :
  (forall n, estimate_create_index_cost (explain_count small_db n) == 100)
  /\ fst (retuning small_db ["a"; "b"] 0 0 []) == 240.
Proof.
  assert (H : forall n,
             estimate_create_index_cost (explain_count small_db n) == 100)
    by (intro; reflexivity).
  split; [exact H|].
  rewrite (proj1 (retuning_cost_per_candidate small_db ["a"; "b"] 100 H)).
  reflexivity.
Defined.
End Retuning.

Section SnapshotExamples.
Import Alerter.

(** X12 at one sample that costs 100 without indexes and 40 with them. *)
Lemma improvement_value_is_total_saving_witness :
  let x := {| s_info := None; s_query := "q"; s_tables := ["orders"];
              s_columns := ["o_totalprice"];
              s_baseline := 100; s_optimized := 40 |} in
  let snapshot := load {| Runner.workload_id := 1;
                          Runner.run_time := "t0";
                          Runner.queries := record_all [x];
                          Runner.phases_completed := 1;
                          Runner.stats_hot_columns := ["o_totalprice"];
                          Runner.last_save := "t1" |} in
  exists r,
    analyze_workload (init 20 500) small_db "now" 1 (Some snapshot)
    = Ok (Some r) /\
    improvement_value r = Py.round2 (Py.sum [100 - 40]).
Proof.
  intros x snapshot. eexists. split; [reflexivity|].
  exact (proj2 (improvement_value_is_total_saving (init 20 500) small_db
                  "now" 1 1 "t0" "t1" 1 ["o_totalprice"] [x]) _ eq_refl).
Defined.
End SnapshotExamples.

Section MinMaxAsComputed.
Import Runner.

(** X19: for samples with non-negative costs, min_improvement_pct is the
    minimum of the improvements of the samples recorded under the key, and
    max_improvement_pct is the larger of -100 and their maximum. *)
Theorem min_and_max_as_computed
    (xs : list sample) (k : string) (e : query_stats) :
  Forall nonneg xs ->
  dict_get k (record_all xs) = Some e ->
  let improvements := map improvement (of_key k xs) in
  min_improvement_pct e == minimum improvements /\
  max_improvement_pct e == Qmax (-100) (maximum improvements) /\
  (-100 <= maximum improvements ->
   max_improvement_pct e == maximum improvements).
Proof.
  intros Hnn Hget improvements.
  pose proof (min_improvement_is_minimum xs k e Hnn Hget) as Hmin.
  pose proof (max_improvement_is_clamped xs k e Hget) as Hmax.
  fold improvements in Hmin, Hmax.
  split; [exact Hmin|]. split; [exact Hmax|].
  intro H. rewrite Hmax. now apply Q.max_r.
Qed.

(** X19 at two samples of one query. *)
Lemma min_and_max_as_computed_witness :
  let x1 := {| s_info := None; s_query := "q"; s_tables := ["orders"];
               s_columns := ["o_totalprice"];
               s_baseline := 100; s_optimized := 40 |} in
  let x2 := {| s_info := None; s_query := "q"; s_tables := ["orders"];
               s_columns := ["o_totalprice"];
               s_baseline := 50; s_optimized := 45 |} in
  Forall nonneg [x1; x2] /\
  -100 <= maximum (map improvement (of_key "q" [x1; x2])) /\
  exists e,
    dict_get "q" (record_all [x1; x2]) = Some e /\
    min_improvement_pct e == 10 /\
    max_improvement_pct e == 60.
Proof.
  intros x1 x2.
  assert (Hnn : Forall nonneg [x1; x2]).
  { repeat constructor; discriminate. }
  assert (Hlow : -100 <= maximum (map improvement (of_key "q" [x1; x2])))
    by discriminate.
  split; [exact Hnn|]. split; [exact Hlow|].
  eexists. split; [reflexivity|].
  destruct (min_and_max_as_computed [x1; x2] "q" _ Hnn eq_refl)
    as (Hmin & _ & Hmax).
  split.
  - rewrite Hmin. reflexivity.
  - rewrite (Hmax Hlow). reflexivity.
Defined.
End MinMaxAsComputed.

Section ThresholdAbove100.
Import Alerter.

Lemma dict_get_In {V : Type} (d : dict V) (k : string) (v : V) :
  NoDup (map fst d) -> In (k, v) d -> dict_get k d = Some v.
Proof.
  induction d as [|[k' v'] d IH]; intros Hnd Hin; [contradiction|].
  cbn [map fst] in Hnd. inversion Hnd as [|? ? Hk Hd]; subst.
  cbn [dict_get]. destruct Hin as [E|Hin].
  - injection E as -> ->. now rewrite String.eqb_refl.
  - destruct (String.eqb k k') eqn:E; [|now apply IH].
    apply String.eqb_eq in E. subst k'. exfalso. apply Hk.
    apply in_map_iff. now exists (k, v).
Qed.

Lemma record_all_keys (xs : list sample) :
  NoDup (map fst (record_all xs)).
Proof.
  induction xs as [|x xs IH] using rev_ind; [constructor|].
  unfold record_all in *. rewrite fold_left_app; cbn [fold_left].
  unfold record at 1, Runner.record_execution. rewrite dict_set_keys.
  destruct (Py.mem _ _) eqn:E; [exact IH|].
  apply NoDup_app; [exact IH|repeat constructor; intros []|].
  intros k Hk [<-|[]]. apply (proj1 (mem_false _ _)) in E. contradiction.
Qed.

Lemma stored_avg_le_100 (xs : list sample) (k : string)
    (e : Runner.query_stats) :
  Forall nonneg xs -> In (k, e) (record_all xs) ->
  Runner.avg_improvement_pct e <= 100.
Proof.
  intros Hnn Hin.
  pose proof (dict_get_In _ _ _ (record_all_keys xs) Hin) as Hget.
  pose proof (record_all_entry xs k) as Hinv. rewrite Hget in Hinv.
  destruct Hinv as (_ & _ & Hb & Ho & Havg & _).
  pose proof (sum_baseline_nonneg _ (of_key_nonneg k _ Hnn)) as Hsb.
  pose proof (sum_optimized_nonneg _ (of_key_nonneg k _ Hnn)) as Hso.
  rewrite Havg.
  destruct (Qltb 0 (Runner.total_baseline_cost e)) eqn:E; [|discriminate].
  apply Qltb_true in E. apply ratio_le_100; [exact E|now rewrite Ho].
Qed.

Lemma mean_le_100 (l : list Q) :
  Forall (fun a => a <= 100) l -> mean l <= 100.
Proof.
  intro H. unfold mean. destruct l as [|a l']; [discriminate|].
  set (l := a :: l') in *.
  assert (Hsum : forall l0, Forall (fun a => a <= 100) l0 ->
                 Py.sum l0 <= 100 * inject_Z (Z.of_nat (List.length l0))).
  { intros l0 H0. induction l0 as [|b l0 IH] using rev_ind.
    - cbn. discriminate.
    - apply Forall_app in H0. destruct H0 as [H1 H2].
      inversion H2; subst. specialize (IH H1).
      rewrite Py_sum_snoc, length_app. cbn [List.length].
      rewrite Nat2Z.inj_add, inject_Z_plus.
      change (inject_Z (Z.of_nat 1)) with 1. lra. }
  apply Qle_shift_div_r.
  - unfold l. cbn [List.length]. rewrite Nat2Z.inj_succ, <- Z.add_1_r.
    rewrite inject_Z_plus. change (inject_Z 1) with 1.
    assert (0 <= inject_Z (Z.of_nat (List.length l'))).
    { change 0 with (inject_Z 0). rewrite <- Zle_Qle. lia. }
    lra.
  - now apply Hsum.
Qed.

(** X20: on a snapshot written by the runner from samples with
    non-negative costs, the mean improvement is at most 100, so an alerter
    configured with a threshold above 100 never decides CREATE_INDEXES. *)
Theorem threshold_above_100_never_creates
    (cfg : config) (O : oracle) (now : string) (wid : Z)
    (run_wid : Z) (run_time last_save : string) (phases : nat)
    (hot : list string) (xs : list sample) (r : recommendation) :
  Forall nonneg xs ->
  100 < improvement_threshold cfg ->
  let snapshot := load {| Runner.workload_id := run_wid;
                          Runner.run_time := run_time;
                          Runner.queries := record_all xs;
                          Runner.phases_completed := phases;
                          Runner.stats_hot_columns := hot;
                          Runner.last_save := last_save |} in
  analyze_workload cfg O now wid (Some snapshot) = Ok (Some r) ->
  decision r = NO_ACTION /\ recommended_indexes r = [].
Proof.
  intros Hnn Hthr snapshot Hr.
  apply analyze_workload_returns in Hr. destruct Hr as (existing & _ & ->).
  cbn [snapshot load queries measurements get Runner.queries].
  set (qd := map (fun kv => (fst kv, load_entry (snd kv))) (record_all xs)).
  assert (Havg : mean (all_improvement_pcts (collect qd [])) <= 100).
  { apply mean_le_100. unfold collect.
    destruct qd as [|kv0 qs0] eqn:Eq; [constructor|].
    rewrite <- Eq. rewrite fold_add_query_pcts. cbn [totals0
      all_improvement_pcts app]. unfold qd. rewrite map_map.
    cbn [snd load_entry avg_improvement_pct get].
    apply Forall_map. apply Forall_forall. intros [k e] Hin. cbn [snd].
    now apply (stored_avg_le_100 xs k). }
  unfold conclude. destruct (candidates_of _ existing) as [|c cs];
    [now split|].
  destruct (retuning O (c :: cs) 0 0 []) as [trc sizes].
  destruct (decide_cases cfg (mean (all_improvement_pcts (collect qd [])))
              (total_improvement_cost (collect qd []) - trc)
              (Py.sumZ (dict_values sizes))) as (D1 & _).
  rewrite D1 by lra. now split.
Qed.

(** X20 with a threshold of 150. *)
Lemma threshold_above_100_never_creates_witness :
  let x := {| s_info := None; s_query := "q"; s_tables := ["orders"];
              s_columns := ["o_totalprice"];
              s_baseline := 100; s_optimized := 1 |} in
  let snapshot := load {| Runner.workload_id := 1;
                          Runner.run_time := "t0";
                          Runner.queries := record_all [x];
                          Runner.phases_completed := 1;
                          Runner.stats_hot_columns := ["o_totalprice"];
                          Runner.last_save := "t1" |} in
  Forall nonneg [x] /\
  100 < improvement_threshold (init 150 500) /\
  exists r,
    analyze_workload (init 150 500) small_db "now" 1 (Some snapshot)
    = Ok (Some r) /\
    decision r = NO_ACTION.
Proof.
  intros x snapshot.
  assert (Hnn : Forall nonneg [x]) by (repeat constructor; discriminate).
  assert (Hthr : 100 < improvement_threshold (init 150 500)) by reflexivity.
  split; [exact Hnn|]. split; [exact Hthr|].
  eexists. split; [reflexivity|].
  exact (proj1 (threshold_above_100_never_creates (init 150 500) small_db
                  "now" 1 1 "t0" "t1" 1 ["o_totalprice"] [x] _ Hnn Hthr
                  eq_refl)).
Defined.
End ThresholdAbove100.
